(** * GLQueueRunner: the deferred OpenGL command-queue executor of
      ext/native/thin3d/GLQueueRunner.cpp, as a shallow embedding.

    The C++ code talks to an OpenGL driver and mutates objects reached through
    pointers.  Here

    - every driver call, log line and [delete] is an [Event] appended to a
      trace, in program order;
    - the objects ([GLRTexture], [GLRShader], [GLRFramebuffer], ...) live in a
      [Heap] of finite maps from addresses;
    - the members of the runner are the record [GLQueueRunner];
    - what the driver answers (fresh names, compile and link status, uniform
      locations) comes from the environment [Env];
    - a failed assertion, [Crash()] or a dangling pointer ends the run with a
      [Fault].

    32-bit integers are [Z] with the wrap-around written where the code can
    reach it; C [float] is IEEE binary32 from [SpecFloat]. *)

From Stdlib Require Import ZArith List String Bool Lia DecimalString.
From Stdlib Require Import Floats.SpecFloat.
From stdpp Require Import base gmap.
Import ListNotations.
Local Open Scope string_scope.
Local Open Scope list_scope.
Local Open Scope Z_scope.

(** ** Machine numbers *)

Definition to_u32 (z : Z) : Z := z mod 2 ^ 32.
Definition to_s32 (z : Z) : Z := (z + 2 ^ 31) mod 2 ^ 32 - 2 ^ 31.

(** [(1 << i)] and the test [x & (1 << i)] of the attribute loops. *)
Definition bit (i : Z) : Z := Z.shiftl 1 i.
Definition has_bit (x i : Z) : bool := negb (Z.land x (bit i) =? 0).

Module F32.
Definition prec : Z := 24.
Definition emax : Z := 128.
Definition zero : spec_float := S754_zero false.
Definition sub (x y : spec_float) : spec_float := SFsub prec emax x y.
Definition of_int (z : Z) : spec_float := binary_normalize prec emax z 0 false.
(** C's [(GLint)x]: truncation towards zero.  A value out of the range of
    [int], an infinity or a NaN is undefined in C++; the model gives what the
    conversion instruction of the compiled code gives there, [INT_MIN]. *)
Definition to_int (x : spec_float) : Z :=
  match x with
  | S754_zero _ => 0
  | S754_finite s m e =>
      let mag := match e with
                 | Z.neg _ => Z.shiftr (Z.pos m) (- e)
                 | _ => Z.shiftl (Z.pos m) e
                 end in
      let v := if s then - mag else mag in
      if (- 2 ^ 31 <=? v) && (v <? 2 ^ 31) then v else - 2 ^ 31
  | _ => - 2 ^ 31
  end.
(** C's [x != y]. *)
Definition neb (x y : spec_float) : bool := negb (SFeqb x y).
End F32.

Abbreviation GLfloat := spec_float.
Abbreviation ptr := positive.

(** ** OpenGL constants used by the runner (values of the Khronos headers) *)

Definition TEXCACHE_NAME_CACHE_SIZE : Z := 16.
Definition MAX_INFO_LOG_SIZE : Z := 2048.
Definition SEM_MAX : Z := 7.

Definition GL_FALSE : Z := 0.
Definition GL_TRUE : Z := 1.
Definition GL_TEXTURE0 : Z := 0x84C0.
Definition GL_TEXTURE_2D : Z := 0x0DE1.
Definition GL_RENDERBUFFER : Z := 0x8D41.
Definition GL_RENDERBUFFER_EXT : Z := 0x8D41.
Definition GL_FRAMEBUFFER : Z := 0x8D40.
Definition GL_FRAMEBUFFER_EXT : Z := 0x8D40.
Definition GL_READ_FRAMEBUFFER : Z := 0x8CA8.
Definition GL_DRAW_FRAMEBUFFER : Z := 0x8CA9.
Definition GL_ARRAY_BUFFER : Z := 0x8892.
Definition GL_ELEMENT_ARRAY_BUFFER : Z := 0x8893.
Definition GL_DEPTH_BUFFER_BIT : Z := 0x0100.
Definition GL_STENCIL_BUFFER_BIT : Z := 0x0400.
Definition GL_COLOR_BUFFER_BIT : Z := 0x4000.
Definition GL_SCISSOR_TEST : Z := 0x0C11.
Definition GL_DEPTH_TEST : Z := 0x0B71.
Definition GL_STENCIL_TEST : Z := 0x0B90.
Definition GL_BLEND : Z := 0x0BE2.
Definition GL_CULL_FACE : Z := 0x0B44.
Definition GL_DITHER : Z := 0x0BD0.
Definition GL_FRAGMENT_SHADER : Z := 0x8B30.
Definition GL_VERTEX_SHADER : Z := 0x8B31.
Definition GL_COMPILE_STATUS : Z := 0x8B81.
Definition GL_LINK_STATUS : Z := 0x8B82.
Definition GL_INFO_LOG_LENGTH : Z := 0x8B84.
Definition GL_RGBA : Z := 0x1908.
Definition GL_UNSIGNED_BYTE : Z := 0x1401.
Definition GL_NEAREST : Z := 0x2600.
Definition GL_LINEAR : Z := 0x2601.
Definition GL_TEXTURE_MAG_FILTER : Z := 0x2800.
Definition GL_TEXTURE_MIN_FILTER : Z := 0x2801.
Definition GL_TEXTURE_WRAP_S : Z := 0x2802.
Definition GL_TEXTURE_WRAP_T : Z := 0x2803.
Definition GL_CLAMP_TO_EDGE : Z := 0x812F.
Definition GL_TEXTURE_MIN_LOD : Z := 0x813A.
Definition GL_TEXTURE_MAX_LOD : Z := 0x813B.
Definition GL_TEXTURE_LOD_BIAS : Z := 0x8501.
Definition GL_TEXTURE_MAX_ANISOTROPY_EXT : Z := 0x84FE.
Definition GL_MAX_TEXTURE_MAX_ANISOTROPY_EXT : Z := 0x84FF.
Definition GL_DEPTH_COMPONENT16 : Z := 0x81A5.
Definition GL_DEPTH_COMPONENT24 : Z := 0x81A6.
Definition GL_DEPTH_STENCIL_EXT : Z := 0x84F9.
Definition GL_DEPTH24_STENCIL8 : Z := 0x88F0.
Definition GL_DEPTH24_STENCIL8_OES : Z := 0x88F0.
Definition GL_STENCIL_INDEX8 : Z := 0x8D48.
Definition GL_COLOR_ATTACHMENT0 : Z := 0x8CE0.
Definition GL_COLOR_ATTACHMENT0_EXT : Z := 0x8CE0.
Definition GL_DEPTH_ATTACHMENT : Z := 0x8D00.
Definition GL_DEPTH_ATTACHMENT_EXT : Z := 0x8D00.
Definition GL_STENCIL_ATTACHMENT : Z := 0x8D20.
Definition GL_STENCIL_ATTACHMENT_EXT : Z := 0x8D20.
Definition GL_FRAMEBUFFER_COMPLETE : Z := 0x8CD5.
Definition GL_FRAMEBUFFER_INCOMPLETE_ATTACHMENT : Z := 0x8CD6.
Definition GL_FRAMEBUFFER_UNSUPPORTED : Z := 0x8CDD.

(** ** The trace *)

Inductive Arg :=
| I (z : Z)          (* an integer, enum, name or byte offset *)
| F (f : GLfloat)    (* a float *)
| S (s : string)     (* a C string *)
| P (p : ptr).       (* the address of client memory *)

Inductive LogLevel := ILOG | ELOG | FLOG.

Inductive Event :=
| GL (fn : string) (args : list Arg)      (* a driver call, by name *)
| Log (level : LogLevel) (msg : string)
| Delete (what : Arg).                    (* delete / delete[] *)

Definition is_call (fn : string) (e : Event) : bool :=
  match e with
  | GL g _ => String.eqb fn g
  | _ => false
  end.

(** How many calls of the driver function [fn] a trace holds. *)
Definition count_calls (fn : string) (tr : list Event) : nat :=
  List.length (List.filter (is_call fn) tr).

(** How many times exactly the event [e] occurs. *)
Definition event_eqb_int1 (fn : string) (z : Z) (e : Event) : bool :=
  match e with
  | GL g [I a] => String.eqb fn g && (a =? z)
  | _ => false
  end.
Definition count_call1 (fn : string) (z : Z) (tr : list Event) : nat :=
  List.length (List.filter (event_eqb_int1 fn z) tr).

(** ** Objects *)

Record GLRTexture := { texture : Z; target : Z }.
Record GLRBuffer := { buffer : Z; target_ : Z }.
Record GLRShader := { shader : Z; valid : bool }.

Record Semantic := { sem_location : Z; attrib : string }.
Record UniformLocQuery := { dest : ptr; name : option string }.
Record Initializer := { uniform : ptr; init_type : Z; value : Z }.
Record GLRProgram := {
  program : Z;
  semantics_ : list Semantic;
  queries_ : list UniformLocQuery;
  initialize_ : list Initializer
}.

Record Entry := {
  location : Z; count : Z; type : Z; normalized : bool; stride : Z; offset : Z
}.
Record GLRInputLayout := { semanticsMask_ : Z; entries : list Entry }.

Record GLRFramebuffer := {
  handle : Z;
  framebuf : Z;
  color_texture : Z;
  z_stencil_buffer : Z;
  z_buffer : Z;
  stencil_buffer : Z;
  width : Z;
  height : Z
}.

Record Heap := {
  textures : gmap ptr GLRTexture;
  buffers : gmap ptr GLRBuffer;
  shaders : gmap ptr GLRShader;
  programs : gmap ptr GLRProgram;
  inputLayouts : gmap ptr GLRInputLayout;
  framebuffers : gmap ptr GLRFramebuffer;
  ints : gmap ptr Z                         (* the GLint cells of uniform locations *)
}.

(** The members of [GLQueueRunner]. *)
Record GLQueueRunner := {
  nameCache_ : list Z;
  currentDrawHandle_ : Z;
  currentReadHandle_ : Z;
  curFB_ : option ptr;
  curFramebuffer_ : option ptr;
  curFBWidth_ : Z;
  curFBHeight_ : Z;
  targetWidth_ : Z;
  targetHeight_ : Z;
  globalVAO_ : Z;
  maxAnisotropyLevel_ : GLfloat
}.

Record World := {
  this : GLQueueRunner;
  heap : Heap;
  next_name : positive                      (* the driver's supply of unused names *)
}.

(** ** Environment: build flags, detected extensions, the driver's answers *)

Record Build := {
  USING_GLES2 : bool;
  IOS : bool;
  WIN32 : bool;
  DEBUG_ASSERTS : bool       (* whether _dbg_assert_msg_ is compiled in *)
}.

Record GLExtensions := {
  IsGLES : bool;
  GLES3 : bool;
  ARB_framebuffer_object : bool;
  EXT_framebuffer_object : bool;
  OES_packed_depth_stencil : bool;
  OES_depth24 : bool;
  NV_framebuffer_blit : bool;
  ARB_copy_image : bool;
  NV_copy_image : bool;
  VersionGEThan_3_3_0 : bool
}.

Record Driver := {
  compile_status : Z -> string -> bool;     (* stage, source *)
  shader_info_log : Z -> string -> string;
  link_status : Z -> bool;                  (* program name *)
  program_info_log : Z -> string;           (* empty: GL_INFO_LOG_LENGTH is 0 *)
  uniform_location : Z -> string -> Z;
  framebuffer_status : Z -> Z;              (* of the framebuffer bound to GL_FRAMEBUFFER *)
  max_anisotropy : GLfloat
}.

Record Env := {
  build : Build;
  gl_extensions : GLExtensions;
  GPU_SUPPORTS_DUALSOURCE_BLEND : bool;     (* gstate_c.featureFlags & ... *)
  g_defaultFBO : Z;
  driver : Driver;
  Uint8x4ToFloat4 : Z -> list GLfloat       (* math/dataconv.h *)
}.

(** ** The execution monad: state, trace and faults *)

Inductive Fault :=
| AssertFailed (msg : string)
| Crashed
| BadPointer.

Inductive Outcome (A : Type) :=
| Ok (a : A) (w : World)
| Fatal (f : Fault).
Arguments Ok {A} a w.
Arguments Fatal {A} f.

Definition M (A : Type) : Type := World -> list Event * Outcome A.

Definition ret {A} (a : A) : M A := fun w => ([], Ok a w).
Definition bind {A B} (m : M A) (f : A -> M B) : M B :=
  fun w =>
    match m w with
    | (t1, Ok a w1) => let (t2, o) := f a w1 in (t1 ++ t2, o)
    | (t1, Fatal e) => (t1, Fatal e)
    end.
Definition fail {A} (e : Fault) : M A := fun _ => ([], Fatal e).
Definition emit (e : Event) : M unit := fun w => ([e], Ok tt w).
Definition get_world : M World := fun w => ([], Ok w w).
Definition put_world (w : World) : M unit := fun _ => ([], Ok tt w).

Declare Scope glr_scope.
Delimit Scope glr_scope with glr.
Notation "x <- c1 ;; c2" := (bind c1 (fun x => c2))
  (at level 100, c1 at next level, right associativity) : glr_scope.
Notation "c1 ;; c2" := (bind c1 (fun _ => c2))
  (at level 100, right associativity) : glr_scope.
Local Open Scope glr_scope.

Definition gl (fn : string) (args : list Arg) : M unit := emit (GL fn args).
(** Modelled from the spec: the macros ILOG, ELOG and FLOG of base/logging.h,
    which is not among the sources.  They write a line and execution goes
    on. *)
Definition log (l : LogLevel) (msg : string) : M unit := emit (Log l msg).

Definition when (b : bool) (m : M unit) : M unit := if b then m else ret tt.

(** [for (auto x : l) body(x)] *)
Fixpoint for_each {A} (l : list A) (body : A -> M unit) : M unit :=
  match l with
  | [] => ret tt
  | x :: l' => body x ;; for_each l' body
  end.

(** [for (int i = lo; i < lo + n; i++) body(i)] *)
Definition for_range (lo : Z) (n : nat) (body : Z -> M unit) : M unit :=
  for_each (List.map (fun k => lo + Z.of_nat k) (List.seq 0 n)) body.

(** The trace and the final world of a run. *)
Definition trace_of {A} (r : list Event * Outcome A) : list Event := fst r.
Definition world_of {A} (r : list Event * Outcome A) : option World :=
  match snd r with
  | Ok _ w => Some w
  | Fatal _ => None
  end.
Definition fault_of {A} (r : list Event * Outcome A) : option Fault :=
  match snd r with
  | Ok _ _ => None
  | Fatal f => Some f
  end.

(** ** Reading and writing the heap and the runner's members *)

Definition deref {T} (sel : Heap -> gmap ptr T) (p : ptr) : M T :=
  fun w =>
    match sel (heap w) !! p with
    | Some x => ([], Ok x w)
    | None => ([], Fatal BadPointer)
    end.

Definition set_heap (h : Heap) (w : World) : World :=
  {| this := this w; heap := h; next_name := next_name w |}.
Definition set_this (r : GLQueueRunner) (w : World) : World :=
  {| this := r; heap := heap w; next_name := next_name w |}.

Definition with_textures (m : gmap ptr GLRTexture) (h : Heap) : Heap :=
  {| textures := m; buffers := buffers h; shaders := shaders h; programs := programs h;
     inputLayouts := inputLayouts h; framebuffers := framebuffers h; ints := ints h |}.
Definition with_buffers (m : gmap ptr GLRBuffer) (h : Heap) : Heap :=
  {| textures := textures h; buffers := m; shaders := shaders h; programs := programs h;
     inputLayouts := inputLayouts h; framebuffers := framebuffers h; ints := ints h |}.
Definition with_shaders (m : gmap ptr GLRShader) (h : Heap) : Heap :=
  {| textures := textures h; buffers := buffers h; shaders := m; programs := programs h;
     inputLayouts := inputLayouts h; framebuffers := framebuffers h; ints := ints h |}.
Definition with_programs (m : gmap ptr GLRProgram) (h : Heap) : Heap :=
  {| textures := textures h; buffers := buffers h; shaders := shaders h; programs := m;
     inputLayouts := inputLayouts h; framebuffers := framebuffers h; ints := ints h |}.
Definition with_framebuffers (m : gmap ptr GLRFramebuffer) (h : Heap) : Heap :=
  {| textures := textures h; buffers := buffers h; shaders := shaders h; programs := programs h;
     inputLayouts := inputLayouts h; framebuffers := m; ints := ints h |}.
Definition with_ints (m : gmap ptr Z) (h : Heap) : Heap :=
  {| textures := textures h; buffers := buffers h; shaders := shaders h; programs := programs h;
     inputLayouts := inputLayouts h; framebuffers := framebuffers h; ints := m |}.

Definition modify_heap (f : Heap -> Heap) : M unit :=
  fun w => ([], Ok tt (set_heap (f (heap w)) w)).
Definition modify_this (f : GLQueueRunner -> GLQueueRunner) : M unit :=
  fun w => ([], Ok tt (set_this (f (this w)) w)).
Definition member {A} (f : GLQueueRunner -> A) : M A :=
  fun w => ([], Ok (f (this w)) w).

(** [p->field = v] on an object that must exist. *)
Definition assign {T} (sel : Heap -> gmap ptr T) (upd : gmap ptr T -> Heap -> Heap)
    (p : ptr) (f : T -> T) : M unit :=
  x <- deref sel p ;;
  modify_heap (fun h => upd (<[p := f x]> (sel h)) h).

Definition set_texture (v : Z) (t : GLRTexture) : GLRTexture :=
  {| texture := v; target := target t |}.
Definition set_buffer (v : Z) (b : GLRBuffer) : GLRBuffer :=
  {| buffer := v; target_ := target_ b |}.
Definition set_shader (v : Z) (s : GLRShader) : GLRShader :=
  {| shader := v; valid := valid s |}.
Definition set_valid (v : bool) (s : GLRShader) : GLRShader :=
  {| shader := shader s; valid := v |}.
Definition set_program (v : Z) (p : GLRProgram) : GLRProgram :=
  {| program := v; semantics_ := semantics_ p; queries_ := queries_ p;
     initialize_ := initialize_ p |}.

Definition set_handle (v : Z) (f : GLRFramebuffer) : GLRFramebuffer :=
  {| handle := v; framebuf := framebuf f; color_texture := color_texture f;
     z_stencil_buffer := z_stencil_buffer f; z_buffer := z_buffer f;
     stencil_buffer := stencil_buffer f; width := width f; height := height f |}.
Definition set_color_texture (v : Z) (f : GLRFramebuffer) : GLRFramebuffer :=
  {| handle := handle f; framebuf := framebuf f; color_texture := v;
     z_stencil_buffer := z_stencil_buffer f; z_buffer := z_buffer f;
     stencil_buffer := stencil_buffer f; width := width f; height := height f |}.
Definition set_z_stencil_buffer (v : Z) (f : GLRFramebuffer) : GLRFramebuffer :=
  {| handle := handle f; framebuf := framebuf f; color_texture := color_texture f;
     z_stencil_buffer := v; z_buffer := z_buffer f;
     stencil_buffer := stencil_buffer f; width := width f; height := height f |}.
Definition set_z_buffer (v : Z) (f : GLRFramebuffer) : GLRFramebuffer :=
  {| handle := handle f; framebuf := framebuf f; color_texture := color_texture f;
     z_stencil_buffer := z_stencil_buffer f; z_buffer := v;
     stencil_buffer := stencil_buffer f; width := width f; height := height f |}.
Definition set_stencil_buffer (v : Z) (f : GLRFramebuffer) : GLRFramebuffer :=
  {| handle := handle f; framebuf := framebuf f; color_texture := color_texture f;
     z_stencil_buffer := z_stencil_buffer f; z_buffer := z_buffer f;
     stencil_buffer := v; width := width f; height := height f |}.

Definition set_nameCache_ (v : list Z) (r : GLQueueRunner) : GLQueueRunner :=
  {| nameCache_ := v; currentDrawHandle_ := currentDrawHandle_ r;
     currentReadHandle_ := currentReadHandle_ r; curFB_ := curFB_ r;
     curFramebuffer_ := curFramebuffer_ r; curFBWidth_ := curFBWidth_ r;
     curFBHeight_ := curFBHeight_ r; targetWidth_ := targetWidth_ r;
     targetHeight_ := targetHeight_ r; globalVAO_ := globalVAO_ r;
     maxAnisotropyLevel_ := maxAnisotropyLevel_ r |}.
Definition set_currentDrawHandle_ (v : Z) (r : GLQueueRunner) : GLQueueRunner :=
  {| nameCache_ := nameCache_ r; currentDrawHandle_ := v;
     currentReadHandle_ := currentReadHandle_ r; curFB_ := curFB_ r;
     curFramebuffer_ := curFramebuffer_ r; curFBWidth_ := curFBWidth_ r;
     curFBHeight_ := curFBHeight_ r; targetWidth_ := targetWidth_ r;
     targetHeight_ := targetHeight_ r; globalVAO_ := globalVAO_ r;
     maxAnisotropyLevel_ := maxAnisotropyLevel_ r |}.
Definition set_currentReadHandle_ (v : Z) (r : GLQueueRunner) : GLQueueRunner :=
  {| nameCache_ := nameCache_ r; currentDrawHandle_ := currentDrawHandle_ r;
     currentReadHandle_ := v; curFB_ := curFB_ r;
     curFramebuffer_ := curFramebuffer_ r; curFBWidth_ := curFBWidth_ r;
     curFBHeight_ := curFBHeight_ r; targetWidth_ := targetWidth_ r;
     targetHeight_ := targetHeight_ r; globalVAO_ := globalVAO_ r;
     maxAnisotropyLevel_ := maxAnisotropyLevel_ r |}.
Definition set_curFB (fb : option ptr) (w h : Z) (r : GLQueueRunner) : GLQueueRunner :=
  {| nameCache_ := nameCache_ r; currentDrawHandle_ := currentDrawHandle_ r;
     currentReadHandle_ := currentReadHandle_ r; curFB_ := fb;
     curFramebuffer_ := curFramebuffer_ r; curFBWidth_ := w;
     curFBHeight_ := h; targetWidth_ := targetWidth_ r;
     targetHeight_ := targetHeight_ r; globalVAO_ := globalVAO_ r;
     maxAnisotropyLevel_ := maxAnisotropyLevel_ r |}.
Definition set_globalVAO_ (v : Z) (r : GLQueueRunner) : GLQueueRunner :=
  {| nameCache_ := nameCache_ r; currentDrawHandle_ := currentDrawHandle_ r;
     currentReadHandle_ := currentReadHandle_ r; curFB_ := curFB_ r;
     curFramebuffer_ := curFramebuffer_ r; curFBWidth_ := curFBWidth_ r;
     curFBHeight_ := curFBHeight_ r; targetWidth_ := targetWidth_ r;
     targetHeight_ := targetHeight_ r; globalVAO_ := v;
     maxAnisotropyLevel_ := maxAnisotropyLevel_ r |}.
Definition set_maxAnisotropyLevel_ (v : GLfloat) (r : GLQueueRunner) : GLQueueRunner :=
  {| nameCache_ := nameCache_ r; currentDrawHandle_ := currentDrawHandle_ r;
     currentReadHandle_ := currentReadHandle_ r; curFB_ := curFB_ r;
     curFramebuffer_ := curFramebuffer_ r; curFBWidth_ := curFBWidth_ r;
     curFBHeight_ := curFBHeight_ r; targetWidth_ := targetWidth_ r;
     targetHeight_ := targetHeight_ r; globalVAO_ := globalVAO_ r;
     maxAnisotropyLevel_ := v |}.

(** ** What the driver hands back *)

(** [n] unused, non-zero names (OpenGL never hands out the name 0). *)
Definition fresh_names (n : nat) : M (list Z) :=
  fun w =>
    let p := next_name w in
    ([], Ok (List.map (fun k => Z.pos p + Z.of_nat k) (List.seq 0 n))
            {| this := this w; heap := heap w;
               next_name := Z.to_pos (Z.pos p + Z.of_nat n) |}).

(** [glGenTextures(n, out)], [glGenBuffers], [glGenFramebuffers], ...:
    the names written to [out] are recorded after [n]. *)
Definition glGen (fn : string) (n : Z) : M (list Z) :=
  names <- fresh_names (Z.to_nat n) ;;
  gl fn (I n :: List.map I names) ;;
  ret names.

(** [glGenX(1, &field)] *)
Definition glGen1 (fn : string) : M Z :=
  names <- glGen fn 1 ;;
  ret (List.hd 0 names).

(** [glCreateShader(stage)], [glCreateProgram()]: the result is recorded last. *)
Definition glCreate (fn : string) (args : list Arg) : M Z :=
  names <- fresh_names 1 ;;
  let n := List.hd 0 names in
  gl fn (args ++ [I n]) ;;
  ret n.

(** Modelled from the spec: the [_assert_msg_] macro of base/logging.h, which
    is not among the sources.  A violated assertion is the fatal,
    programming-error path: the run ends there. *)
Definition _assert_msg_ (cond : bool) (msg : string) : M unit :=
  if cond then ret tt else fail (AssertFailed msg).

(** Modelled from the spec: [Crash()] of base/logging.h, the fatal path of an
    unknown tag. *)
Definition Crash : M unit := fail Crashed.

(** ** Steps and commands *)

Inductive GLRInitStep :=
| CREATE_TEXTURE (texture : ptr)
| CREATE_BUFFER (buffer : ptr) (size usage : Z)
| BUFFER_SUBDATA (buffer : ptr) (offset size : Z) (data : ptr) (deleteData : bool)
| CREATE_PROGRAM (program : ptr) (shaders : list ptr) (num_shaders : Z)
    (support_dual_source : bool)
| CREATE_SHADER (shader : ptr) (code : string) (stage : Z)
| CREATE_INPUT_LAYOUT (inputLayout : ptr)
| CREATE_FRAMEBUFFER (framebuffer : ptr)
| TEXTURE_SUBDATA
| TEXTURE_IMAGE (texture : ptr) (level internalFormat width height format type : Z)
    (linearFilter : bool) (data : ptr).

Inductive GLRRenderData :=
| DEPTH (enabled write : bool) (func : Z)
| BLEND (enabled : bool) (funcColor funcAlpha srcColor dstColor srcAlpha dstAlpha mask : Z)
| CLEAR (clearMask clearColor : Z) (clearZ : GLfloat) (clearStencil : Z)
| BLENDCOLOR (color : list GLfloat)
| VIEWPORT (x y w h minZ maxZ : GLfloat)
| SCISSOR (x y w h : Z)
| UNIFORM4F (loc : option ptr) (name : option string) (count : Z) (v : list GLfloat)
| UNIFORM4I (loc : option ptr) (name : option string) (count : Z) (v : list Z)
| UNIFORMMATRIX (loc : option ptr) (name : option string) (m : list GLfloat)
| STENCILFUNC (enabled : bool) (func ref compareMask : Z)
| STENCILOP (sFail zFail pass writeMask : Z)
| BINDTEXTURE (slot : Z) (texture : option ptr)
| BIND_FB_TEXTURE (slot : Z) (framebuffer : ptr) (aspect : Z)
| BINDPROGRAM (program : ptr)
| BIND_INPUT_LAYOUT (inputLayout : ptr) (offset : Z)
| BIND_BUFFER (target : Z) (buffer : option ptr)
| GENMIPS
| DRAW (mode first count : Z)
| DRAW_INDEXED (mode count indexType indices instances : Z)
| TEXTURESAMPLER (wrapS wrapT magFilter minFilter : Z) (anisotropy : GLfloat)
| TEXTURELOD (minLod maxLod lodBias : GLfloat)
| RASTER (cullEnable : bool) (frontFace cullFace : Z) (ditherEnable : bool).

Record GLRect2D := { rc_x : Z; rc_y : Z; rc_w : Z; rc_h : Z }.
Record GLOffset2D := { pos_x : Z; pos_y : Z }.

Record CopyData := {
  src : ptr;
  dst : ptr;
  srcRect : GLRect2D;
  dstPos : GLOffset2D;
  aspectMask : Z
}.

Inductive GLRStep :=
| RENDER (framebuffer : option ptr) (commands : list GLRRenderData)
| COPY (copy : CopyData)
| BLIT
| READBACK
| READBACK_IMAGE.

(** The filtering state local to one render pass. *)
Record PassState := {
  curProgram : option ptr;
  activeTexture : Z;
  attrMask : Z;
  curArrayBuffer : Z;
  curElemArrayBuffer : Z
}.

Definition set_curProgram (v : option ptr) (s : PassState) : PassState :=
  {| curProgram := v; activeTexture := activeTexture s; attrMask := attrMask s;
     curArrayBuffer := curArrayBuffer s; curElemArrayBuffer := curElemArrayBuffer s |}.
Definition set_activeTexture (v : Z) (s : PassState) : PassState :=
  {| curProgram := curProgram s; activeTexture := v; attrMask := attrMask s;
     curArrayBuffer := curArrayBuffer s; curElemArrayBuffer := curElemArrayBuffer s |}.
Definition set_attrMask (v : Z) (s : PassState) : PassState :=
  {| curProgram := curProgram s; activeTexture := activeTexture s; attrMask := v;
     curArrayBuffer := curArrayBuffer s; curElemArrayBuffer := curElemArrayBuffer s |}.
Definition set_curArrayBuffer (v : Z) (s : PassState) : PassState :=
  {| curProgram := curProgram s; activeTexture := activeTexture s; attrMask := attrMask s;
     curArrayBuffer := v; curElemArrayBuffer := curElemArrayBuffer s |}.
Definition set_curElemArrayBuffer (v : Z) (s : PassState) : PassState :=
  {| curProgram := curProgram s; activeTexture := activeTexture s; attrMask := attrMask s;
     curArrayBuffer := curArrayBuffer s; curElemArrayBuffer := v |}.

Definition nl : string := String (Ascii.ascii_of_nat 10) EmptyString.
Definition fmt_int (z : Z) : string := NilZero.string_of_int (Z.to_int z).

(** [a[i]] on a C array; reading past the end is a fault. *)
Definition index {A} (a : list A) (i : Z) : M A :=
  match (if i <? 0 then None else List.nth_error a (Z.to_nat i)) with
  | Some x => ret x
  | None => fail BadPointer
  end.

(** [v[i]] on a fixed-size float array inside a command. *)
Definition at_ (v : list GLfloat) (i : nat) : GLfloat := List.nth i v F32.zero.

Definition bool_to_Z (b : bool) : Z := if b then GL_TRUE else GL_FALSE.

Section Runner.

Variable E : Env.

Local Abbreviation ext := (gl_extensions E).
Local Abbreviation drv := (driver E).

(** Modelled from the spec: the [_dbg_assert_msg_] macro of base/logging.h
    (not among the sources): as [_assert_msg_] in builds that keep debug
    assertions, nothing otherwise. *)
Definition _dbg_assert_msg_ (cond : bool) (msg : string) : M unit :=
  if DEBUG_ASSERTS (build E) then _assert_msg_ cond msg else ret tt.

Definition glGetShaderiv_COMPILE_STATUS (sh stage : Z) (code : string) : M bool :=
  let ok := compile_status drv stage code in
  gl "glGetShaderiv" [I sh; I GL_COMPILE_STATUS; I (bool_to_Z ok)] ;;
  ret ok.

Definition glGetProgramiv_LINK_STATUS (prog : Z) : M Z :=
  let st := bool_to_Z (link_status drv prog) in
  gl "glGetProgramiv" [I prog; I GL_LINK_STATUS; I st] ;;
  ret st.

Definition glGetProgramiv_INFO_LOG_LENGTH (prog : Z) : M Z :=
  let s := program_info_log drv prog in
  let n := match s with EmptyString => 0 | _ => Z.of_nat (String.length s) + 1 end in
  gl "glGetProgramiv" [I prog; I GL_INFO_LOG_LENGTH; I n] ;;
  ret n.

Definition glGetUniformLocation (prog : Z) (nm : string) : M Z :=
  let l := uniform_location drv prog nm in
  gl "glGetUniformLocation" [I prog; S nm; I l] ;;
  ret l.

Definition glCheckFramebufferStatus (fn : string) (target fb : Z) : M Z :=
  let st := framebuffer_status drv fb in
  gl fn [I target; I st] ;;
  ret st.

(** The eight [glTexParameteri] calls and the [glTexImage2D] that set up the
    colour texture of a framebuffer. *)
Definition color_texture_params : M unit :=
  gl "glTexParameteri" [I GL_TEXTURE_2D; I GL_TEXTURE_WRAP_S; I GL_CLAMP_TO_EDGE] ;;
  gl "glTexParameteri" [I GL_TEXTURE_2D; I GL_TEXTURE_WRAP_T; I GL_CLAMP_TO_EDGE] ;;
  gl "glTexParameteri" [I GL_TEXTURE_2D; I GL_TEXTURE_MIN_FILTER; I GL_LINEAR] ;;
  gl "glTexParameteri" [I GL_TEXTURE_2D; I GL_TEXTURE_MAG_FILTER; I GL_LINEAR].

Definition set_current_handles (h : Z) : M unit :=
  modify_this (set_currentDrawHandle_ h) ;;
  modify_this (set_currentReadHandle_ h).

Definition framebuffer_status_log (status : Z) : M unit :=
  if status =? GL_FRAMEBUFFER_COMPLETE then ret tt
  else if status =? GL_FRAMEBUFFER_UNSUPPORTED then log ELOG "GL_FRAMEBUFFER_UNSUPPORTED"
  else if status =? GL_FRAMEBUFFER_INCOMPLETE_ATTACHMENT
       then log ELOG "GL_FRAMEBUFFER_INCOMPLETE_ATTACHMENT "
  else log FLOG ("Other framebuffer error: " ++ fmt_int status).

Definition assign_fb (p : ptr) (f : GLRFramebuffer -> GLRFramebuffer) : M unit :=
  assign framebuffers with_framebuffers p f.

(** [GLQueueRunner::fbo_ext_create] (only in builds without USING_GLES2). *)
Definition fbo_ext_create (p : ptr) : M unit :=
  h <- glGen1 "glGenFramebuffersEXT" ;; assign_fb p (set_handle h) ;;
  ct <- glGen1 "glGenTextures" ;; assign_fb p (set_color_texture ct) ;;
  fbo <- deref framebuffers p ;;
  gl "glBindTexture" [I GL_TEXTURE_2D; I (color_texture fbo)] ;;
  color_texture_params ;;
  gl "glTexImage2D" [I GL_TEXTURE_2D; I 0; I GL_RGBA; I (width fbo); I (height fbo); I 0;
                     I GL_RGBA; I GL_UNSIGNED_BYTE; I 0] ;;
  color_texture_params ;;
  assign_fb p (set_stencil_buffer 0) ;;
  assign_fb p (set_z_buffer 0) ;;
  zs <- glGen1 "glGenRenderbuffersEXT" ;; assign_fb p (set_z_stencil_buffer zs) ;;
  gl "glBindRenderbufferEXT" [I GL_RENDERBUFFER_EXT; I zs] ;;
  gl "glRenderbufferStorageEXT"
     [I GL_RENDERBUFFER_EXT; I GL_DEPTH_STENCIL_EXT; I (width fbo); I (height fbo)] ;;
  gl "glBindFramebufferEXT" [I GL_FRAMEBUFFER_EXT; I (handle fbo)] ;;
  gl "glFramebufferTexture2DEXT"
     [I GL_FRAMEBUFFER_EXT; I GL_COLOR_ATTACHMENT0_EXT; I GL_TEXTURE_2D;
      I (color_texture fbo); I 0] ;;
  gl "glFramebufferRenderbufferEXT"
     [I GL_FRAMEBUFFER_EXT; I GL_DEPTH_ATTACHMENT_EXT; I GL_RENDERBUFFER_EXT; I zs] ;;
  gl "glFramebufferRenderbufferEXT"
     [I GL_FRAMEBUFFER_EXT; I GL_STENCIL_ATTACHMENT_EXT; I GL_RENDERBUFFER_EXT; I zs] ;;
  status <- glCheckFramebufferStatus "glCheckFramebufferStatusEXT" GL_FRAMEBUFFER_EXT
              (handle fbo) ;;
  framebuffer_status_log status ;;
  gl "glBindRenderbufferEXT" [I GL_RENDERBUFFER_EXT; I 0] ;;
  gl "glBindTexture" [I GL_TEXTURE_2D; I 0] ;;
  set_current_handles (handle fbo).

(** The three renderbuffer layouts of [InitCreateFramebuffer]. *)
Definition attach_all (h ct depth stencil : Z) : M unit :=
  gl "glBindFramebuffer" [I GL_FRAMEBUFFER; I h] ;;
  gl "glFramebufferTexture2D"
     [I GL_FRAMEBUFFER; I GL_COLOR_ATTACHMENT0; I GL_TEXTURE_2D; I ct; I 0] ;;
  gl "glFramebufferRenderbuffer"
     [I GL_FRAMEBUFFER; I GL_DEPTH_ATTACHMENT; I GL_RENDERBUFFER; I depth] ;;
  gl "glFramebufferRenderbuffer"
     [I GL_FRAMEBUFFER; I GL_STENCIL_ATTACHMENT; I GL_RENDERBUFFER; I stencil].

Definition create_combined (p : ptr) (fbo : GLRFramebuffer) (fmt : Z) : M unit :=
  assign_fb p (set_stencil_buffer 0) ;;
  assign_fb p (set_z_buffer 0) ;;
  zs <- glGen1 "glGenRenderbuffers" ;; assign_fb p (set_z_stencil_buffer zs) ;;
  gl "glBindRenderbuffer" [I GL_RENDERBUFFER; I zs] ;;
  gl "glRenderbufferStorage" [I GL_RENDERBUFFER; I fmt; I (width fbo); I (height fbo)] ;;
  attach_all (handle fbo) (color_texture fbo) zs zs.

Definition create_separate (p : ptr) (fbo : GLRFramebuffer) : M unit :=
  log ILOG ("Creating " ++ fmt_int (width fbo) ++ " x " ++ fmt_int (height fbo)
            ++ " FBO using separate stencil") ;;
  assign_fb p (set_z_stencil_buffer 0) ;;
  z <- glGen1 "glGenRenderbuffers" ;; assign_fb p (set_z_buffer z) ;;
  gl "glBindRenderbuffer" [I GL_RENDERBUFFER; I z] ;;
  gl "glRenderbufferStorage"
     [I GL_RENDERBUFFER;
      I (if OES_depth24 ext then GL_DEPTH_COMPONENT24 else GL_DEPTH_COMPONENT16);
      I (width fbo); I (height fbo)] ;;
  st <- glGen1 "glGenRenderbuffers" ;; assign_fb p (set_stencil_buffer st) ;;
  gl "glBindRenderbuffer" [I GL_RENDERBUFFER; I st] ;;
  gl "glRenderbufferStorage"
     [I GL_RENDERBUFFER; I GL_STENCIL_INDEX8; I (width fbo); I (height fbo)] ;;
  attach_all (handle fbo) (color_texture fbo) z st.

(** [InitCreateFramebuffer] from the comment "Color texture is same
    everywhere" on. *)
Definition InitCreateFramebuffer_body (p : ptr) : M unit :=
  h <- glGen1 "glGenFramebuffers" ;; assign_fb p (set_handle h) ;;
  ct <- glGen1 "glGenTextures" ;; assign_fb p (set_color_texture ct) ;;
  fbo <- deref framebuffers p ;;
  gl "glBindTexture" [I GL_TEXTURE_2D; I (color_texture fbo)] ;;
  color_texture_params ;;
  gl "glTexImage2D" [I GL_TEXTURE_2D; I 0; I GL_RGBA; I (width fbo); I (height fbo); I 0;
                     I GL_RGBA; I GL_UNSIGNED_BYTE; I 0] ;;
  color_texture_params ;;
  (if IsGLES ext then
     if OES_packed_depth_stencil ext then
       log ILOG ("Creating " ++ fmt_int (width fbo) ++ " x " ++ fmt_int (height fbo)
                 ++ " FBO using DEPTH24_STENCIL8") ;;
       create_combined p fbo GL_DEPTH24_STENCIL8_OES
     else
       create_separate p fbo
   else
     create_combined p fbo GL_DEPTH24_STENCIL8) ;;
  status <- glCheckFramebufferStatus "glCheckFramebufferStatus" GL_FRAMEBUFFER (handle fbo) ;;
  framebuffer_status_log status ;;
  gl "glBindRenderbuffer" [I GL_RENDERBUFFER; I 0] ;;
  gl "glBindTexture" [I GL_TEXTURE_2D; I 0] ;;
  set_current_handles (handle fbo).

(** [GLQueueRunner::InitCreateFramebuffer]. *)
Definition InitCreateFramebuffer (p : ptr) : M unit :=
  if USING_GLES2 (build E) then InitCreateFramebuffer_body p
  else if negb (ARB_framebuffer_object ext) && EXT_framebuffer_object ext then
    fbo_ext_create p ;; InitCreateFramebuffer_body p
  else if negb (ARB_framebuffer_object ext) then ret tt
  else InitCreateFramebuffer_body p.

(** The platform-dependent fragment-output binding of CREATE_PROGRAM. *)
Definition bind_frag_data (prog : Z) (support_dual_source : bool) : M unit :=
  if negb (USING_GLES2 (build E)) then
    if support_dual_source then
      gl "glBindFragDataLocationIndexed" [I prog; I 0; I 0; S "fragColor0"] ;;
      gl "glBindFragDataLocationIndexed" [I prog; I 0; I 1; S "fragColor1"]
    else if VersionGEThan_3_3_0 ext then
      gl "glBindFragDataLocation" [I prog; I 0; S "fragColor0"]
    else ret tt
  else if negb (IOS (build E)) then
    if GLES3 ext then
      if GPU_SUPPORTS_DUALSOURCE_BLEND E then
        gl "glBindFragDataLocationIndexedEXT" [I prog; I 0; I 0; S "fragColor0"] ;;
        gl "glBindFragDataLocationIndexedEXT" [I prog; I 0; I 1; S "fragColor1"]
      else ret tt
    else ret tt
  else ret tt.

(** One iteration of the loop of [RunInitSteps]; [boundTexture] is the local
    of that name and the result is its new value. *)
Definition RunInitStep (step : GLRInitStep) (boundTexture : Z) : M Z :=
  match step with
  | CREATE_TEXTURE p =>
      t <- glGen1 "glGenTextures" ;;
      assign textures with_textures p (set_texture t) ;;
      tex <- deref textures p ;;
      gl "glBindTexture" [I (target tex); I (texture tex)] ;;
      ret (texture tex)
  | CREATE_BUFFER p size usage =>
      b <- glGen1 "glGenBuffers" ;;
      assign buffers with_buffers p (set_buffer b) ;;
      buf <- deref buffers p ;;
      gl "glBindBuffer" [I (target_ buf); I (buffer buf)] ;;
      gl "glBufferData" [I (target_ buf); I size; I 0; I usage] ;;
      ret boundTexture
  | BUFFER_SUBDATA p offset size data deleteData =>
      buf <- deref buffers p ;;
      gl "glBindBuffer" [I GL_ARRAY_BUFFER; I (buffer buf)] ;;
      gl "glBufferSubData" [I GL_ARRAY_BUFFER; I offset; I size; P data] ;;
      when deleteData (emit (Delete (P data))) ;;
      ret boundTexture
  | CREATE_PROGRAM p shs num_shaders support_dual_source =>
      prog <- glCreate "glCreateProgram" [] ;;
      assign programs with_programs p (set_program prog) ;;
      _assert_msg_ (0 <? num_shaders) "Can't create a program with zero shaders" ;;
      for_range 0 (Z.to_nat num_shaders) (fun i =>
        sp <- index shs i ;;
        sh <- deref shaders sp ;;
        _dbg_assert_msg_ (negb (shader sh =? 0)) "Can't create a program with a null shader" ;;
        gl "glAttachShader" [I prog; I (shader sh)]) ;;
      program <- deref programs p ;;
      for_each (semantics_ program) (fun iter =>
        gl "glBindAttribLocation" [I prog; I (sem_location iter); S (attrib iter)]) ;;
      bind_frag_data prog support_dual_source ;;
      gl "glLinkProgram" [I prog] ;;
      linkStatus <- glGetProgramiv_LINK_STATUS prog ;;
      (if negb (linkStatus =? GL_TRUE) then
         bufLength <- glGetProgramiv_INFO_LOG_LENGTH prog ;;
         if negb (bufLength =? 0) then
           let buf := program_info_log drv prog in
           gl "glGetProgramInfoLog" [I prog; I bufLength; I 0; S buf] ;;
           log ELOG ("Could not link program:" ++ nl ++ " " ++ buf) ;;
           when (WIN32 (build E)) (gl "OutputDebugStringUTF8" [S buf]) ;;
           emit (Delete (S buf))
         else
           log ELOG ("Could not link program with " ++ fmt_int num_shaders
                     ++ " shaders for unknown reason:")
       else
         gl "glUseProgram" [I prog] ;;
         for_each (queries_ program) (fun x =>
           match name x with
           | Some nm =>
               l <- glGetUniformLocation prog nm ;;
               modify_heap (fun h => with_ints (<[dest x := l]> (ints h)) h)
           | None => fail (AssertFailed "x.name")
           end) ;;
         for_each (initialize_ program) (fun init =>
           u <- deref ints (uniform init) ;;
           if negb (u =? -1) then
             if init_type init =? 0 then gl "glUniform1i" [I u; I (value init)] else ret tt
           else ret tt)) ;;
      ret boundTexture
  | CREATE_SHADER p code stage =>
      sh <- glCreate "glCreateShader" [I stage] ;;
      assign shaders with_shaders p (set_shader sh) ;;
      gl "glShaderSource" [I sh; I 1; S code; I 0] ;;
      emit (Delete (S code)) ;;
      gl "glCompileShader" [I sh] ;;
      success <- glGetShaderiv_COMPILE_STATUS sh stage code ;;
      (if negb success then
         let infoLog := shader_info_log drv stage code in
         gl "glGetShaderInfoLog" [I sh; I MAX_INFO_LOG_SIZE; S infoLog] ;;
         gl "glDeleteShader" [I sh] ;;
         log ILOG ((if stage =? GL_FRAGMENT_SHADER then "Fragment" else "Vertex")
                   ++ " Shader compile error:" ++ nl ++ infoLog) ;;
         assign shaders with_shaders p (set_valid false)
       else ret tt) ;;
      assign shaders with_shaders p (set_valid true) ;;
      ret boundTexture
  | CREATE_INPUT_LAYOUT p =>
      ret boundTexture
  | CREATE_FRAMEBUFFER p =>
      InitCreateFramebuffer p ;;
      ret (to_u32 (-1))
  | TEXTURE_SUBDATA =>
      ret boundTexture
  | TEXTURE_IMAGE p level internalFormat width height format type linearFilter data =>
      tex <- deref textures p ;;
      bound <- (if negb (boundTexture =? texture tex) then
                  gl "glBindTexture" [I (target tex); I (texture tex)] ;;
                  ret (texture tex)
                else ret boundTexture) ;;
      gl "glTexImage2D" [I (target tex); I level; I internalFormat; I width; I height; I 0;
                         I format; I type; P data] ;;
      emit (Delete (P data)) ;;
      gl "glTexParameteri" [I GL_TEXTURE_2D; I GL_TEXTURE_WRAP_S; I GL_CLAMP_TO_EDGE] ;;
      gl "glTexParameteri" [I GL_TEXTURE_2D; I GL_TEXTURE_WRAP_T; I GL_CLAMP_TO_EDGE] ;;
      gl "glTexParameteri" [I GL_TEXTURE_2D; I GL_TEXTURE_MAG_FILTER;
                            I (if linearFilter then GL_LINEAR else GL_NEAREST)] ;;
      gl "glTexParameteri" [I GL_TEXTURE_2D; I GL_TEXTURE_MIN_FILTER;
                            I (if linearFilter then GL_LINEAR else GL_NEAREST)] ;;
      ret bound
  end.

Fixpoint RunInitSteps_loop (steps : list GLRInitStep) (boundTexture : Z) : M unit :=
  match steps with
  | [] => ret tt
  | step :: rest =>
      b <- RunInitStep step boundTexture ;;
      RunInitSteps_loop rest b
  end.

(** [GLQueueRunner::RunInitSteps]. *)
Definition RunInitSteps (steps : list GLRInitStep) : M unit :=
  gl "glActiveTexture" [I GL_TEXTURE0] ;;
  RunInitSteps_loop steps (to_u32 (-1)).

(** ** Framebuffer binding *)

(** Which member [fbo_get_fb_target] hands back through [cached]. *)
Inductive CachedHandle := ReadHandle | DrawHandle.

Definition get_cached (c : CachedHandle) (r : GLQueueRunner) : Z :=
  match c with
  | ReadHandle => currentReadHandle_ r
  | DrawHandle => currentDrawHandle_ r
  end.
Definition set_cached (c : CachedHandle) (v : Z) (r : GLQueueRunner) : GLQueueRunner :=
  match c with
  | ReadHandle => set_currentReadHandle_ v r
  | DrawHandle => set_currentDrawHandle_ v r
  end.

(** [GLQueueRunner::fbo_get_fb_target]: the bind target and the cache cell. *)
Definition fbo_get_fb_target (read : bool) : Z * CachedHandle :=
  let supportsBlit :=
    if IsGLES ext then GLES3 ext || NV_framebuffer_blit ext
    else ARB_framebuffer_object ext in
  if supportsBlit then
    if read then (GL_READ_FRAMEBUFFER, ReadHandle)
    else (GL_DRAW_FRAMEBUFFER, DrawHandle)
  else (GL_FRAMEBUFFER, DrawHandle).

(** [GLQueueRunner::fbo_bind_fb_target]. *)
Definition fbo_bind_fb_target (read : bool) (name : Z) : M unit :=
  let '(target, cached) := fbo_get_fb_target read in
  cur <- member (get_cached cached) ;;
  if negb (cur =? name) then
    (if ARB_framebuffer_object ext || IsGLES ext then
       gl "glBindFramebuffer" [I target; I name]
     else if negb (USING_GLES2 (build E)) then
       gl "glBindFramebufferEXT" [I target; I name]
     else ret tt) ;;
    modify_this (set_cached cached name)
  else ret tt.

(** [GLQueueRunner::fbo_unbind]. *)
Definition fbo_unbind : M unit :=
  (if negb (USING_GLES2 (build E)) then
     if ARB_framebuffer_object ext || IsGLES ext then
       gl "glBindFramebuffer" [I GL_FRAMEBUFFER; I (g_defaultFBO E)]
     else if EXT_framebuffer_object ext then
       gl "glBindFramebufferEXT" [I GL_FRAMEBUFFER_EXT; I (g_defaultFBO E)]
     else ret tt
   else
     gl "glBindFramebuffer" [I GL_FRAMEBUFFER; I (g_defaultFBO E)]) ;;
  when (IOS (build E)) (gl "bindDefaultFBO" []) ;;
  modify_this (set_currentDrawHandle_ 0) ;;
  modify_this (set_currentReadHandle_ 0).

(** [GLQueueRunner::PerformBindFramebufferAsRenderTarget]. *)
Definition PerformBindFramebufferAsRenderTarget (framebuffer : option ptr) : M unit :=
  match framebuffer with
  | Some p =>
      fb <- deref framebuffers p ;;
      modify_this (set_curFB (Some p) (width fb) (height fb)) ;;
      fbo_bind_fb_target false (framebuf fb)
  | None =>
      tw <- member targetWidth_ ;;
      th <- member targetHeight_ ;;
      modify_this (set_curFB None tw th) ;;
      fbo_unbind
  end.

(** ** The render pass *)

(** Modelled from the spec: [GLRProgram::GetUniformLoc] is declared in
    GLRenderManager.h, which is not among the sources; the spec has it as a
    lookup of the name against the bound program. *)
Definition GetUniformLoc (prog : GLRProgram) (nm : string) : M Z :=
  glGetUniformLocation (program prog) nm.

(** [int loc = c.uniform4.loc ? *c.uniform4.loc : -1;
     if (c.uniform4.name) loc = curProgram->GetUniformLoc(c.uniform4.name);] *)
Definition resolve_uniform (st : PassState) (loc : option ptr) (nm : option string) : M Z :=
  l <- match loc with
       | Some p => deref ints p
       | None => ret (-1)
       end ;;
  match nm with
  | Some n =>
      match curProgram st with
      | Some pp => prog <- deref programs pp ;; GetUniformLoc prog n
      | None => fail BadPointer
      end
  | None => ret l
  end.

(** [if (slot != activeTexture) { glActiveTexture(GL_TEXTURE0 + slot);
     activeTexture = slot; }] *)
Definition select_slot (slot : Z) (st : PassState) : M PassState :=
  if negb (slot =? activeTexture st) then
    gl "glActiveTexture" [I (to_u32 (GL_TEXTURE0 + slot))] ;;
    ret (set_activeTexture slot st)
  else ret st.

(** The body of the [switch] of [PerformRenderPass], one command. *)
Definition PerformRenderPass_command (c : GLRRenderData) (st : PassState) : M PassState :=
  match c with
  | DEPTH enabled write func =>
      (if enabled then
         gl "glEnable" [I GL_DEPTH_TEST] ;;
         gl "glDepthMask" [I (bool_to_Z write)] ;;
         gl "glDepthFunc" [I func]
       else gl "glDisable" [I GL_DEPTH_TEST]) ;;
      ret st
  | BLEND enabled funcColor funcAlpha srcColor dstColor srcAlpha dstAlpha mask =>
      (if enabled then
         gl "glEnable" [I GL_BLEND] ;;
         gl "glBlendEquationSeparate" [I funcColor; I funcAlpha] ;;
         gl "glBlendFuncSeparate" [I srcColor; I dstColor; I srcAlpha; I dstAlpha]
       else gl "glDisable" [I GL_BLEND]) ;;
      gl "glColorMask" [I (Z.land mask 1); I (Z.land (Z.shiftr mask 1) 1);
                        I (Z.land (Z.shiftr mask 2) 1); I (Z.land (Z.shiftr mask 3) 1)] ;;
      ret st
  | CLEAR clearMask clearColor clearZ clearStencil =>
      gl "glDisable" [I GL_SCISSOR_TEST] ;;
      gl "glColorMask" [I GL_TRUE; I GL_TRUE; I GL_TRUE; I GL_TRUE] ;;
      when (negb (Z.land clearMask GL_COLOR_BUFFER_BIT =? 0))
        (let color := Uint8x4ToFloat4 E clearColor in
         gl "glClearColor" [F (at_ color 0); F (at_ color 1); F (at_ color 2);
                            F (at_ color 3)]) ;;
      when (negb (Z.land clearMask GL_DEPTH_BUFFER_BIT =? 0))
        (if USING_GLES2 (build E) then gl "glClearDepthf" [F clearZ]
         else gl "glClearDepth" [F clearZ]) ;;
      when (negb (Z.land clearMask GL_STENCIL_BUFFER_BIT =? 0))
        (gl "glClearStencil" [I clearStencil]) ;;
      gl "glClear" [I clearMask] ;;
      gl "glEnable" [I GL_SCISSOR_TEST] ;;
      ret st
  | BLENDCOLOR color =>
      gl "glBlendColor" [F (at_ color 0); F (at_ color 1); F (at_ color 2);
                         F (at_ color 3)] ;;
      ret st
  | VIEWPORT x y w h minZ maxZ =>
      cf <- member curFramebuffer_ ;;
      fbh <- member curFBHeight_ ;;
      let y' := match cf with
                | Some _ => y
                | None => F32.sub (F32.sub (F32.of_int fbh) y) h
                end in
      gl "glViewport" [I (F32.to_int x); I (F32.to_int y'); I (F32.to_int w);
                       I (F32.to_int h)] ;;
      gl "glDepthRange" [F minZ; F maxZ] ;;
      ret st
  | SCISSOR x y w h =>
      cf <- member curFramebuffer_ ;;
      fbh <- member curFBHeight_ ;;
      let y' := match cf with
                | Some _ => y
                | None => to_s32 (fbh - y - h)
                end in
      gl "glScissor" [I x; I y'; I w; I h] ;;
      ret st
  | UNIFORM4F loc nm count v =>
      l <- resolve_uniform st loc nm ;;
      when (0 <=? l)
        (if count =? 1 then gl "glUniform1f" [I l; F (at_ v 0)]
         else if count =? 2 then gl "glUniform2fv" (I l :: I 1 :: List.map F (firstn 2 v))
         else if count =? 3 then gl "glUniform3fv" (I l :: I 1 :: List.map F (firstn 3 v))
         else if count =? 4 then gl "glUniform4fv" (I l :: I 1 :: List.map F (firstn 4 v))
         else ret tt) ;;
      ret st
  | UNIFORM4I loc nm count v =>
      l <- resolve_uniform st loc nm ;;
      when (0 <=? l)
        (if count =? 1 then gl "glUniform1iv" (I l :: I 1 :: List.map I (firstn 1 v))
         else if count =? 2 then gl "glUniform2iv" (I l :: I 1 :: List.map I (firstn 2 v))
         else if count =? 3 then gl "glUniform3iv" (I l :: I 1 :: List.map I (firstn 3 v))
         else if count =? 4 then gl "glUniform4iv" (I l :: I 1 :: List.map I (firstn 4 v))
         else ret tt) ;;
      ret st
  | UNIFORMMATRIX loc nm m =>
      l <- resolve_uniform st loc nm ;;
      when (0 <=? l)
        (gl "glUniformMatrix4fv" (I l :: I 1 :: I GL_FALSE :: List.map F (firstn 16 m))) ;;
      ret st
  | STENCILFUNC enabled func ref compareMask =>
      (if enabled then
         gl "glEnable" [I GL_STENCIL_TEST] ;;
         gl "glStencilFunc" [I func; I ref; I compareMask]
       else gl "glDisable" [I GL_STENCIL_TEST]) ;;
      ret st
  | STENCILOP sFail zFail pass writeMask =>
      gl "glStencilOp" [I sFail; I zFail; I pass] ;;
      gl "glStencilMask" [I writeMask] ;;
      ret st
  | BINDTEXTURE slot tex =>
      st' <- select_slot slot st ;;
      match tex with
      | Some p =>
          t <- deref textures p ;;
          gl "glBindTexture" [I (target t); I (texture t)]
      | None => gl "glBindTexture" [I GL_TEXTURE_2D; I 0]
      end ;;
      ret st'
  | BIND_FB_TEXTURE slot fbp aspect =>
      st' <- select_slot slot st ;;
      (if aspect =? GL_COLOR_BUFFER_BIT then
         fb <- deref framebuffers fbp ;;
         gl "glBindTexture" [I GL_TEXTURE_2D; I (color_texture fb)]
       else ret tt) ;;
      ret st'
  | BINDPROGRAM p =>
      prog <- deref programs p ;;
      gl "glUseProgram" [I (program prog)] ;;
      ret (set_curProgram (Some p) st)
  | BIND_INPUT_LAYOUT p off =>
      layout <- deref inputLayouts p ;;
      let enable := Z.land (semanticsMask_ layout) (Z.lnot (attrMask st)) in
      let disable := Z.land (Z.lnot (semanticsMask_ layout)) (attrMask st) in
      for_range 0 7 (fun i =>
        when (has_bit enable i) (gl "glEnableVertexAttribArray" [I i]) ;;
        when (has_bit disable i) (gl "glDisableVertexAttribArray" [I i])) ;;
      for_each (entries layout) (fun entry =>
        gl "glVertexAttribPointer"
           [I (location entry); I (count entry); I (type entry);
            I (bool_to_Z (normalized entry)); I (stride entry); I (off + offset entry)]) ;;
      ret (set_attrMask (semanticsMask_ layout) st)
  | BIND_BUFFER tgt bufp =>
      buf <- match bufp with
             | Some p => b <- deref buffers p ;; ret (buffer b)
             | None => ret 0
             end ;;
      if tgt =? GL_ARRAY_BUFFER then
        if negb (buf =? curArrayBuffer st) then
          gl "glBindBuffer" [I GL_ARRAY_BUFFER; I buf] ;;
          ret (set_curArrayBuffer buf st)
        else ret st
      else if tgt =? GL_ELEMENT_ARRAY_BUFFER then
        if negb (buf =? curElemArrayBuffer st) then
          gl "glBindBuffer" [I GL_ELEMENT_ARRAY_BUFFER; I buf] ;;
          ret (set_curElemArrayBuffer buf st)
        else ret st
      else
        gl "glBindBuffer" [I tgt; I buf] ;;
        ret st
  | GENMIPS =>
      gl "glGenerateMipmap" [I GL_TEXTURE_2D] ;;
      ret st
  | DRAW mode first cnt =>
      gl "glDrawArrays" [I mode; I first; I cnt] ;;
      ret st
  | DRAW_INDEXED mode cnt indexType indices instances =>
      when (instances =? 1) (gl "glDrawElements" [I mode; I cnt; I indexType; I indices]) ;;
      ret st
  | TEXTURESAMPLER wrapS wrapT magFilter minFilter anisotropy =>
      gl "glTexParameteri" [I GL_TEXTURE_2D; I GL_TEXTURE_WRAP_S; I wrapS] ;;
      gl "glTexParameteri" [I GL_TEXTURE_2D; I GL_TEXTURE_WRAP_T; I wrapT] ;;
      gl "glTexParameteri" [I GL_TEXTURE_2D; I GL_TEXTURE_MAG_FILTER; I magFilter] ;;
      gl "glTexParameteri" [I GL_TEXTURE_2D; I GL_TEXTURE_MIN_FILTER; I minFilter] ;;
      when (F32.neb anisotropy F32.zero)
        (gl "glTexParameterf" [I GL_TEXTURE_2D; I GL_TEXTURE_MAX_ANISOTROPY_EXT;
                               F anisotropy]) ;;
      ret st
  | TEXTURELOD minLod maxLod lodBias =>
      gl "glTexParameterf" [I GL_TEXTURE_2D; I GL_TEXTURE_MIN_LOD; F minLod] ;;
      gl "glTexParameterf" [I GL_TEXTURE_2D; I GL_TEXTURE_MAX_LOD; F maxLod] ;;
      when (negb (USING_GLES2 (build E)))
        (gl "glTexParameterf" [I GL_TEXTURE_2D; I GL_TEXTURE_LOD_BIAS; F lodBias]) ;;
      ret st
  | RASTER cullEnable frontFace cullFace ditherEnable =>
      (if cullEnable then
         gl "glEnable" [I GL_CULL_FACE] ;;
         gl "glFrontFace" [I frontFace] ;;
         gl "glCullFace" [I cullFace]
       else gl "glDisable" [I GL_CULL_FACE]) ;;
      (if ditherEnable then gl "glEnable" [I GL_DITHER] else gl "glDisable" [I GL_DITHER]) ;;
      ret st
  end.

(** [for (const auto &c : commands) switch (c.cmd) ...] *)
Fixpoint PerformRenderPass_commands (commands : list GLRRenderData) (st : PassState)
    : M PassState :=
  match commands with
  | [] => ret st
  | c :: rest =>
      st' <- PerformRenderPass_command c st ;;
      PerformRenderPass_commands rest st'
  end.

(** The locals of [PerformRenderPass] as they stand before the first command. *)
Definition initial_pass_state : PassState :=
  {| curProgram := None; activeTexture := GL_TEXTURE0; attrMask := 0;
     curArrayBuffer := to_u32 (-1); curElemArrayBuffer := to_u32 (-1) |}.

(** What [PerformRenderPass] does after the command loop. *)
Definition PerformRenderPass_epilogue (st : PassState) : M unit :=
  for_range 0 7 (fun i =>
    when (has_bit (attrMask st) i) (gl "glDisableVertexAttribArray" [I i])) ;;
  when (negb (activeTexture st =? GL_TEXTURE0)) (gl "glActiveTexture" [I GL_TEXTURE0]) ;;
  gl "glBindBuffer" [I GL_ARRAY_BUFFER; I 0] ;;
  gl "glBindBuffer" [I GL_ELEMENT_ARRAY_BUFFER; I 0] ;;
  gl "glBindVertexArray" [I 0] ;;
  gl "glDisable" [I GL_SCISSOR_TEST].

(** [GLQueueRunner::PerformRenderPass]. *)
Definition PerformRenderPass (framebuffer : option ptr) (commands : list GLRRenderData)
    : M unit :=
  match commands with
  | [] => ret tt
  | _ =>
      PerformBindFramebufferAsRenderTarget framebuffer ;;
      gl "glEnable" [I GL_SCISSOR_TEST] ;;
      vao <- member globalVAO_ ;;
      gl "glBindVertexArray" [I vao] ;;
      gl "glActiveTexture" [I (activeTexture initial_pass_state)] ;;
      st <- PerformRenderPass_commands commands initial_pass_state ;;
      PerformRenderPass_epilogue st
  end.

(** ** Copies, blits and read-backs *)

(** The argument list shared by the three [glCopyImageSubData] variants. *)
Definition copy_args (srcTex dstTex target : Z) (c : CopyData) : list Arg :=
  let srcLevel := 0 in let dstLevel := 0 in
  let srcZ := 0 in let dstZ := 0 in
  let depth := 1 in
  [I srcTex; I target; I srcLevel; I (rc_x (srcRect c)); I (rc_y (srcRect c)); I srcZ;
   I dstTex; I target; I dstLevel; I (pos_x (dstPos c)); I (pos_y (dstPos c)); I dstZ;
   I (rc_w (srcRect c)); I (rc_h (srcRect c)); I depth].

(** [GLQueueRunner::PerformCopy].  Both locals [src] and [dst] are
    initialised from [step.copy.src], as in the source. *)
Definition PerformCopy (c : CopyData) : M unit :=
  let src_ := src c in
  let dst_ := src c in
  r <-
    (if aspectMask c =? GL_COLOR_BUFFER_BIT then
       s <- deref framebuffers src_ ;;
       d <- deref framebuffers dst_ ;;
       ret (color_texture s, color_texture d, GL_TEXTURE_2D)
     else if aspectMask c =? GL_DEPTH_BUFFER_BIT then
       _assert_msg_ false "Depth copies not yet supported - soon" ;;
       ret (0, 0, GL_RENDERBUFFER)
     else ret (0, 0, GL_TEXTURE_2D)) ;;
  let '(srcTex, dstTex, target) := r in
  if USING_GLES2 (build E) then
    when (negb (IOS (build E)))
      (gl "glCopyImageSubDataOES" (copy_args srcTex dstTex target c))
  else if ARB_copy_image ext then
    gl "glCopyImageSubData" (copy_args srcTex dstTex target c)
  else if NV_copy_image ext then
    gl "glCopyImageSubDataNV" (copy_args srcTex dstTex target c)
  else ret tt.

Definition PerformBlit : M unit := ret tt.
Definition PerformReadback : M unit := ret tt.
Definition PerformReadbackImage : M unit := ret tt.

(** One iteration of [GLQueueRunner::RunSteps]; the step is deleted after it
    ran. *)
Definition RunStep (i : Z) (step : GLRStep) : M unit :=
  match step with
  | RENDER fb commands => PerformRenderPass fb commands
  | COPY c => PerformCopy c
  | BLIT => PerformBlit
  | READBACK => PerformReadback
  | READBACK_IMAGE => PerformReadbackImage
  end ;;
  emit (Delete (I i)).

Fixpoint RunSteps_from (i : Z) (steps : list GLRStep) : M unit :=
  match steps with
  | [] => ret tt
  | step :: rest => RunStep i step ;; RunSteps_from (i + 1) rest
  end.

(** [GLQueueRunner::RunSteps]. *)
Definition RunSteps (steps : list GLRStep) : M unit := RunSteps_from 0 steps.

(** ** Texture names *)

(** [GLQueueRunner::AllocTextureName]. *)
Definition AllocTextureName : M Z :=
  cache <- member nameCache_ ;;
  (match cache with
   | [] =>
       names <- glGen "glGenTextures" TEXCACHE_NAME_CACHE_SIZE ;;
       modify_this (set_nameCache_ names)
   | _ => ret tt
   end) ;;
  cache' <- member nameCache_ ;;
  let name := List.last cache' 0 in
  modify_this (set_nameCache_ (List.removelast cache')) ;;
  ret name.

(** [n] successive calls, the names in the order handed out. *)
Fixpoint AllocTextureNames (n : nat) : M (list Z) :=
  match n with
  | O => ret []
  | Datatypes.S k =>
      x <- AllocTextureName ;;
      xs <- AllocTextureNames k ;;
      ret (x :: xs)
  end.

(** [GLQueueRunner::CreateDeviceObjects]. *)
Definition CreateDeviceObjects : M unit :=
  gl "glGetFloatv" [I GL_MAX_TEXTURE_MAX_ANISOTROPY_EXT; F (max_anisotropy drv)] ;;
  modify_this (set_maxAnisotropyLevel_ (max_anisotropy drv)) ;;
  vao <- glGen1 "glGenVertexArrays" ;;
  modify_this (set_globalVAO_ vao).

(** [GLQueueRunner::DestroyDeviceObjects]. *)
Definition DestroyDeviceObjects : M unit :=
  cache <- member nameCache_ ;;
  (match cache with
   | [] => ret tt
   | _ =>
       gl "glDeleteTextures" (I (Z.of_nat (List.length cache)) :: List.map I cache) ;;
       modify_this (set_nameCache_ [])
   end) ;;
  vao <- member globalVAO_ ;;
  gl "glDeleteVertexArrays" [I 1; I vao].

(** ** Destruction of a framebuffer *)

Definition delete_renderbuffers (fb : GLRFramebuffer) : list Event :=
  (if negb (z_stencil_buffer fb =? 0)
   then [GL "glDeleteRenderbuffers" [I 1; I (z_stencil_buffer fb)]] else []) ++
  (if negb (z_buffer fb =? 0)
   then [GL "glDeleteRenderbuffers" [I 1; I (z_buffer fb)]] else []) ++
  (if negb (stencil_buffer fb =? 0)
   then [GL "glDeleteRenderbuffers" [I 1; I (stencil_buffer fb)]] else []).

(** [GLRFramebuffer::~GLRFramebuffer]: the driver calls it makes. *)
Definition GLRFramebuffer_dtor (fb : GLRFramebuffer) : list Event :=
  (if ARB_framebuffer_object ext || IsGLES ext then
     (if negb (handle fb =? 0) then
        [GL "glBindFramebuffer" [I GL_FRAMEBUFFER; I (handle fb)];
         GL "glFramebufferTexture2D"
            [I GL_FRAMEBUFFER; I GL_COLOR_ATTACHMENT0; I GL_TEXTURE_2D; I 0; I 0];
         GL "glFramebufferRenderbuffer"
            [I GL_FRAMEBUFFER; I GL_DEPTH_ATTACHMENT; I GL_RENDERBUFFER; I 0];
         GL "glBindFramebuffer" [I GL_FRAMEBUFFER; I (g_defaultFBO E)];
         GL "glDeleteFramebuffers" [I 1; I (handle fb)]]
      else []) ++ delete_renderbuffers fb
   else if EXT_framebuffer_object ext then
     if negb (USING_GLES2 (build E)) then
       (if negb (handle fb =? 0) then
          [GL "glBindFramebufferEXT" [I GL_FRAMEBUFFER_EXT; I (handle fb)];
           GL "glFramebufferTexture2DEXT"
              [I GL_FRAMEBUFFER_EXT; I GL_COLOR_ATTACHMENT0; I GL_TEXTURE_2D; I 0; I 0];
           GL "glFramebufferRenderbufferEXT"
              [I GL_FRAMEBUFFER_EXT; I GL_DEPTH_ATTACHMENT; I GL_RENDERBUFFER_EXT; I 0];
           GL "glBindFramebufferEXT" [I GL_FRAMEBUFFER_EXT; I (g_defaultFBO E)];
           GL "glDeleteFramebuffersEXT" [I 1; I (handle fb)]]
        else []) ++ delete_renderbuffers fb
     else []
   else []) ++
  [GL "glDeleteTextures" [I 1; I (color_texture fb)]].

End Runner.

(** ** The driver's registers

    What the calls of a trace leave in the OpenGL state the runner filters on:
    each register holds what was last asked for.  [glActiveTexture] with an
    enum outside [GL_TEXTURE0 .. GL_TEXTURE0 + units - 1] is an error
    (GL_INVALID_ENUM) and changes nothing, as OpenGL has it.  Vertex-array
    objects are not distinguished, and calls that are not OpenGL's
    ([bindDefaultFBO]) are not interpreted. *)

Record GLState := {
  gl_max_texture_units : Z;
  gl_active_texture : Z;
  gl_array_buffer_binding : Z;
  gl_element_array_buffer_binding : Z;
  gl_vertex_attrib_enabled : gset Z;
  gl_scissor_test : bool;
  gl_draw_framebuffer_binding : Z;
  gl_read_framebuffer_binding : Z
}.

Definition gl_set_active_texture (v : Z) (g : GLState) : GLState :=
  {| gl_max_texture_units := gl_max_texture_units g; gl_active_texture := v;
     gl_array_buffer_binding := gl_array_buffer_binding g;
     gl_element_array_buffer_binding := gl_element_array_buffer_binding g;
     gl_vertex_attrib_enabled := gl_vertex_attrib_enabled g;
     gl_scissor_test := gl_scissor_test g;
     gl_draw_framebuffer_binding := gl_draw_framebuffer_binding g;
     gl_read_framebuffer_binding := gl_read_framebuffer_binding g |}.
Definition gl_set_array_buffer (v : Z) (g : GLState) : GLState :=
  {| gl_max_texture_units := gl_max_texture_units g;
     gl_active_texture := gl_active_texture g;
     gl_array_buffer_binding := v;
     gl_element_array_buffer_binding := gl_element_array_buffer_binding g;
     gl_vertex_attrib_enabled := gl_vertex_attrib_enabled g;
     gl_scissor_test := gl_scissor_test g;
     gl_draw_framebuffer_binding := gl_draw_framebuffer_binding g;
     gl_read_framebuffer_binding := gl_read_framebuffer_binding g |}.
Definition gl_set_element_array_buffer (v : Z) (g : GLState) : GLState :=
  {| gl_max_texture_units := gl_max_texture_units g;
     gl_active_texture := gl_active_texture g;
     gl_array_buffer_binding := gl_array_buffer_binding g;
     gl_element_array_buffer_binding := v;
     gl_vertex_attrib_enabled := gl_vertex_attrib_enabled g;
     gl_scissor_test := gl_scissor_test g;
     gl_draw_framebuffer_binding := gl_draw_framebuffer_binding g;
     gl_read_framebuffer_binding := gl_read_framebuffer_binding g |}.
Definition gl_set_attribs (v : gset Z) (g : GLState) : GLState :=
  {| gl_max_texture_units := gl_max_texture_units g;
     gl_active_texture := gl_active_texture g;
     gl_array_buffer_binding := gl_array_buffer_binding g;
     gl_element_array_buffer_binding := gl_element_array_buffer_binding g;
     gl_vertex_attrib_enabled := v;
     gl_scissor_test := gl_scissor_test g;
     gl_draw_framebuffer_binding := gl_draw_framebuffer_binding g;
     gl_read_framebuffer_binding := gl_read_framebuffer_binding g |}.
Definition gl_set_scissor_test (v : bool) (g : GLState) : GLState :=
  {| gl_max_texture_units := gl_max_texture_units g;
     gl_active_texture := gl_active_texture g;
     gl_array_buffer_binding := gl_array_buffer_binding g;
     gl_element_array_buffer_binding := gl_element_array_buffer_binding g;
     gl_vertex_attrib_enabled := gl_vertex_attrib_enabled g;
     gl_scissor_test := v;
     gl_draw_framebuffer_binding := gl_draw_framebuffer_binding g;
     gl_read_framebuffer_binding := gl_read_framebuffer_binding g |}.
Definition gl_set_framebuffers (d r : Z) (g : GLState) : GLState :=
  {| gl_max_texture_units := gl_max_texture_units g;
     gl_active_texture := gl_active_texture g;
     gl_array_buffer_binding := gl_array_buffer_binding g;
     gl_element_array_buffer_binding := gl_element_array_buffer_binding g;
     gl_vertex_attrib_enabled := gl_vertex_attrib_enabled g;
     gl_scissor_test := gl_scissor_test g;
     gl_draw_framebuffer_binding := d;
     gl_read_framebuffer_binding := r |}.

Definition gl_bind_framebuffer (target fb : Z) (g : GLState) : GLState :=
  if target =? GL_FRAMEBUFFER then gl_set_framebuffers fb fb g
  else if target =? GL_DRAW_FRAMEBUFFER
       then gl_set_framebuffers fb (gl_read_framebuffer_binding g) g
  else if target =? GL_READ_FRAMEBUFFER
       then gl_set_framebuffers (gl_draw_framebuffer_binding g) fb g
  else g.

Definition gl_step (g : GLState) (e : Event) : GLState :=
  match e with
  | GL fn [I a] =>
      if String.eqb fn "glActiveTexture" then
        if (GL_TEXTURE0 <=? a) && (a <? GL_TEXTURE0 + gl_max_texture_units g)
        then gl_set_active_texture a g else g
      else if String.eqb fn "glEnableVertexAttribArray" then
        gl_set_attribs ({[a]} ∪ gl_vertex_attrib_enabled g) g
      else if String.eqb fn "glDisableVertexAttribArray" then
        gl_set_attribs (gl_vertex_attrib_enabled g ∖ {[a]}) g
      else if String.eqb fn "glEnable" then
        if a =? GL_SCISSOR_TEST then gl_set_scissor_test true g else g
      else if String.eqb fn "glDisable" then
        if a =? GL_SCISSOR_TEST then gl_set_scissor_test false g else g
      else g
  | GL fn [I a; I b] =>
      if String.eqb fn "glBindBuffer" then
        if a =? GL_ARRAY_BUFFER then gl_set_array_buffer b g
        else if a =? GL_ELEMENT_ARRAY_BUFFER then gl_set_element_array_buffer b g
        else g
      else if String.eqb fn "glBindFramebuffer" || String.eqb fn "glBindFramebufferEXT" then
        gl_bind_framebuffer a b g
      else g
  | _ => g
  end.

Definition gl_run (g : GLState) (tr : list Event) : GLState :=
  List.fold_left gl_step tr g.

(** ** Concrete environments and worlds used by the examples *)

Module Examples.

Definition no_extensions : GLExtensions :=
  {| IsGLES := false; GLES3 := false; ARB_framebuffer_object := false;
     EXT_framebuffer_object := false; OES_packed_depth_stencil := false;
     OES_depth24 := false; NV_framebuffer_blit := false; ARB_copy_image := false;
     NV_copy_image := false; VersionGEThan_3_3_0 := false |}.

(** A desktop OpenGL context with framebuffer objects and [ARB_copy_image]. *)
Definition desktop_extensions : GLExtensions :=
  {| IsGLES := false; GLES3 := false; ARB_framebuffer_object := true;
     EXT_framebuffer_object := true; OES_packed_depth_stencil := false;
     OES_depth24 := false; NV_framebuffer_blit := false; ARB_copy_image := true;
     NV_copy_image := false; VersionGEThan_3_3_0 := true |}.

(** An OpenGL ES 2 context without packed depth-stencil (Tegra). *)
Definition tegra_extensions : GLExtensions :=
  {| IsGLES := true; GLES3 := false; ARB_framebuffer_object := false;
     EXT_framebuffer_object := false; OES_packed_depth_stencil := false;
     OES_depth24 := false; NV_framebuffer_blit := false; ARB_copy_image := false;
     NV_copy_image := false; VersionGEThan_3_3_0 := false |}.

Definition desktop_build : Build :=
  {| USING_GLES2 := false; IOS := false; WIN32 := false; DEBUG_ASSERTS := false |}.
Definition gles_build : Build :=
  {| USING_GLES2 := true; IOS := false; WIN32 := false; DEBUG_ASSERTS := false |}.

(** A driver on which every shader fails to compile and every program
    links. *)
Definition rejecting_driver : Driver :=
  {| compile_status := fun _ _ => false;
     shader_info_log := fun _ _ => "0:1: syntax error";
     link_status := fun _ => true;
     program_info_log := fun _ => "";
     uniform_location := fun _ _ => -1;
     framebuffer_status := fun _ => GL_FRAMEBUFFER_COMPLETE;
     max_anisotropy := F32.of_int 16 |}.

Definition env (b : Build) (x : GLExtensions) (fbo : Z) : Env :=
  {| build := b; gl_extensions := x; GPU_SUPPORTS_DUALSOURCE_BLEND := false;
     g_defaultFBO := fbo; driver := rejecting_driver;
     Uint8x4ToFloat4 := fun _ => [F32.zero; F32.zero; F32.zero; F32.zero] |}.

Definition desktop : Env := env desktop_build desktop_extensions 0.
Definition tegra : Env := env gles_build tegra_extensions 0.
(** A host (libretro) whose backbuffer is framebuffer 7. *)
Definition libretro : Env := env desktop_build desktop_extensions 7.

Definition fb (w h ct : Z) : GLRFramebuffer :=
  {| handle := 0; framebuf := 0; color_texture := ct; z_stencil_buffer := 0;
     z_buffer := 0; stencil_buffer := 0; width := w; height := h |}.

Definition heap0 : Heap :=
  {| textures := {[ 1%positive := {| texture := 0; target := GL_TEXTURE_2D |} ]};
     buffers := ∅;
     shaders := {[ 1%positive := {| shader := 0; valid := true |} ]};
     programs := {[ 1%positive := {| program := 0; semantics_ := []; queries_ := [];
                                     initialize_ := [] |} ]};
     inputLayouts := {[ 1%positive := {| semanticsMask_ := 6; entries := [] |};
                        2%positive := {| semanticsMask_ := 128; entries := [] |} ]};
     framebuffers := {[ 1%positive := fb 480 272 11; 2%positive := fb 480 272 22 ]};
     ints := ∅ |}.

Definition runner0 : GLQueueRunner :=
  {| nameCache_ := []; currentDrawHandle_ := 0; currentReadHandle_ := 0;
     curFB_ := None; curFramebuffer_ := None; curFBWidth_ := 0; curFBHeight_ := 0;
     targetWidth_ := 480; targetHeight_ := 272; globalVAO_ := 1;
     maxAnisotropyLevel_ := F32.zero |}.

Definition world0 : World :=
  {| this := runner0; heap := heap0; next_name := 100 |}.

Definition gl0 : GLState :=
  {| gl_max_texture_units := 32; gl_active_texture := GL_TEXTURE0;
     gl_array_buffer_binding := 0; gl_element_array_buffer_binding := 0;
     gl_vertex_attrib_enabled := ∅; gl_scissor_test := false;
     gl_draw_framebuffer_binding := 0; gl_read_framebuffer_binding := 0 |}.

Definition failing_shader_step : GLRInitStep :=
  CREATE_SHADER 1 "void main() { gl_FragColor = ; }" GL_FRAGMENT_SHADER.

(** Texture unit 1, then the "unit" whose index is the value of the enum
    GL_TEXTURE0. *)
Definition stale_unit_pass : list GLRRenderData :=
  [BINDTEXTURE 1 None; BINDTEXTURE 33984 None].

Definition color_copy : CopyData :=
  {| src := 1; dst := 2;
     srcRect := {| rc_x := 0; rc_y := 0; rc_w := 480; rc_h := 272 |};
     dstPos := {| pos_x := 0; pos_y := 0 |};
     aspectMask := GL_COLOR_BUFFER_BIT |}.

Definition depth_copy : CopyData :=
  {| src := 1; dst := 2;
     srcRect := {| rc_x := 0; rc_y := 0; rc_w := 480; rc_h := 272 |};
     dstPos := {| pos_x := 0; pos_y := 0 |};
     aspectMask := GL_DEPTH_BUFFER_BIT |}.

End Examples.

(** Whether [fbo_unbind] finds a way to bind a framebuffer: always in a
    USING_GLES2 build, otherwise with one of the framebuffer-object
    extensions or on an ES context. *)
Definition fbo_available (E : Env) : bool :=
  USING_GLES2 (build E) || ARB_framebuffer_object (gl_extensions E)
  || IsGLES (gl_extensions E) || EXT_framebuffer_object (gl_extensions E).

(** The texture a BINDTEXTURE command names is null or a live object. *)
Definition texture_ok (w : World) (tex : option ptr) : Prop :=
  match tex with
  | Some p => is_Some (textures (heap w) !! p)
  | None => True
  end.

(** A mask over the [SEM_MAX] vertex-attribute slots, as an input layout
    derives it from its entries. *)
Definition semantics_mask_ok (m : Z) : Prop := 0 <= m < 2 ^ SEM_MAX.

(** Slot [i] is in the set a mask stands for. *)
Definition in_mask (m i : Z) : bool := Z.testbit m i.

(** The driver calls of one round of the loop over the attribute slots in
    BIND_INPUT_LAYOUT, from its two masks. *)
Definition toggles (enable disable : Z) (i : Z) : list Event :=
  (if has_bit enable i then [GL "glEnableVertexAttribArray" [I i]] else []) ++
  (if has_bit disable i then [GL "glDisableVertexAttribArray" [I i]] else []).

(** Whether [InitCreateFramebuffer] goes on to create anything: always in a
    USING_GLES2 build, otherwise with one of the two framebuffer-object
    extensions. *)
Definition fbo_creatable (E : Env) : bool :=
  USING_GLES2 (build E) || ARB_framebuffer_object (gl_extensions E)
  || EXT_framebuffer_object (gl_extensions E).

(** The renderbuffers a trace deletes, in order. *)
Definition deleted_renderbuffers (tr : list Event) : list Event :=
  List.filter (is_call "glDeleteRenderbuffers") tr.

(** The world after [*p = x] on a framebuffer, and after the driver handed out
    [n] names. *)
Definition put_fb (p : ptr) (x : GLRFramebuffer) (w : World) : World :=
  set_heap (with_framebuffers (<[p := x]> (framebuffers (heap w))) (heap w)) w.
Definition bump (n : nat) (w : World) : World :=
  {| this := this w; heap := heap w;
     next_name := Z.to_pos (Z.pos (next_name w) + Z.of_nat n) |}.

(** The driver calls at the end of a render pass, from the pass's locals. *)
Definition epilogue_trace (st : PassState) : list Event :=
  List.flat_map
    (fun i => if has_bit (attrMask st) i
              then [GL "glDisableVertexAttribArray" [I i]] else [])
    [0; 1; 2; 3; 4; 5; 6]
  ++ (if activeTexture st =? GL_TEXTURE0 then []
      else [GL "glActiveTexture" [I GL_TEXTURE0]])
  ++ [GL "glBindBuffer" [I GL_ARRAY_BUFFER; I 0];
      GL "glBindBuffer" [I GL_ELEMENT_ARRAY_BUFFER; I 0];
      GL "glBindVertexArray" [I 0];
      GL "glDisable" [I GL_SCISSOR_TEST]].




(** Every event of every run of [m] passes the test [Q]. *)
Definition emits_only {A} (Q : Event -> bool) (m : M A) : Prop :=
  forall w, forallb Q (fst (m w)) = true.

(** Every result of [m] that is not a fault satisfies [R]. *)
Definition yields {A} (R : A -> Prop) (m : M A) : Prop :=
  forall w, match snd (m w) with
            | Ok a _ => R a
            | Fatal _ => True
            end.

Definition not_unit_call (e : Event) : bool := negb (is_call "glActiveTexture" e).






(** The run ended with a fault. *)
Definition is_fatal {A} (r : list Event * Outcome A) : Prop :=
  exists t e, r = (t, Fatal e).

(** ** Notions used by the further properties *)

(** A draw call. *)
Definition is_draw (e : Event) : bool :=
  is_call "glDrawArrays" e || is_call "glDrawElements" e.

(** How many draw calls a command stands for: DRAW one, DRAW_INDEXED one if
    its instance count is 1 and none otherwise. *)
Definition draws (c : GLRRenderData) : nat :=
  match c with
  | DRAW _ _ _ => 1
  | DRAW_INDEXED _ _ _ _ instances => if instances =? 1 then 1 else 0
  | _ => 0
  end.

(** The event switches the scissor test on or off. *)
Definition is_scissor_toggle (e : Event) : bool :=
  match e with
  | GL fn [I cap] =>
      (String.eqb fn "glEnable" || String.eqb fn "glDisable") && (cap =? GL_SCISSOR_TEST)
  | _ => false
  end.

(** Every call of [tr] picked by [p] is issued while the scissor test is [b],
    the driver starting from [g]. *)
Fixpoint issued_under (p : Event -> bool) (b : bool) (g : GLState) (tr : list Event) : bool :=
  match tr with
  | [] => true
  | e :: rest =>
      (negb (p e) || Bool.eqb (gl_scissor_test g) b) && issued_under p b (gl_step g e) rest
  end.

Definition is_delete (e : Event) : bool :=
  match e with
  | Delete _ => true
  | _ => false
  end.

(** The [delete] events of a trace, in order. *)
Definition deletes (tr : list Event) : list Event := List.filter is_delete tr.

(** What [RunSteps] does not touch: the objects, the driver's supply of
    names, and the members other than the bound target and its cached
    handles. *)
Definition same_resources (w w' : World) : Prop :=
  heap w' = heap w /\ next_name w' = next_name w /\
  nameCache_ (this w') = nameCache_ (this w) /\
  curFramebuffer_ (this w') = curFramebuffer_ (this w) /\
  targetWidth_ (this w') = targetWidth_ (this w) /\
  targetHeight_ (this w') = targetHeight_ (this w) /\
  globalVAO_ (this w') = globalVAO_ (this w) /\
  maxAnisotropyLevel_ (this w') = maxAnisotropyLevel_ (this w).

(** Every run of [m] that ends well relates the world before to the world
    after by [R]. *)
Definition keeps {A} (R : World -> World -> Prop) (m : M A) : Prop :=
  forall w, match snd (m w) with
            | Ok _ w' => R w w'
            | Fatal _ => True
            end.

(** The three calls [PerformRenderPass] makes between binding the target and
    running the commands. *)
Definition pass_setup (vao : Z) : list Event :=
  [GL "glEnable" [I GL_SCISSOR_TEST]; GL "glBindVertexArray" [I vao];
   GL "glActiveTexture" [I GL_TEXTURE0]].

Definition not_draw (e : Event) : bool := negb (is_draw e).
Definition not_delete (e : Event) : bool := negb (is_delete e).
Definition not_scissor_toggle (e : Event) : bool := negb (is_scissor_toggle e).
Definition is_clear (e : Event) : bool := is_call "glClear" e.
Definition plain_call (e : Event) : bool :=
  negb (is_draw e) && negb (is_clear e) && negb (is_scissor_toggle e).

(** What a command keeps when it starts with the scissor test on. *)
Definition scissor_kept (g : GLState) (t : list Event) : Prop :=
  issued_under is_draw true g t = true /\ issued_under is_clear false g t = true /\
  gl_scissor_test (gl_run g t) = true.

Definition not_buffer_call (e : Event) : bool := negb (is_call "glBindBuffer" e).

(** The two buffer locals of a pass agree with the driver's bindings, once
    they have left their initial value [(GLuint)-1]. *)
Definition buffers_cached (st : PassState) (g : GLState) : Prop :=
  (curArrayBuffer st <> to_u32 (-1) -> gl_array_buffer_binding g = curArrayBuffer st) /\
  (curElemArrayBuffer st <> to_u32 (-1) ->
   gl_element_array_buffer_binding g = curElemArrayBuffer st).

(** The driver's binding for the two buffer targets the runner filters. *)
Definition buffer_binding (tgt : Z) (g : GLState) : option Z :=
  if tgt =? GL_ARRAY_BUFFER then Some (gl_array_buffer_binding g)
  else if tgt =? GL_ELEMENT_ARRAY_BUFFER then Some (gl_element_array_buffer_binding g)
  else None.

Module MoreExamples.

(** [Examples.world0] with a vertex buffer (object 1, name 5), an index
    buffer (object 2, name 6) and a uniform location cell. *)
Definition heap1 : Heap :=
  with_buffers {[ 1%positive := {| buffer := 5; target_ := GL_ARRAY_BUFFER |};
                  2%positive := {| buffer := 6; target_ := GL_ELEMENT_ARRAY_BUFFER |} ]}
    (with_ints {[ 1%positive := 3 ]} Examples.heap0).

Definition world1 : World :=
  {| this := Examples.runner0; heap := heap1; next_name := 100 |}.

(** [world1] with framebuffer object 1 given the name 9 in [framebuf]. *)
Definition heap2 : Heap :=
  with_framebuffers
    {[ 1%positive := {| handle := 0; framebuf := 9; color_texture := 11;
                        z_stencil_buffer := 0; z_buffer := 0; stencil_buffer := 0;
                        width := 480; height := 272 |} ]} heap1.

Definition world2 : World :=
  {| this := Examples.runner0; heap := heap2; next_name := 100 |}.

End MoreExamples.

(** The height [PerformBindFramebufferAsRenderTarget] stores in
    [curFBHeight_] for a target. *)
Definition pass_height (fb : option ptr) (w : World) : Z :=
  match fb with
  | Some p => match framebuffers (heap w) !! p with Some f => height f | None => 0 end
  | None => targetHeight_ (this w)
  end.

(** The framebuffer name a pass asks the driver for. *)
Definition pass_framebuffer (fb : option ptr) (w : World) : Z :=
  match fb with
  | Some p => match framebuffers (heap w) !! p with Some f => framebuf f | None => 0 end
  | None => 0
  end.

Definition not_framebuffer_call (e : Event) : bool :=
  negb (is_call "glBindFramebuffer" e || is_call "glBindFramebufferEXT" e).

Definition same_flip (w w' : World) : Prop :=
  curFramebuffer_ (this w') = curFramebuffer_ (this w) /\
  curFBHeight_ (this w') = curFBHeight_ (this w).

Definition same_heap (w w' : World) : Prop := heap w' = heap w.

(** The cached draw handle is the driver's draw framebuffer binding. *)
Definition draw_handle_cached (w : World) (g : GLState) : Prop :=
  gl_draw_framebuffer_binding g = currentDrawHandle_ (this w).

(** The integers among the arguments of a call. *)
Definition int_args (args : list Arg) : list Z :=
  List.flat_map (fun a => match a with I z => [z] | _ => [] end) args.

(** The names passed to the calls [fn(n, names)] of a trace, in order. *)
Definition names_of (fn : string) (tr : list Event) : list Z :=
  List.flat_map (fun e => match e with
                          | GL f (_ :: names) => if String.eqb f fn then int_args names else []
                          | _ => []
                          end) tr.

(** The cached texture names are distinct names the driver has handed out. *)
Definition names_fresh (w : World) : Prop :=
  NoDup (nameCache_ (this w)) /\
  forall x, In x (nameCache_ (this w)) -> 0 < x < Z.pos (next_name w).

Module Configurations.

(** A desktop OpenGL 2 context that has framebuffer objects through
    [EXT_framebuffer_object] only. *)
Definition ext_only_extensions : GLExtensions :=
  {| IsGLES := false; GLES3 := false; ARB_framebuffer_object := false;
     EXT_framebuffer_object := true; OES_packed_depth_stencil := false;
     OES_depth24 := false; NV_framebuffer_blit := false; ARB_copy_image := false;
     NV_copy_image := false; VersionGEThan_3_3_0 := false |}.

Definition legacy_desktop : Env :=
  Examples.env Examples.desktop_build ext_only_extensions 0.

(** A driver on which no program links, with a message in the info log. *)
Definition unlinking_driver : Driver :=
  {| compile_status := fun _ _ => true;
     shader_info_log := fun _ _ => EmptyString;
     link_status := fun _ => false;
     program_info_log := fun _ => "error: undefined varying";
     uniform_location := fun _ _ => -1;
     framebuffer_status := fun _ => GL_FRAMEBUFFER_COMPLETE;
     max_anisotropy := F32.of_int 16 |}.

Definition unlinking : Env :=
  {| build := Examples.desktop_build; gl_extensions := Examples.desktop_extensions;
     GPU_SUPPORTS_DUALSOURCE_BLEND := false; g_defaultFBO := 0; driver := unlinking_driver;
     Uint8x4ToFloat4 := fun _ => [F32.zero; F32.zero; F32.zero; F32.zero] |}.

(** A driver that links every program and knows the uniform [u_color]. *)
Definition linking_driver : Driver :=
  {| compile_status := fun _ _ => true;
     shader_info_log := fun _ _ => EmptyString;
     link_status := fun _ => true;
     program_info_log := fun _ => EmptyString;
     uniform_location := fun _ nm => if String.eqb nm "u_color" then 3 else -1;
     framebuffer_status := fun _ => GL_FRAMEBUFFER_COMPLETE;
     max_anisotropy := F32.of_int 16 |}.

Definition linking : Env :=
  {| build := Examples.desktop_build; gl_extensions := Examples.desktop_extensions;
     GPU_SUPPORTS_DUALSOURCE_BLEND := false; g_defaultFBO := 0; driver := linking_driver;
     Uint8x4ToFloat4 := fun _ => [F32.zero; F32.zero; F32.zero; F32.zero] |}.

(** A program object with two uniform queries and a sampler initializer. *)
Definition program3 : GLRProgram :=
  {| program := 0; semantics_ := [{| sem_location := 0; attrib := "a_position" |}];
     queries_ := [{| dest := 1%positive; name := Some "u_color" |};
                  {| dest := 2%positive; name := Some "u_missing" |}];
     initialize_ := [{| uniform := 1%positive; init_type := 0; value := 0 |}] |}.

Definition world3 : World :=
  {| this := Examples.runner0;
     heap := with_programs {[ 1%positive := program3 ]} Examples.heap0;
     next_name := 100 |}.

End Configurations.

(** The upload data (texture pixels, buffer contents) a step hands over by
    pointer and the runner frees after use. *)
Definition is_data_delete (e : Event) : bool :=
  match e with
  | Delete (P _) => true
  | _ => false
  end.
Definition keeps_data (e : Event) : bool := negb (is_data_delete e).

Definition data_freed (step : GLRInitStep) : list Event :=
  match step with
  | TEXTURE_IMAGE _ _ _ _ _ _ _ _ data => [Delete (P data)]
  | BUFFER_SUBDATA _ _ _ data deleteData => if deleteData then [Delete (P data)] else []
  | _ => []
  end.

(** The members of the runner that no init step assigns, and the name
    supply, which only grows. *)
Definition same_members (w w' : World) : Prop :=
  nameCache_ (this w') = nameCache_ (this w) /\
  curFB_ (this w') = curFB_ (this w) /\
  curFramebuffer_ (this w') = curFramebuffer_ (this w) /\
  curFBWidth_ (this w') = curFBWidth_ (this w) /\
  curFBHeight_ (this w') = curFBHeight_ (this w) /\
  targetWidth_ (this w') = targetWidth_ (this w) /\
  targetHeight_ (this w') = targetHeight_ (this w) /\
  globalVAO_ (this w') = globalVAO_ (this w) /\
  maxAnisotropyLevel_ (this w') = maxAnisotropyLevel_ (this w) /\
  Z.pos (next_name w) <= Z.pos (next_name w').

Definition is_create_framebuffer (step : GLRInitStep) : bool :=
  match step with
  | CREATE_FRAMEBUFFER _ => true
  | _ => false
  end.

(** Handles and members of the runner are untouched. *)
Definition same_runner (w w' : World) : Prop := this w' = this w.

(** The calls that make a linked program current and set it up. *)
Definition program_setup_call (e : Event) : bool :=
  is_call "glUseProgram" e || is_call "glGetUniformLocation" e || is_call "glUniform1i" e.
Definition not_program_setup (e : Event) : bool := negb (program_setup_call e).

Definition is_error_log (e : Event) : bool :=
  match e with
  | Log ELOG _ => true
  | _ => false
  end.

(** The texture name of the latest [glBindTexture] call. *)
Definition bound_after (o : option Z) (e : Event) : option Z :=
  match e with
  | GL fn [I _; I name] => if String.eqb fn "glBindTexture" then Some name else o
  | _ => o
  end.
Definition last_bound (tr : list Event) : option Z := List.fold_left bound_after tr None.

Definition not_bind_texture (e : Event) : bool := negb (is_call "glBindTexture" e).

Definition is_bind_program (c : GLRRenderData) : bool :=
  match c with
  | BINDPROGRAM _ => true
  | _ => false
  end.

(** A uniform command that names its uniform instead of giving a location. *)
Definition named_uniform (c : GLRRenderData) : bool :=
  match c with
  | UNIFORM4F _ (Some _) _ _ | UNIFORM4I _ (Some _) _ _ | UNIFORMMATRIX _ (Some _) _ => true
  | _ => false
  end.

Definition not_use_program (e : Event) : bool := negb (is_call "glUseProgram" e).

(** * Properties *)

Local Open Scope glr_scope.

(** ** Running the monad step by step *)

Lemma bind_ok {A B} (m : M A) (f : A -> M B) w t1 a w1 t2 o :
  m w = (t1, Ok a w1) -> f a w1 = (t2, o) -> bind m f w = (t1 ++ t2, o).
Proof. intros H1 H2. unfold bind. rewrite H1, H2. reflexivity. Qed.

Lemma bind_fatal {A B} (m : M A) (f : A -> M B) w t1 e :
  m w = (t1, Fatal e) -> bind m f w = (t1, Fatal e).
Proof. intros H1. unfold bind. rewrite H1. reflexivity. Qed.

Lemma bind_ok_inv {A B} (m : M A) (f : A -> M B) w t b w' :
  bind m f w = (t, Ok b w') ->
  exists t1 a w1 t2, m w = (t1, Ok a w1) /\ f a w1 = (t2, Ok b w') /\ t = t1 ++ t2.
Proof.
  unfold bind. destruct (m w) as [t1 [a w1|e]]; [|discriminate].
  destruct (f a w1) as [t2 o] eqn:Hf. intros [= <- ->].
  exists t1, a, w1, t2. auto.
Qed.

Lemma deref_ok {T} (sel : Heap -> gmap ptr T) p w x :
  sel (heap w) !! p = Some x -> deref sel p w = ([], Ok x w).
Proof. intros H. unfold deref. rewrite H. reflexivity. Qed.

Lemma deref_fatal {T} (sel : Heap -> gmap ptr T) p w :
  sel (heap w) !! p = None -> deref sel p w = ([], Fatal BadPointer).
Proof. intros H. unfold deref. rewrite H. reflexivity. Qed.

Lemma assign_ok {T} (sel : Heap -> gmap ptr T) upd p f w x :
  sel (heap w) !! p = Some x ->
  assign sel upd p f w
  = ([], Ok tt (set_heap (upd (<[p := f x]> (sel (heap w))) (heap w)) w)).
Proof.
  intros H. unfold assign, bind. rewrite (deref_ok _ _ _ _ H). reflexivity.
Qed.

Lemma assign_fatal {T} (sel : Heap -> gmap ptr T) upd p f w :
  sel (heap w) !! p = None -> assign sel upd p f w = ([], Fatal BadPointer).
Proof.
  intros H. unfold assign. apply bind_fatal. apply deref_fatal. exact H.
Qed.

Lemma bind_is_fatal_l {A B} (m : M A) (f : A -> M B) w :
  is_fatal (m w) -> is_fatal (bind m f w).
Proof. intros (t & e & H). exists t, e. apply bind_fatal. exact H. Qed.

Lemma bind_is_fatal_r {A B} (m : M A) (f : A -> M B) w t1 a w1 :
  m w = (t1, Ok a w1) -> is_fatal (f a w1) -> is_fatal (bind m f w).
Proof.
  intros H (t & e & Hf). exists (t1 ++ t), e. eapply bind_ok; eassumption.
Qed.

Lemma not_ok_is_fatal {A} (r : list Event * Outcome A) :
  world_of r = None -> is_fatal r.
Proof.
  destruct r as [t [a w|e]]; unfold world_of; simpl; [discriminate|].
  intros _. exists t, e. reflexivity.
Qed.

Lemma is_fatal_fault_of {A} (r : list Event * Outcome A) :
  is_fatal r -> fault_of r <> None.
Proof. intros (t & e & ->). discriminate. Qed.

Lemma framebuffer_status_log_run status w :
  framebuffer_status_log status w = (fst (framebuffer_status_log status w), Ok tt w).
Proof.
  unfold framebuffer_status_log.
  destruct (status =? GL_FRAMEBUFFER_COMPLETE), (status =? GL_FRAMEBUFFER_UNSUPPORTED),
    (status =? GL_FRAMEBUFFER_INCOMPLETE_ATTACHMENT); reflexivity.
Qed.

Ltac lookup_tac :=
  simpl;
  first [ eassumption
        | apply lookup_insert_eq
        | rewrite lookup_insert_ne by congruence; lookup_tac ].

Ltac prim :=
  first [ apply deref_ok; lookup_tac
        | apply assign_ok; lookup_tac
        | apply framebuffer_status_log_run
        | reflexivity ].

(** Run a sequence of actions whose branches are decided: every action in
    turn, the trace and the final world being collected in the goal's
    existential variables. *)
Ltac run :=
  cbv beta iota delta [negb when];
  lazymatch goal with
  | |- bind _ _ _ = _ => first [ eapply bind_ok; [ run | run ] | eapply bind_fatal; run ]
  | |- _ => prim
  end.

(** ** Counting calls *)

Lemma count_calls_app fn (t1 t2 : list Event) :
  count_calls fn (t1 ++ t2) = (count_calls fn t1 + count_calls fn t2)%nat.
Proof. unfold count_calls. rewrite List.filter_app, List.length_app. reflexivity. Qed.

Lemma count_call1_app fn z (t1 t2 : list Event) :
  count_call1 fn z (t1 ++ t2) = (count_call1 fn z t1 + count_call1 fn z t2)%nat.
Proof. unfold count_call1. rewrite List.filter_app, List.length_app. reflexivity. Qed.

Lemma gl_run_app g (t1 t2 : list Event) :
  gl_run g (t1 ++ t2) = gl_run (gl_run g t1) t2.
Proof. unfold gl_run. apply List.fold_left_app. Qed.

(** ** Shader creation (C1) *)

(** Whatever the compiler says, a CREATE_SHADER step ends with the shader
    object marked valid: the assignment [valid = true] after the [if] is
    unconditional. *)
Lemma RunInitStep_CREATE_SHADER_valid E w p code stage b sh :
  shaders (heap w) !! p = Some sh ->
  exists tr w',
    RunInitStep E (CREATE_SHADER p code stage) b w = (tr, Ok b w') /\
    shaders (heap w') !! p = Some {| shader := Z.pos (next_name w); valid := true |}.
Proof.
  intros H. unfold RunInitStep.
  destruct (compile_status (driver E) stage code) eqn:Hc.
  - do 2 eexists. split.
    + unfold glGetShaderiv_COMPILE_STATUS. rewrite Hc. run.
    + simpl. rewrite lookup_insert_eq. reflexivity.
  - do 2 eexists. split.
    + unfold glGetShaderiv_COMPILE_STATUS. rewrite Hc. run.
    + simpl. rewrite lookup_insert_eq. reflexivity.
Qed.

(** C1, at a shader whose compilation fails: [RunInitSteps] finishes without a
    fault and leaves the shader object with [valid = true], where the spec
    has it marked invalid. *)
Theorem RunInitSteps_failed_compile_leaves_shader_valid :
  compile_status (driver Examples.desktop) GL_FRAGMENT_SHADER
    "void main() { gl_FragColor = ; }" = false /\
  exists tr w',
    RunInitSteps Examples.desktop [Examples.failing_shader_step] Examples.world0
    = (tr, Ok tt w') /\
    count_calls "glDeleteShader" tr = 1%nat /\
    shaders (heap w') !! 1%positive = Some {| shader := 100; valid := true |}.
Proof.
  split; [reflexivity|].
  do 2 eexists. split; [vm_compute; reflexivity|].
  split; vm_compute; reflexivity.
Qed.

(** ** Copies (C2, C4) *)

(** [PerformCopy] never looks at [step.copy.dst]. *)
Lemma PerformCopy_dst_unused E c d w :
  PerformCopy E {| src := src c; dst := d; srcRect := srcRect c; dstPos := dstPos c;
                   aspectMask := aspectMask c |} w
  = PerformCopy E c w.
Proof. reflexivity. Qed.

(** C2, at a colour copy from framebuffer 1 (colour texture 11) to
    framebuffer 2 (colour texture 22): the one copy call names texture 11 as
    source and as destination; the destination framebuffer is not consulted. *)
Theorem PerformCopy_color_takes_destination_from_source :
  framebuffers Examples.heap0 !! 1%positive = Some (Examples.fb 480 272 11) /\
  framebuffers Examples.heap0 !! 2%positive = Some (Examples.fb 480 272 22) /\
  PerformCopy Examples.desktop Examples.color_copy Examples.world0
  = ([GL "glCopyImageSubData"
         [I 11; I GL_TEXTURE_2D; I 0; I 0; I 0; I 0;
          I 11; I GL_TEXTURE_2D; I 0; I 0; I 0; I 0;
          I 480; I 272; I 1]],
     Ok tt Examples.world0).
Proof. repeat split; vm_compute; reflexivity. Qed.

(** C4: a copy step with the depth aspect ends in the failed assertion
    "Depth copies not yet supported"; no driver call is made, neither by
    [PerformCopy] nor by the rest of [RunSteps]. *)
Theorem PerformCopy_depth_rejected E c w rest :
  aspectMask c = GL_DEPTH_BUFFER_BIT ->
  PerformCopy E c w = ([], Fatal (AssertFailed "Depth copies not yet supported - soon")) /\
  RunSteps E (COPY c :: rest) w
  = ([], Fatal (AssertFailed "Depth copies not yet supported - soon")).
Proof.
  intros H.
  assert (Hc : PerformCopy E c w
               = ([], Fatal (AssertFailed "Depth copies not yet supported - soon"))).
  { unfold PerformCopy. rewrite H. reflexivity. }
  split; [exact Hc|].
  unfold RunSteps. cbn [RunSteps_from]. unfold RunStep.
  apply bind_fatal. apply bind_fatal. exact Hc.
Qed.

Lemma PerformCopy_depth_rejected_witness :
  PerformCopy Examples.desktop Examples.depth_copy Examples.world0
  = ([], Fatal (AssertFailed "Depth copies not yet supported - soon")) /\
  RunSteps Examples.desktop [COPY Examples.depth_copy; BLIT] Examples.world0
  = ([], Fatal (AssertFailed "Depth copies not yet supported - soon")).
Proof.
  apply (PerformCopy_depth_rejected Examples.desktop Examples.depth_copy Examples.world0
           [BLIT]).
  reflexivity.
Defined.

(** ** Program creation (C9) *)

Lemma assert_msg_ok_inv cond msg w t a w' :
  _assert_msg_ cond msg w = (t, Ok a w') -> cond = true.
Proof. destruct cond; [reflexivity|]. discriminate. Qed.

(** A CREATE_PROGRAM step that does not end in a fault had a positive shader
    count. *)
Lemma RunInitStep_CREATE_PROGRAM_ok_positive E p shs n dual b w w' :
  world_of (RunInitStep E (CREATE_PROGRAM p shs n dual) b w) = Some w' -> 0 < n.
Proof.
  unfold world_of.
  destruct (RunInitStep E (CREATE_PROGRAM p shs n dual) b w) as [t [a w1|e]] eqn:Hr;
    simpl; [intros _|discriminate].
  unfold RunInitStep in Hr.
  apply bind_ok_inv in Hr as (t1 & a1 & w2 & t2 & _ & Hr & _).
  apply bind_ok_inv in Hr as (t3 & a3 & w3 & t4 & _ & Hr & _).
  apply bind_ok_inv in Hr as (t5 & a5 & w5 & t6 & Ha & _ & _).
  apply assert_msg_ok_inv in Ha. lia.
Qed.

Lemma RunInitSteps_loop_fatal_at E pre step post :
  (forall b w, is_fatal (RunInitStep E step b w)) ->
  forall b w, is_fatal (RunInitSteps_loop E (pre ++ step :: post) b w).
Proof.
  intros Hstep. induction pre as [|s pre IH]; intros b w; cbn [app RunInitSteps_loop].
  - apply bind_is_fatal_l, Hstep.
  - destruct (RunInitStep E s b w) as [t [a w1|e]] eqn:Hs.
    + eapply bind_is_fatal_r; [exact Hs|apply IH].
    + apply bind_is_fatal_l. exists t, e. exact Hs.
Qed.

(** C9: a CREATE_PROGRAM step with no shaders stops at the assertion
    "Can't create a program with zero shaders", right after [glCreateProgram];
    a list of init steps that holds such a step ends in a fault wherever the
    step stands; and a step that ends without a fault had [num_shaders > 0]. *)
Theorem RunInitSteps_CREATE_PROGRAM_zero_shaders_fatal E p shs dual b w prog :
  programs (heap w) !! p = Some prog ->
  RunInitStep E (CREATE_PROGRAM p shs 0 dual) b w
  = ([GL "glCreateProgram" [I (Z.pos (next_name w))]],
     Fatal (AssertFailed "Can't create a program with zero shaders")) /\
  (forall pre post w0,
      is_fatal (RunInitSteps E (pre ++ CREATE_PROGRAM p shs 0 dual :: post) w0)) /\
  (forall n w', world_of (RunInitStep E (CREATE_PROGRAM p shs n dual) b w) = Some w' ->
                0 < n).
Proof.
  intros H. split; [|split].
  - unfold RunInitStep. etransitivity; [run|reflexivity].
  - intros pre post w0. unfold RunInitSteps.
    eapply bind_is_fatal_r; [reflexivity|].
    apply RunInitSteps_loop_fatal_at. intros b0 w1.
    apply not_ok_is_fatal.
    destruct (world_of (RunInitStep E (CREATE_PROGRAM p shs 0 dual) b0 w1)) eqn:Hw;
      [|reflexivity].
    apply RunInitStep_CREATE_PROGRAM_ok_positive in Hw. lia.
  - intros n w'. apply RunInitStep_CREATE_PROGRAM_ok_positive.
Qed.

Lemma RunInitSteps_CREATE_PROGRAM_zero_shaders_fatal_witness :
  RunInitStep Examples.desktop (CREATE_PROGRAM 1 [] 0 false) 0 Examples.world0
  = ([GL "glCreateProgram" [I 100]],
     Fatal (AssertFailed "Can't create a program with zero shaders")) /\
  (forall pre post w0,
      is_fatal (RunInitSteps Examples.desktop
                  (pre ++ CREATE_PROGRAM 1 [] 0 false :: post) w0)) /\
  (forall n w', world_of (RunInitStep Examples.desktop (CREATE_PROGRAM 1 [] n false) 0
                            Examples.world0) = Some w' ->
                0 < n).
Proof.
  apply (RunInitSteps_CREATE_PROGRAM_zero_shaders_fatal Examples.desktop 1 [] false 0
           Examples.world0
           {| program := 0; semantics_ := []; queries_ := []; initialize_ := [] |}).
  reflexivity.
Defined.

(** ** Unbinding to the default framebuffer (C10) *)

(** The world [fbo_unbind] leaves: both cached handles are 0. *)
Lemma fbo_unbind_world E w :
  world_of (fbo_unbind E w)
  = Some (set_this (set_currentReadHandle_ 0 (set_currentDrawHandle_ 0 (this w))) w).
Proof.
  unfold fbo_unbind, world_of.
  destruct (USING_GLES2 (build E)), (ARB_framebuffer_object (gl_extensions E)),
    (IsGLES (gl_extensions E)), (EXT_framebuffer_object (gl_extensions E)),
    (IOS (build E)); reflexivity.
Qed.

(** C10: [fbo_unbind] always ends with [currentDrawHandle_] and
    [currentReadHandle_] at 0, while the driver was asked to bind
    [g_defaultFBO] (whenever framebuffer objects can be bound at all); a
    following [fbo_bind_fb_target] for handle 0, read or draw, changes nothing
    and makes no driver call. *)
Theorem fbo_unbind_caches_zero_not_default E w :
  exists tr w',
    fbo_unbind E w = (tr, Ok tt w') /\
    currentDrawHandle_ (this w') = 0 /\
    currentReadHandle_ (this w') = 0 /\
    (forall read, fbo_bind_fb_target E read 0 w' = ([], Ok tt w')) /\
    (forall g,
        gl_draw_framebuffer_binding (gl_run g tr)
        = (if fbo_available E then g_defaultFBO E else gl_draw_framebuffer_binding g) /\
        gl_read_framebuffer_binding (gl_run g tr)
        = (if fbo_available E then g_defaultFBO E else gl_read_framebuffer_binding g)).
Proof.
  unfold fbo_unbind, fbo_bind_fb_target, fbo_get_fb_target, fbo_available.
  destruct (USING_GLES2 (build E)), (ARB_framebuffer_object (gl_extensions E)),
    (IsGLES (gl_extensions E)), (EXT_framebuffer_object (gl_extensions E)),
    (IOS (build E));
    (do 2 eexists; split; [reflexivity|];
     split; [reflexivity|]; split; [reflexivity|]; split;
     [ intros read;
       destruct read, (GLES3 (gl_extensions E)), (NV_framebuffer_blit (gl_extensions E));
       reflexivity
     | intros g; split; reflexivity ]).
Qed.

(** On a host whose backbuffer is framebuffer 7, the driver ends up bound to
    7, the caches say 0, and a bind of framebuffer 0 is elided. *)
Example fbo_unbind_libretro :
  exists tr w',
    fbo_unbind Examples.libretro Examples.world0 = (tr, Ok tt w') /\
    gl_draw_framebuffer_binding (gl_run Examples.gl0 tr) = 7 /\
    currentDrawHandle_ (this w') = 0 /\
    trace_of (fbo_bind_fb_target Examples.libretro false 0 w') = [].
Proof. do 2 eexists. repeat split. Qed.

(** ** Texture names (C8) *)

Lemma AllocTextureName_empty w :
  nameCache_ (this w) = [] ->
  exists tr x w',
    AllocTextureName w = (tr, Ok x w') /\
    count_calls "glGenTextures" tr = 1%nat /\
    List.length (nameCache_ (this w')) = 15%nat.
Proof.
  intros H. unfold AllocTextureName.
  do 3 eexists. split; [|split].
  - eapply bind_ok; [reflexivity|]. cbv beta. rewrite H. run.
  - reflexivity.
  - reflexivity.
Qed.

Lemma AllocTextureName_nonempty w :
  nameCache_ (this w) <> [] ->
  exists x w',
    AllocTextureName w = ([], Ok x w') /\
    Datatypes.S (List.length (nameCache_ (this w'))) = List.length (nameCache_ (this w)).
Proof.
  intros H. unfold AllocTextureName.
  destruct (nameCache_ (this w)) as [|a l] eqn:Hc; [congruence|].
  do 2 eexists. split.
  - etransitivity.
    + eapply bind_ok; [reflexivity|]. cbv beta. rewrite Hc. run.
    + reflexivity.
  - cbn [this set_this nameCache_ set_nameCache_ modify_this].
    rewrite Hc. clear.
    assert (Hl : a :: l <> []) by discriminate.
    rewrite (List.app_removelast_last 0 Hl) at 2.
    rewrite List.length_app. cbn [List.length]. lia.
Qed.

(** How many batches [n] allocations need when [k] names are still cached. *)
Lemma AllocTextureNames_batches n :
  forall w,
    exists tr xs w',
      AllocTextureNames n w = (tr, Ok xs w') /\
      List.length xs = n /\
      count_calls "glGenTextures" tr
      = ((n - List.length (nameCache_ (this w)) + 15) / 16)%nat.
Proof.
  induction n as [|n IH]; intros w.
  - exists [], [], w. repeat split.
  - cbn [AllocTextureNames].
    destruct (nameCache_ (this w)) as [|a l] eqn:Hc.
    + destruct (AllocTextureName_empty w Hc) as (t1 & x & w1 & H1 & Hn & Hl).
      destruct (IH w1) as (t2 & xs & w2 & H2 & Hx & Hk).
      exists (t1 ++ t2 ++ []), (x :: xs), w2. split; [|split].
      * eapply bind_ok; [exact H1|]. eapply bind_ok; [exact H2|]. reflexivity.
      * simpl. congruence.
      * rewrite !count_calls_app, Hn, Hk, Hl. cbn [List.length count_calls List.filter].
        rewrite Nat.add_0_r.
        replace (Datatypes.S n - 0 + 15)%nat with (n + 1 * 16)%nat by lia.
        rewrite Nat.div_add by lia.
        destruct (Nat.le_gt_cases 15 n) as [Hge|Hlt].
        -- replace (n - 15 + 15)%nat with n by lia. lia.
        -- replace (n - 15 + 15)%nat with 15%nat by lia.
           rewrite (Nat.div_small n 16) by lia. reflexivity.
    + assert (Hne : nameCache_ (this w) <> []) by (rewrite Hc; discriminate).
      destruct (AllocTextureName_nonempty w Hne) as (x & w1 & H1 & Hl).
      destruct (IH w1) as (t2 & xs & w2 & H2 & Hx & Hk).
      exists ([] ++ t2 ++ []), (x :: xs), w2. split; [|split].
      * eapply bind_ok; [exact H1|]. eapply bind_ok; [exact H2|]. reflexivity.
      * simpl. congruence.
      * rewrite !count_calls_app, Hk. rewrite Hc in Hl. cbn [List.length] in *.
        cbn [count_calls List.filter List.length].
        replace (Datatypes.S n - Datatypes.S (List.length l))%nat
          with (n - List.length (nameCache_ (this w1)))%nat by lia.
        lia.
Qed.

(** C8: from an empty name cache, [n] calls of [AllocTextureName] all return
    and make [ceil (n / 16)] calls of [glGenTextures] between them. *)
Theorem AllocTextureName_batch_count w n :
  nameCache_ (this w) = [] ->
  exists tr xs w',
    AllocTextureNames n w = (tr, Ok xs w') /\
    List.length xs = n /\
    Z.of_nat (count_calls "glGenTextures" tr)
    = (Z.of_nat n + TEXCACHE_NAME_CACHE_SIZE - 1) / TEXCACHE_NAME_CACHE_SIZE.
Proof.
  intros H.
  destruct (AllocTextureNames_batches n w) as (tr & xs & w' & Hr & Hx & Hk).
  exists tr, xs, w'. split; [exact Hr|]. split; [exact Hx|].
  rewrite Hk, H. cbn [List.length]. unfold TEXCACHE_NAME_CACHE_SIZE.
  rewrite Nat.sub_0_r.
  rewrite Nat2Z.inj_div, Nat2Z.inj_add. f_equal. lia.
Qed.

Lemma AllocTextureName_batch_count_witness :
  exists tr xs w',
    AllocTextureNames 17 Examples.world0 = (tr, Ok xs w') /\
    List.length xs = 17%nat /\
    Z.of_nat (count_calls "glGenTextures" tr)
    = (Z.of_nat 17 + TEXCACHE_NAME_CACHE_SIZE - 1) / TEXCACHE_NAME_CACHE_SIZE.
Proof.
  apply (AllocTextureName_batch_count Examples.world0 17).
  reflexivity.
Defined.

(** ** Texture binds in a render pass (C3) *)

Lemma select_slot_run slot st w :
  select_slot slot st w
  = ((if slot =? activeTexture st then []
      else [GL "glActiveTexture" [I (to_u32 (GL_TEXTURE0 + slot))]]),
     Ok (if slot =? activeTexture st then st else set_activeTexture slot st) w).
Proof. unfold select_slot. destruct (slot =? activeTexture st); reflexivity. Qed.

(** One BINDTEXTURE command: a switch of the active unit if the slot is not
    the cached one, and a [glBindTexture] in any case. *)
Lemma BINDTEXTURE_run E slot tex st w :
  texture_ok w tex ->
  exists b,
    PerformRenderPass_command E (BINDTEXTURE slot tex) st w
    = ((if slot =? activeTexture st then []
        else [GL "glActiveTexture" [I (to_u32 (GL_TEXTURE0 + slot))]]) ++ [b],
       Ok (if slot =? activeTexture st then st else set_activeTexture slot st) w) /\
    is_call "glBindTexture" b = true /\ is_call "glActiveTexture" b = false.
Proof.
  intros Hok. unfold PerformRenderPass_command.
  destruct tex as [p|]; simpl in Hok.
  - destruct Hok as [t Ht]. exists (GL "glBindTexture" [I (target t); I (texture t)]).
    split; [|split; reflexivity].
    eapply bind_ok; [apply select_slot_run|]. etransitivity; [run|reflexivity].
  - exists (GL "glBindTexture" [I GL_TEXTURE_2D; I 0]).
    split; [|split; reflexivity].
    eapply bind_ok; [apply select_slot_run|]. reflexivity.
Qed.

Lemma count_calls_select fn (c : bool) (e b : Event) :
  count_calls fn ((if c then [] else [e]) ++ [b])
  = ((if c then 0 else if is_call fn e then 1 else 0)
     + (if is_call fn b then 1 else 0))%nat.
Proof.
  unfold count_calls. rewrite List.filter_app, List.length_app.
  destruct c; simpl; destruct (is_call fn e), (is_call fn b); reflexivity.
Qed.

Lemma BINDTEXTURE_repeat_cached E slot tex w n :
  texture_ok w tex ->
  forall st, activeTexture st = slot ->
    exists tr,
      PerformRenderPass_commands E (List.repeat (BINDTEXTURE slot tex) n) st w
      = (tr, Ok st w) /\
      count_calls "glBindTexture" tr = n /\
      count_calls "glActiveTexture" tr = 0%nat.
Proof.
  intros Hok. induction n as [|n IH]; intros st Hst.
  - exists []. repeat split.
  - destruct (BINDTEXTURE_run E slot tex st w Hok) as (b & Hb & Hb1 & Hb2).
    rewrite Hst, Z.eqb_refl in Hb.
    destruct (IH st Hst) as (tr & Hr & Hc1 & Hc2).
    exists (([] ++ [b]) ++ tr). split; [|split].
    + cbn [List.repeat PerformRenderPass_commands].
      eapply bind_ok; [exact Hb|exact Hr].
    + rewrite count_calls_app, Hc1. unfold count_calls. simpl. rewrite Hb1. reflexivity.
    + rewrite count_calls_app, Hc2. unfold count_calls. simpl. rewrite Hb2. reflexivity.
Qed.

(** C3 as the code has it: [N >= 1] consecutive BINDTEXTURE commands for one
    slot and one texture, anywhere in a pass, make [N] calls of
    [glBindTexture]; what is filtered is the switch of the active unit, made
    once if the slot differs from the cached one and not at all otherwise. *)
Theorem BINDTEXTURE_repeated_binds_each_time E slot tex st w N :
  (1 <= N)%nat ->
  texture_ok w tex ->
  exists tr st',
    PerformRenderPass_commands E (List.repeat (BINDTEXTURE slot tex) N) st w
    = (tr, Ok st' w) /\
    count_calls "glBindTexture" tr = N /\
    count_calls "glActiveTexture" tr = (if slot =? activeTexture st then 0%nat else 1%nat) /\
    activeTexture st' = slot.
Proof.
  intros HN Hok. destruct N as [|n]; [lia|].
  destruct (BINDTEXTURE_run E slot tex st w Hok) as (b & Hb & Hb1 & Hb2).
  set (st1 := if slot =? activeTexture st then st else set_activeTexture slot st) in *.
  assert (Hst1 : activeTexture st1 = slot).
  { unfold st1. destruct (slot =? activeTexture st) eqn:Heq; [|reflexivity].
    apply Z.eqb_eq in Heq. congruence. }
  destruct (BINDTEXTURE_repeat_cached E slot tex w n Hok st1 Hst1) as (tr & Hr & Hc1 & Hc2).
  eexists. exists st1. split; [|split; [|split]].
  - cbn [List.repeat PerformRenderPass_commands].
    eapply bind_ok; [exact Hb|exact Hr].
  - rewrite count_calls_app, count_calls_select, Hc1, Hb1.
    destruct (slot =? activeTexture st); reflexivity.
  - rewrite count_calls_app, count_calls_select, Hc2, Hb2.
    destruct (slot =? activeTexture st); reflexivity.
  - exact Hst1.
Qed.

Lemma BINDTEXTURE_repeated_binds_each_time_witness :
  exists tr st',
    PerformRenderPass_commands Examples.desktop
      (List.repeat (BINDTEXTURE 0 (Some 1%positive)) 3) initial_pass_state Examples.world0
    = (tr, Ok st' Examples.world0) /\
    count_calls "glBindTexture" tr = 3%nat /\
    count_calls "glActiveTexture" tr
    = (if 0 =? activeTexture initial_pass_state then 0%nat else 1%nat) /\
    activeTexture st' = 0.
Proof.
  apply (BINDTEXTURE_repeated_binds_each_time Examples.desktop 0 (Some 1%positive)
           initial_pass_state Examples.world0 3).
  - lia.
  - simpl. eexists. reflexivity.
Defined.

(** The claim of one bind call fails already for [N = 2]: a pass of two
    identical BINDTEXTURE commands calls [glBindTexture] twice. *)
Lemma BINDTEXTURE_twice_binds_twice :
  count_calls "glBindTexture"
    (trace_of (PerformRenderPass Examples.desktop None
                 (List.repeat (BINDTEXTURE 0 (Some 1%positive)) 2) Examples.world0))
  <> 1%nat.
Proof. vm_compute. discriminate. Qed.

(** ** Input layouts (C7) *)

Lemma has_bit_testbit x i : 0 <= i -> has_bit x i = Z.testbit x i.
Proof.
  intros Hi. unfold has_bit, bit. rewrite Z.shiftl_1_l.
  destruct (Z.testbit x i) eqn:Hx.
  - apply negb_true_iff, Z.eqb_neq. intros H0.
    assert (Hb : Z.testbit (Z.land x (2 ^ i)) i = true).
    { rewrite Z.land_spec, Hx, Z.pow2_bits_true by lia. reflexivity. }
    rewrite H0, Z.bits_0 in Hb. discriminate.
  - apply negb_false_iff, Z.eqb_eq. apply Z.bits_inj'. intros n Hn.
    rewrite Z.land_spec, Z.bits_0, Z.pow2_bits_eqb by lia.
    destruct (Z.eqb_spec i n) as [->|]; [rewrite Hx|]; auto using andb_false_r.
Qed.

Lemma testbit_above m i : 0 <= m < 2 ^ SEM_MAX -> SEM_MAX <= i -> Z.testbit m i = false.
Proof.
  intros Hm Hi. unfold SEM_MAX in *.
  destruct (Z.eq_dec m 0) as [->|Hne]; [apply Z.bits_0|].
  apply Z.bits_above_log2; [lia|].
  assert (Z.log2 m < 7) by (apply Z.log2_lt_pow2; lia). lia.
Qed.

Lemma toggle_loop_run enable disable l w :
  for_each l (fun i =>
    when (has_bit enable i) (gl "glEnableVertexAttribArray" [I i]) ;;
    when (has_bit disable i) (gl "glDisableVertexAttribArray" [I i])) w
  = (List.flat_map (toggles enable disable) l, Ok tt w).
Proof.
  revert w. induction l as [|i l IH]; intros w; [reflexivity|].
  cbn [for_each List.flat_map].
  etransitivity; [eapply bind_ok; [|apply IH]|reflexivity].
  unfold toggles. destruct (has_bit enable i), (has_bit disable i); reflexivity.
Qed.

Lemma for_each_gl {A} fn (args : A -> list Arg) l w :
  for_each l (fun x => gl fn (args x)) w = (List.map (fun x => GL fn (args x)) l, Ok tt w).
Proof.
  revert w. induction l as [|x l IH]; intros w; [reflexivity|].
  cbn [for_each List.map].
  etransitivity; [eapply bind_ok; [reflexivity|apply IH]|reflexivity].
Qed.

Lemma count_call1_pointers fn z off (l : list Entry) :
  count_call1 fn z
    (List.map (fun entry =>
       GL "glVertexAttribPointer"
          [I (location entry); I (count entry); I (type entry);
           I (bool_to_Z (normalized entry)); I (stride entry); I (off + offset entry)]) l)
  = 0%nat.
Proof. induction l as [|x l IH]; [reflexivity|exact IH]. Qed.

(** What a BIND_INPUT_LAYOUT command does: the toggles for the slots 0..6,
    then one [glVertexAttribPointer] per entry. *)
Lemma BIND_INPUT_LAYOUT_run E p off st w layout :
  inputLayouts (heap w) !! p = Some layout ->
  PerformRenderPass_command E (BIND_INPUT_LAYOUT p off) st w
  = (List.flat_map
       (toggles (Z.land (semanticsMask_ layout) (Z.lnot (attrMask st)))
                (Z.land (Z.lnot (semanticsMask_ layout)) (attrMask st)))
       [0; 1; 2; 3; 4; 5; 6]
     ++ List.map (fun entry =>
          GL "glVertexAttribPointer"
             [I (location entry); I (count entry); I (type entry);
              I (bool_to_Z (normalized entry)); I (stride entry); I (off + offset entry)])
          (entries layout),
     Ok (set_attrMask (semanticsMask_ layout) st) w).
Proof.
  intros H. unfold PerformRenderPass_command.
  etransitivity.
  - eapply bind_ok; [apply deref_ok; exact H|]. cbv beta zeta.
    eapply bind_ok; [apply toggle_loop_run|].
    eapply bind_ok; [apply for_each_gl|]. reflexivity.
  - rewrite List.app_nil_r. reflexivity.
Qed.

(** How often slot [i] is enabled and disabled by the toggles of the slots
    0..6. *)
Lemma count_toggles enable disable i :
  count_call1 "glEnableVertexAttribArray" i
    (List.flat_map (toggles enable disable) [0; 1; 2; 3; 4; 5; 6])
  = (if (0 <=? i) && (i <? 7) && has_bit enable i then 1%nat else 0%nat) /\
  count_call1 "glDisableVertexAttribArray" i
    (List.flat_map (toggles enable disable) [0; 1; 2; 3; 4; 5; 6])
  = (if (0 <=? i) && (i <? 7) && has_bit disable i then 1%nat else 0%nat).
Proof.
  assert (Hcases : i = 0 \/ i = 1 \/ i = 2 \/ i = 3 \/ i = 4 \/ i = 5 \/ i = 6
                   \/ (i < 0 \/ 7 <= i)) by lia.
  cbn [List.flat_map]. rewrite List.app_nil_r. unfold toggles.
  rewrite !count_call1_app.
  assert (Hone : forall fn gn (c : bool) j,
             count_call1 fn i (if c then [GL gn [I j]] else [])
             = (if c && String.eqb fn gn && (j =? i) then 1%nat else 0%nat)).
  { intros fn gn c j. destruct c; [|reflexivity].
    unfold count_call1. simpl.
    destruct (String.eqb fn gn), (j =? i); reflexivity. }
  rewrite !Hone. cbn [String.eqb Ascii.eqb Bool.eqb andb].
  rewrite !andb_false_r, !andb_true_r. cbn [Nat.add].
  destruct Hcases as [->|[->|[->|[->|[->|[->|[->|Hout]]]]]]].
  1-7: cbn [Z.eqb Z.leb Z.ltb Z.compare Pos.compare Pos.compare_cont Pos.eqb andb];
       rewrite ?andb_false_r;
       split; [destruct (has_bit enable _)|destruct (has_bit disable _)]; reflexivity.
  assert (H0 : (0 =? i) = false) by (apply Z.eqb_neq; lia).
  assert (H1 : (1 =? i) = false) by (apply Z.eqb_neq; lia).
  assert (H2 : (2 =? i) = false) by (apply Z.eqb_neq; lia).
  assert (H3 : (3 =? i) = false) by (apply Z.eqb_neq; lia).
  assert (H4 : (4 =? i) = false) by (apply Z.eqb_neq; lia).
  assert (H5 : (5 =? i) = false) by (apply Z.eqb_neq; lia).
  assert (H6 : (6 =? i) = false) by (apply Z.eqb_neq; lia).
  rewrite H0, H1, H2, H3, H4, H5, H6, !andb_false_r.
  assert (Hr : (0 <=? i) && (i <? 7) = false).
  { destruct Hout; [apply andb_false_iff; left; apply Z.leb_gt; lia
                   |apply andb_false_iff; right; apply Z.ltb_ge; lia]. }
  rewrite Hr. split; reflexivity.
Qed.

(** C7 as the code has it: with [A] the mask enabled so far and [B] the mask
    of the layout being bound, a slot [i] below SEM_MAX gets one
    [glEnableVertexAttribArray] if it is in [B] and not in [A] and none
    otherwise, and one [glDisableVertexAttribArray] if it is in [A] and not in
    [B] and none otherwise, so a slot in both gets neither; a slot that is
    not below SEM_MAX gets no call at all. *)
Theorem BIND_INPUT_LAYOUT_symmetric_difference E p off st w layout :
  inputLayouts (heap w) !! p = Some layout ->
  exists tr,
    PerformRenderPass_command E (BIND_INPUT_LAYOUT p off) st w
    = (tr, Ok (set_attrMask (semanticsMask_ layout) st) w) /\
    forall i,
      count_call1 "glEnableVertexAttribArray" i tr
      = (if (0 <=? i) && (i <? SEM_MAX)
            && (in_mask (semanticsMask_ layout) i && negb (in_mask (attrMask st) i))
         then 1%nat else 0%nat) /\
      count_call1 "glDisableVertexAttribArray" i tr
      = (if (0 <=? i) && (i <? SEM_MAX)
            && (in_mask (attrMask st) i && negb (in_mask (semanticsMask_ layout) i))
         then 1%nat else 0%nat).
Proof.
  intros H. eexists. split; [apply BIND_INPUT_LAYOUT_run; exact H|].
  intros i. unfold SEM_MAX.
  rewrite !count_call1_app, !count_call1_pointers, !Nat.add_0_r.
  destruct (count_toggles
              (Z.land (semanticsMask_ layout) (Z.lnot (attrMask st)))
              (Z.land (Z.lnot (semanticsMask_ layout)) (attrMask st)) i) as [He Hd].
  rewrite He, Hd. unfold in_mask.
  destruct (Z.leb_spec 0 i) as [Hpos|Hneg]; [|split; reflexivity].
  rewrite !has_bit_testbit, !Z.land_spec, !Z.lnot_spec by lia.
  split; [reflexivity|].
  rewrite (andb_comm (negb _) (Z.testbit (attrMask st) i)). reflexivity.
Qed.

Lemma BIND_INPUT_LAYOUT_symmetric_difference_witness :
  exists tr,
    PerformRenderPass_command Examples.desktop (BIND_INPUT_LAYOUT 1 0)
      (set_attrMask 3 initial_pass_state) Examples.world0
    = (tr, Ok (set_attrMask 6 (set_attrMask 3 initial_pass_state)) Examples.world0) /\
    forall i,
      count_call1 "glEnableVertexAttribArray" i tr
      = (if (0 <=? i) && (i <? SEM_MAX) && (in_mask 6 i && negb (in_mask 3 i))
         then 1%nat else 0%nat) /\
      count_call1 "glDisableVertexAttribArray" i tr
      = (if (0 <=? i) && (i <? SEM_MAX) && (in_mask 3 i && negb (in_mask 6 i))
         then 1%nat else 0%nat).
Proof.
  apply (BIND_INPUT_LAYOUT_symmetric_difference Examples.desktop 1 0
           (set_attrMask 3 initial_pass_state) Examples.world0
           {| semanticsMask_ := 6; entries := [] |}).
  reflexivity.
Defined.

(** For masks over the SEM_MAX slots, as input layouts derive them from
    their entries, this is the claim as it was stated: the enable calls are
    those of [B \ A], the disable calls those of [A \ B]. *)
Lemma BIND_INPUT_LAYOUT_symmetric_difference_in_range E p off st w layout :
  inputLayouts (heap w) !! p = Some layout ->
  semantics_mask_ok (attrMask st) ->
  semantics_mask_ok (semanticsMask_ layout) ->
  exists tr,
    PerformRenderPass_command E (BIND_INPUT_LAYOUT p off) st w
    = (tr, Ok (set_attrMask (semanticsMask_ layout) st) w) /\
    forall i,
      count_call1 "glEnableVertexAttribArray" i tr
      = (if in_mask (semanticsMask_ layout) i && negb (in_mask (attrMask st) i)
         then 1%nat else 0%nat) /\
      count_call1 "glDisableVertexAttribArray" i tr
      = (if in_mask (attrMask st) i && negb (in_mask (semanticsMask_ layout) i)
         then 1%nat else 0%nat).
Proof.
  intros H HA HB. eexists. split; [apply BIND_INPUT_LAYOUT_run; exact H|].
  intros i.
  rewrite !count_call1_app, !count_call1_pointers, !Nat.add_0_r.
  destruct (count_toggles
              (Z.land (semanticsMask_ layout) (Z.lnot (attrMask st)))
              (Z.land (Z.lnot (semanticsMask_ layout)) (attrMask st)) i) as [He Hd].
  rewrite He, Hd. unfold in_mask.
  destruct (Z.leb_spec 0 i) as [Hpos|Hneg].
  - destruct (Z.ltb_spec i 7) as [Hin|Hout].
    + rewrite !has_bit_testbit, !Z.land_spec, !Z.lnot_spec by lia.
      split; [reflexivity|].
      rewrite (andb_comm (negb _) (Z.testbit (attrMask st) i)). reflexivity.
    + rewrite (testbit_above (attrMask st) i HA),
        (testbit_above (semanticsMask_ layout) i HB) by (unfold SEM_MAX; lia).
      split; reflexivity.
  - rewrite !(Z.testbit_neg_r _ i) by lia. split; reflexivity.
Qed.

(** The claim without the bound on the slots fails: with nothing enabled,
    binding a layout whose mask has bit 7 set puts slot 7 in [B \ A], and no
    enable call is made for it. *)
Lemma BIND_INPUT_LAYOUT_slot_7_not_enabled :
  in_mask 128 7 && negb (in_mask (attrMask initial_pass_state) 7) = true /\
  inputLayouts Examples.heap0 !! 2%positive = Some {| semanticsMask_ := 128; entries := [] |} /\
  count_call1 "glEnableVertexAttribArray" 7
    (trace_of (PerformRenderPass_command Examples.desktop (BIND_INPUT_LAYOUT 2 0)
                 initial_pass_state Examples.world0))
  <> 1%nat.
Proof.
  split; [reflexivity|]. split; [vm_compute; reflexivity|].
  vm_compute. discriminate.
Qed.

(** ** Framebuffer creation and destruction (C5) *)

Lemma assign_fb_run p f w x :
  framebuffers (heap w) !! p = Some x ->
  assign_fb p f w = ([], Ok tt (put_fb p (f x) w)).
Proof. intros H. unfold assign_fb. rewrite (assign_ok _ _ _ _ _ _ H). reflexivity. Qed.

Lemma glGen1_run fn w :
  glGen1 fn w = ([GL fn [I 1; I (Z.pos (next_name w))]], Ok (Z.pos (next_name w)) (bump 1 w)).
Proof. reflexivity. Qed.

Lemma lookup_put_fb p x w : framebuffers (heap (put_fb p x w)) !! p = Some x.
Proof. unfold put_fb. simpl. apply lookup_insert_eq. Qed.

Lemma heap_bump n w : heap (bump n w) = heap w.
Proof. reflexivity. Qed.

Lemma next_name_put_fb p x w : next_name (put_fb p x w) = next_name w.
Proof. reflexivity. Qed.

Lemma next_name_bump n w :
  Z.pos (next_name (bump n w)) = Z.pos (next_name w) + Z.of_nat n.
Proof. unfold bump. cbn [next_name]. lia. Qed.

Ltac lookup_fb :=
  rewrite ?heap_bump; first [ apply lookup_put_fb | eassumption ].

(** As [run], for the code that creates framebuffers. *)
Ltac run_fb :=
  cbv beta iota delta [negb when];
  lazymatch goal with
  | |- bind _ _ _ = _ => eapply bind_ok; [ run_fb | run_fb ]
  | |- glGen1 _ _ = _ => apply glGen1_run
  | |- assign_fb _ _ _ = _ => apply assign_fb_run; lookup_fb
  | |- deref framebuffers _ _ = _ => apply deref_ok; lookup_fb
  | |- framebuffer_status_log _ _ = _ => apply framebuffer_status_log_run
  | |- _ => reflexivity
  end.

Ltac unfold_fb :=
  unfold InitCreateFramebuffer_body, fbo_ext_create, create_separate, create_combined,
    attach_all, color_texture_params, glCheckFramebufferStatus.

Opaque put_fb bump.

(** On an ES context without packed depth-stencil, the body of
    [InitCreateFramebuffer] leaves a framebuffer with two separate
    renderbuffers and no combined one. *)
Lemma InitCreateFramebuffer_body_separate E p w fb0 :
  framebuffers (heap w) !! p = Some fb0 ->
  IsGLES (gl_extensions E) = true ->
  OES_packed_depth_stencil (gl_extensions E) = false ->
  exists tr w' fb,
    InitCreateFramebuffer_body E p w = (tr, Ok tt w') /\
    framebuffers (heap w') !! p = Some fb /\
    width fb = width fb0 /\ height fb = height fb0 /\
    handle fb <> 0 /\
    z_stencil_buffer fb = 0 /\ z_buffer fb <> 0 /\ stencil_buffer fb <> 0 /\
    z_buffer fb <> stencil_buffer fb /\
    List.In (GL "glRenderbufferStorage"
               [I GL_RENDERBUFFER; I GL_STENCIL_INDEX8; I (width fb0); I (height fb0)]) tr.
Proof.
  intros H Hes Hpk. do 3 eexists. split; [|split].
  - unfold_fb. rewrite Hes, Hpk. run_fb.
  - cbn [heap set_this]. apply lookup_put_fb.
  - cbn [width height handle z_stencil_buffer z_buffer stencil_buffer
           set_stencil_buffer set_z_buffer set_z_stencil_buffer set_color_texture
           set_handle].
    repeat rewrite ?next_name_put_fb, ?next_name_bump.
    repeat split; try lia.
    rewrite !List.in_app_iff. cbn [List.In]. tauto.
Qed.

(** [fbo_ext_create] runs to its end on a live framebuffer object (which it
    leaves with a combined renderbuffer). *)
Lemma fbo_ext_create_run E p w fb0 :
  framebuffers (heap w) !! p = Some fb0 ->
  exists tr w' fb,
    fbo_ext_create E p w = (tr, Ok tt w') /\
    framebuffers (heap w') !! p = Some fb /\
    width fb = width fb0 /\ height fb = height fb0.
Proof.
  intros H. do 3 eexists. split; [|split].
  - unfold_fb. run_fb.
  - cbn [heap set_this]. apply lookup_put_fb.
  - split; reflexivity.
Qed.

(** The destructor of a framebuffer with separate renderbuffers, on an ES
    context: the depth and the stencil renderbuffer are deleted, in this
    order, and nothing else is. *)
Lemma GLRFramebuffer_dtor_separate E fb :
  IsGLES (gl_extensions E) = true ->
  z_stencil_buffer fb = 0 -> z_buffer fb <> 0 -> stencil_buffer fb <> 0 ->
  deleted_renderbuffers (GLRFramebuffer_dtor E fb)
  = [GL "glDeleteRenderbuffers" [I 1; I (z_buffer fb)];
     GL "glDeleteRenderbuffers" [I 1; I (stencil_buffer fb)]].
Proof.
  intros Hes Hzs Hz Hst.
  unfold GLRFramebuffer_dtor, delete_renderbuffers, deleted_renderbuffers.
  rewrite Hes, orb_true_r, Hzs.
  apply Z.eqb_neq in Hz. apply Z.eqb_neq in Hst. rewrite Hz, Hst.
  destruct (handle fb =? 0); reflexivity.
Qed.

(** C5 as the code has it: on an OpenGL ES context ([IsGLES]) that lacks
    packed depth-stencil, and where framebuffer objects can be created at
    all, a CREATE_FRAMEBUFFER step leaves the framebuffer with a depth and an
    8-bit stencil renderbuffer of its own and the combined handle 0, and its
    destructor deletes exactly these two renderbuffers. *)
Theorem CREATE_FRAMEBUFFER_separate_on_gles E p b w fb0 :
  framebuffers (heap w) !! p = Some fb0 ->
  IsGLES (gl_extensions E) = true ->
  OES_packed_depth_stencil (gl_extensions E) = false ->
  fbo_creatable E = true ->
  exists tr w' fb,
    RunInitStep E (CREATE_FRAMEBUFFER p) b w = (tr, Ok (to_u32 (-1)) w') /\
    framebuffers (heap w') !! p = Some fb /\
    z_stencil_buffer fb = 0 /\ z_buffer fb <> 0 /\ stencil_buffer fb <> 0 /\
    z_buffer fb <> stencil_buffer fb /\
    List.In (GL "glRenderbufferStorage"
               [I GL_RENDERBUFFER; I GL_STENCIL_INDEX8; I (width fb0); I (height fb0)]) tr /\
    deleted_renderbuffers (GLRFramebuffer_dtor E fb)
    = [GL "glDeleteRenderbuffers" [I 1; I (z_buffer fb)];
       GL "glDeleteRenderbuffers" [I 1; I (stencil_buffer fb)]].
Proof.
  intros H Hes Hpk Hc.
  assert (Hbody : forall w1 fb1,
             framebuffers (heap w1) !! p = Some fb1 ->
             width fb1 = width fb0 -> height fb1 = height fb0 ->
             exists tr w' fb,
               InitCreateFramebuffer_body E p w1 = (tr, Ok tt w') /\
               framebuffers (heap w') !! p = Some fb /\
               z_stencil_buffer fb = 0 /\ z_buffer fb <> 0 /\ stencil_buffer fb <> 0 /\
               z_buffer fb <> stencil_buffer fb /\
               List.In (GL "glRenderbufferStorage"
                          [I GL_RENDERBUFFER; I GL_STENCIL_INDEX8; I (width fb0);
                           I (height fb0)]) tr /\
               deleted_renderbuffers (GLRFramebuffer_dtor E fb)
               = [GL "glDeleteRenderbuffers" [I 1; I (z_buffer fb)];
                  GL "glDeleteRenderbuffers" [I 1; I (stencil_buffer fb)]]).
  { intros w1 fb1 H1 Hw Hh.
    destruct (InitCreateFramebuffer_body_separate E p w1 fb1 H1 Hes Hpk)
      as (tr & w' & fb & Hr & Hl & _ & _ & _ & Hzs & Hz & Hst & Hne & Hin).
    exists tr, w', fb. repeat split; try assumption.
    - rewrite <- Hw, <- Hh. exact Hin.
    - apply GLRFramebuffer_dtor_separate; assumption. }
  unfold RunInitStep, InitCreateFramebuffer, fbo_creatable in *.
  destruct (USING_GLES2 (build E)) eqn:Hg.
  - destruct (Hbody w fb0 H eq_refl eq_refl)
      as (tr & w' & fb & Hr & Hl & Hzs & Hz & Hst & Hne & Hin & Hd).
    exists (tr ++ []), w', fb. split; [|repeat split; try assumption].
    + eapply bind_ok; [exact Hr|reflexivity].
    + rewrite List.in_app_iff. left. exact Hin.
  - destruct (ARB_framebuffer_object (gl_extensions E)) eqn:Harb.
    + destruct (Hbody w fb0 H eq_refl eq_refl)
        as (tr & w' & fb & Hr & Hl & Hzs & Hz & Hst & Hne & Hin & Hd).
      exists (tr ++ []), w', fb. split; [|repeat split; try assumption].
      * cbn [negb andb]. eapply bind_ok; [exact Hr|reflexivity].
      * rewrite List.in_app_iff. left. exact Hin.
    + simpl in Hc. rewrite Hc. cbn [negb andb].
      destruct (fbo_ext_create_run E p w fb0 H) as (t0 & w1 & fb1 & Hr0 & Hl1 & Hw & Hh).
      destruct (Hbody w1 fb1 Hl1 Hw Hh)
        as (tr & w' & fb & Hr & Hl & Hzs & Hz & Hst & Hne & Hin & Hd).
      exists ((t0 ++ tr) ++ []), w', fb. split; [|repeat split; try assumption].
      * eapply bind_ok; [|reflexivity]. eapply bind_ok; [exact Hr0|exact Hr].
      * rewrite !List.in_app_iff. left. right. exact Hin.
Qed.

Lemma CREATE_FRAMEBUFFER_separate_on_gles_witness :
  exists tr w' fb,
    RunInitStep Examples.tegra (CREATE_FRAMEBUFFER 1) 0 Examples.world0
    = (tr, Ok (to_u32 (-1)) w') /\
    framebuffers (heap w') !! 1%positive = Some fb /\
    z_stencil_buffer fb = 0 /\ z_buffer fb <> 0 /\ stencil_buffer fb <> 0 /\
    z_buffer fb <> stencil_buffer fb /\
    List.In (GL "glRenderbufferStorage"
               [I GL_RENDERBUFFER; I GL_STENCIL_INDEX8;
                I (width (Examples.fb 480 272 11)); I (height (Examples.fb 480 272 11))]) tr /\
    deleted_renderbuffers (GLRFramebuffer_dtor Examples.tegra fb)
    = [GL "glDeleteRenderbuffers" [I 1; I (z_buffer fb)];
       GL "glDeleteRenderbuffers" [I 1; I (stencil_buffer fb)]].
Proof.
  apply (CREATE_FRAMEBUFFER_separate_on_gles Examples.tegra 1 0 Examples.world0
           (Examples.fb 480 272 11)); reflexivity.
Defined.

(** The claim without the restriction to ES contexts fails: a desktop context
    reports no packed depth-stencil ([OES_packed_depth_stencil] is an ES
    extension) and gets the combined layout, whose destructor deletes one
    renderbuffer. *)
Lemma CREATE_FRAMEBUFFER_desktop_combined :
  OES_packed_depth_stencil (gl_extensions Examples.desktop) = false /\
  exists tr w' fb,
    RunInitStep Examples.desktop (CREATE_FRAMEBUFFER 1) 0 Examples.world0
    = (tr, Ok (to_u32 (-1)) w') /\
    framebuffers (heap w') !! 1%positive = Some fb /\
    ~ (z_stencil_buffer fb = 0 /\ z_buffer fb <> 0 /\ stencil_buffer fb <> 0) /\
    List.length (deleted_renderbuffers (GLRFramebuffer_dtor Examples.desktop fb)) = 1%nat.
Proof.
  split; [reflexivity|].
  do 3 eexists. split; [vm_compute; reflexivity|].
  split; [vm_compute; reflexivity|].
  split; [|vm_compute; reflexivity].
  cbn. intros [H _]. discriminate.
Qed.

(** ** The end of a render pass (C6) *)

Lemma disable_loop_run m l w :
  for_each l (fun i => when (has_bit m i) (gl "glDisableVertexAttribArray" [I i])) w
  = (List.flat_map
       (fun i => if has_bit m i then [GL "glDisableVertexAttribArray" [I i]] else []) l,
     Ok tt w).
Proof.
  revert w. induction l as [|i l IH]; intros w; [reflexivity|].
  cbn [for_each List.flat_map].
  etransitivity; [eapply bind_ok; [|apply IH]|reflexivity].
  destruct (has_bit m i); reflexivity.
Qed.

Lemma when_negb_gl_run (c : bool) fn args w :
  when (negb c) (gl fn args) w = ((if c then [] else [GL fn args]), Ok tt w).
Proof. destruct c; reflexivity. Qed.

Lemma PerformRenderPass_epilogue_run st w :
  PerformRenderPass_epilogue st w = (epilogue_trace st, Ok tt w).
Proof.
  unfold PerformRenderPass_epilogue, epilogue_trace.
  etransitivity.
  - eapply bind_ok; [apply disable_loop_run|].
    eapply bind_ok; [apply when_negb_gl_run|reflexivity].
  - reflexivity.
Qed.





(** *** What commands emit and return *)

Section Emits.
Context (Q : Event -> bool).

Lemma emits_ret {A} (a : A) : emits_only Q (ret a).
Proof. intros w. reflexivity. Qed.
Lemma emits_fail {A} e : emits_only Q (@fail A e).
Proof. intros w. reflexivity. Qed.
Lemma emits_emit e : Q e = true -> emits_only Q (emit e).
Proof. intros H w. simpl. rewrite H. reflexivity. Qed.
Lemma emits_gl fn args : Q (GL fn args) = true -> emits_only Q (gl fn args).
Proof. apply emits_emit. Qed.
Lemma emits_log l s : Q (Log l s) = true -> emits_only Q (log l s).
Proof. apply emits_emit. Qed.
Lemma emits_deref {T} (sel : Heap -> gmap ptr T) p : emits_only Q (deref sel p).
Proof. intros w. unfold deref. destruct (sel (heap w) !! p); reflexivity. Qed.
Lemma emits_member {A} (f : GLQueueRunner -> A) : emits_only Q (member f).
Proof. intros w. reflexivity. Qed.
Lemma emits_modify_this f : emits_only Q (modify_this f).
Proof. intros w. reflexivity. Qed.
Lemma emits_modify_heap f : emits_only Q (modify_heap f).
Proof. intros w. reflexivity. Qed.
Lemma emits_bind {A B} (m : M A) (f : A -> M B) :
  emits_only Q m -> (forall a, emits_only Q (f a)) -> emits_only Q (bind m f).
Proof.
  intros Hm Hf w. unfold bind. specialize (Hm w).
  destruct (m w) as [t1 [a w1|e]]; [|exact Hm].
  specialize (Hf a w1). destruct (f a w1) as [t2 o]. simpl in *.
  rewrite forallb_app, Hm, Hf. reflexivity.
Qed.
Lemma emits_when b m : emits_only Q m -> emits_only Q (when b m).
Proof. intros H. destruct b; [exact H|apply emits_ret]. Qed.
Lemma emits_for_each {A} (l : list A) body :
  (forall x, emits_only Q (body x)) -> emits_only Q (for_each l body).
Proof.
  intros H. induction l as [|x l IH]; [apply emits_ret|].
  cbn [for_each]. apply emits_bind; [apply H|intros _; exact IH].
Qed.
End Emits.

Lemma yields_ret {A} (R : A -> Prop) a : R a -> yields R (ret a).
Proof. intros H w. exact H. Qed.
Lemma yields_bind {A B} (R : B -> Prop) (m : M A) (f : A -> M B) :
  (forall a, yields R (f a)) -> yields R (bind m f).
Proof.
  intros Hf w. unfold bind. destruct (m w) as [t1 [a w1|e]]; [|exact Logic.I].
  specialize (Hf a w1). destruct (f a w1) as [t2 o]. exact Hf.
Qed.

Ltac emits :=
  repeat first
    [ apply emits_bind; [|intros ?]
    | apply emits_ret | apply emits_fail
    | apply emits_gl; reflexivity
    | apply emits_log; reflexivity
    | apply emits_emit; reflexivity
    | apply emits_deref | apply emits_member | apply emits_modify_this
    | apply emits_modify_heap
    | apply emits_when
    | apply emits_for_each; intros ?
    | match goal with
      | |- emits_only _ (if ?b then _ else _) => destruct b
      | |- emits_only _ (match ?x with _ => _ end) => destruct x
      end ].

Lemma yields_bind_with {A B} (P : A -> Prop) (R : B -> Prop) (m : M A) (f : A -> M B) :
  yields P m -> (forall a, P a -> yields R (f a)) -> yields R (bind m f).
Proof.
  intros Hm Hf w. unfold bind. specialize (Hm w).
  destruct (m w) as [t1 [a w1|e]]; [|exact Logic.I].
  specialize (Hf a Hm w1). destruct (f a w1) as [t2 o]. exact Hf.
Qed.




Ltac split_ifs :=
  repeat match goal with
         | |- context [if ?b then _ else _] => destruct b
         end.


Lemma gl_step_not_unit g e :
  not_unit_call e = true -> gl_active_texture (gl_step g e) = gl_active_texture g.
Proof.
  destruct e as [fn args| |]; try reflexivity.
  unfold not_unit_call, is_call. intros H. apply negb_true_iff in H.
  rewrite String.eqb_sym in H.
  destruct args as [|[a| | |] [|[b| | |] [|? ?]]]; try reflexivity;
    unfold gl_step, gl_bind_framebuffer; rewrite ?H; split_ifs; reflexivity.
Qed.



Lemma gl_run_not_unit g tr :
  forallb not_unit_call tr = true -> gl_active_texture (gl_run g tr) = gl_active_texture g.
Proof.
  revert g. induction tr as [|e tr IH]; intros g H; [reflexivity|].
  cbn [forallb] in H. apply andb_true_iff in H as [He Ht].
  unfold gl_run in *. cbn [List.fold_left]. rewrite (IH _ Ht). apply gl_step_not_unit, He.
Qed.



















(** *** Attributes the pass touched *)







(** The bound on the slots is needed in the model, and only for the number
    33984, which is the value of the enum GL_TEXTURE0 and the index of no
    texture unit: the local [activeTexture] starts as the enum and is then
    assigned slot indices, so after a BINDTEXTURE naming that number the
    final test [activeTexture != GL_TEXTURE0] takes the pass for being on
    unit 0. *)
Lemma PerformRenderPass_stale_active_texture :
  exists tr w',
    PerformRenderPass Examples.desktop None Examples.stale_unit_pass Examples.world0
    = (tr, Ok tt w') /\
    List.filter (is_call "glActiveTexture") tr
    = [GL "glActiveTexture" [I GL_TEXTURE0];
       GL "glActiveTexture" [I (GL_TEXTURE0 + 1)];
       GL "glActiveTexture" [I (GL_TEXTURE0 + 33984)]] /\
    gl_active_texture (gl_run Examples.gl0 tr) = GL_TEXTURE0 + 1 /\
    gl_active_texture (gl_run Examples.gl0 tr) <> GL_TEXTURE0.
Proof.
  do 2 eexists. split; [vm_compute; reflexivity|].
  split; [vm_compute; reflexivity|].
  split; [vm_compute; reflexivity|].
  vm_compute. discriminate.
Qed.

(** * Further properties *)

(** ** Traces in parts *)

Lemma emits_only_filter {A} (Q q : Event -> bool) (m : M A) w :
  emits_only Q m -> (forall e, Q e = true -> q e = false) ->
  List.filter q (fst (m w)) = [].
Proof.
  intros Hm Hq. specialize (Hm w). induction (fst (m w)) as [|e t IH]; [reflexivity|].
  cbn [forallb] in Hm. apply andb_true_iff in Hm as [He Ht].
  cbn [List.filter]. rewrite (Hq e He). apply IH, Ht.
Qed.

Section Keeps.
Context (R : World -> World -> Prop).
Hypothesis R_refl : forall w, R w w.
Hypothesis R_trans : forall w1 w2 w3, R w1 w2 -> R w2 w3 -> R w1 w3.

Lemma keeps_ret {A} (a : A) : keeps R (ret a).
Proof. intros w. apply R_refl. Qed.
Lemma keeps_fail {A} e : keeps R (@fail A e).
Proof. intros w. exact Logic.I. Qed.
Lemma keeps_emit e : keeps R (emit e).
Proof. intros w. apply R_refl. Qed.
Lemma keeps_gl fn args : keeps R (gl fn args).
Proof. apply keeps_emit. Qed.
Lemma keeps_log l s : keeps R (log l s).
Proof. apply keeps_emit. Qed.
Lemma keeps_deref {T} (sel : Heap -> gmap ptr T) p : keeps R (deref sel p).
Proof. intros w. unfold deref. destruct (sel (heap w) !! p); [apply R_refl|exact Logic.I]. Qed.
Lemma keeps_member {A} (f : GLQueueRunner -> A) : keeps R (member f).
Proof. intros w. apply R_refl. Qed.
Lemma keeps_bind {A B} (m : M A) (f : A -> M B) :
  keeps R m -> (forall a, keeps R (f a)) -> keeps R (bind m f).
Proof.
  intros Hm Hf w. unfold bind. specialize (Hm w).
  destruct (m w) as [t1 [a w1|e]]; [|exact Logic.I].
  specialize (Hf a w1). destruct (f a w1) as [t2 [b w2|e]]; [|exact Logic.I].
  simpl in *. eapply R_trans; eassumption.
Qed.
Lemma keeps_when b m : keeps R m -> keeps R (when b m).
Proof. intros H. destruct b; [exact H|apply keeps_ret]. Qed.
Lemma keeps_for_each {A} (l : list A) body :
  (forall x, keeps R (body x)) -> keeps R (for_each l body).
Proof.
  intros H. induction l as [|x l IH]; [apply keeps_ret|].
  cbn [for_each]. apply keeps_bind; [apply H|intros _; exact IH].
Qed.
Lemma keeps_modify_this f :
  (forall w, R w (set_this (f (this w)) w)) -> keeps R (modify_this f).
Proof. intros H w. apply H. Qed.
Lemma keeps_modify_heap f :
  (forall w, R w (set_heap (f (heap w)) w)) -> keeps R (modify_heap f).
Proof. intros H w. apply H. Qed.
End Keeps.

Ltac keeps_with refl trans side known :=
  repeat first
    [ known
    | apply (keeps_bind _ trans); [|intros ?]
    | apply (keeps_ret _ refl) | apply keeps_fail
    | apply (keeps_gl _ refl)
    | apply (keeps_log _ refl)
    | apply (keeps_emit _ refl)
    | apply (keeps_deref _ refl) | apply (keeps_member _ refl)
    | apply (keeps_when _ refl)
    | apply (keeps_for_each _ refl trans); intros ?
    | apply keeps_modify_this; intros ?; side
    | apply keeps_modify_heap; intros ?; side
    | match goal with
      | |- keeps _ (if ?b then _ else _) => destruct b
      | |- keeps _ (match ?x with _ => _ end) => destruct x
      end ].

Lemma same_resources_refl w : same_resources w w.
Proof. repeat split. Qed.

Lemma same_resources_trans w1 w2 w3 :
  same_resources w1 w2 -> same_resources w2 w3 -> same_resources w1 w3.
Proof. unfold same_resources. intuition congruence. Qed.

Ltac resources_side :=
  repeat match goal with c : CachedHandle |- _ => destruct c end; repeat split.

Ltac keeps_resources_with known :=
  keeps_with same_resources_refl same_resources_trans resources_side known.
Ltac keeps_resources := keeps_resources_with fail.

Lemma PerformRenderPass_commands_keep_resources E cs :
  forall st, keeps same_resources (PerformRenderPass_commands E cs st).
Proof.
  induction cs as [|c cs IH]; intros st; cbn [PerformRenderPass_commands].
  - keeps_resources.
  - apply (keeps_bind _ same_resources_trans); [|intros st'; apply IH].
    destruct c;
      unfold PerformRenderPass_command, resolve_uniform, GetUniformLoc, glGetUniformLocation,
        select_slot, for_range;
      keeps_resources.
Qed.

Lemma RunStep_keeps_resources E i step : keeps same_resources (RunStep E i step).
Proof.
  unfold RunStep. apply (keeps_bind _ same_resources_trans); [|intros _; keeps_resources].
  destruct step as [fb cs|c| | |].
  - unfold PerformRenderPass. destruct cs as [|c cs]; [keeps_resources|].
    unfold PerformBindFramebufferAsRenderTarget, fbo_bind_fb_target, fbo_unbind,
      PerformRenderPass_epilogue, for_range.
    destruct (fbo_get_fb_target E false) as [tgt cached].
    keeps_resources_with ltac:(apply PerformRenderPass_commands_keep_resources).
  - unfold PerformCopy, _assert_msg_. keeps_resources.
    all: destruct a as [[? ?] ?]; keeps_resources.
  - unfold PerformBlit. keeps_resources.
  - unfold PerformReadback. keeps_resources.
  - unfold PerformReadbackImage. keeps_resources.
Qed.

(** A render pass with commands that returns, in its parts. *)
Lemma PerformRenderPass_parts E fb c cs w tr w' :
  PerformRenderPass E fb (c :: cs) w = (tr, Ok tt w') ->
  exists t0 w0 tc st,
    PerformBindFramebufferAsRenderTarget E fb w = (t0, Ok tt w0) /\
    PerformRenderPass_commands E (c :: cs) initial_pass_state w0 = (tc, Ok st w') /\
    tr = t0 ++ pass_setup (globalVAO_ (this w0)) ++ tc ++ epilogue_trace st.
Proof.
  unfold PerformRenderPass. intros H.
  apply bind_ok_inv in H as (t1 & [] & w1 & t2 & H1 & H & ->).
  apply bind_ok_inv in H as (t3 & a3 & w3 & t4 & H3 & H & ->).
  apply bind_ok_inv in H as (t5 & vao & w5 & t6 & H5 & H & ->).
  apply bind_ok_inv in H as (t7 & a7 & w7 & t8 & H7 & H & ->).
  apply bind_ok_inv in H as (t9 & a9 & w9 & t10 & H9 & H & ->).
  apply bind_ok_inv in H as (t11 & st & w11 & t12 & H11 & H & ->).
  rewrite PerformRenderPass_epilogue_run in H. injection H as <- <-.
  injection H3 as <- _ <-. injection H5 as <- <- <-. injection H7 as <- _ <-.
  injection H9 as <- _ <-.
  exists t1, w1, t11, st. repeat split; assumption.
Qed.

Lemma commands_emit E Q :
  (forall c st, emits_only Q (PerformRenderPass_command E c st)) ->
  forall cs st, emits_only Q (PerformRenderPass_commands E cs st).
Proof.
  intros H. induction cs as [|c cs IH]; intros st; cbn [PerformRenderPass_commands].
  - apply emits_ret.
  - apply emits_bind; [apply H|intros st'; apply IH].
Qed.

Ltac unfold_command :=
  unfold PerformRenderPass_command, resolve_uniform, GetUniformLoc, glGetUniformLocation,
    select_slot, for_range.

Ltac unfold_bind_target :=
  unfold PerformBindFramebufferAsRenderTarget, fbo_bind_fb_target, fbo_unbind;
  match goal with
  | E : Env |- _ => destruct (fbo_get_fb_target E false) as [? ?]
  end.

Lemma epilogue_trace_emits Q st :
  emits_only Q (PerformRenderPass_epilogue st) ->
  forallb Q (epilogue_trace st) = true.
Proof.
  intros H. specialize (H Examples.world0).
  rewrite PerformRenderPass_epilogue_run in H. exact H.
Qed.

(** ** Draw calls *)

Lemma command_draws E c st w :
  List.length (List.filter is_draw (fst (PerformRenderPass_command E c st w))) = draws c.
Proof.
  assert (Hq : forall e, not_draw e = true -> is_draw e = false)
    by (intros e; apply negb_true_iff).
  destruct c;
    try (rewrite (emits_only_filter not_draw is_draw); [reflexivity| |exact Hq];
         unfold_command; emits).
  - reflexivity.
  - unfold PerformRenderPass_command, draws, when. destruct (instances =? 1); reflexivity.
Qed.

Lemma commands_draws E cs :
  forall st w tr st' w',
    PerformRenderPass_commands E cs st w = (tr, Ok st' w') ->
    List.length (List.filter is_draw tr) = list_sum (List.map draws cs).
Proof.
  induction cs as [|c cs IH]; intros st w tr st' w' H.
  - injection H as <- _ _. reflexivity.
  - cbn [PerformRenderPass_commands] in H.
    apply bind_ok_inv in H as (t1 & st1 & w1 & t2 & H1 & H2 & ->).
    rewrite List.filter_app, List.length_app, (IH _ _ _ _ _ H2).
    pose proof (command_draws E c st w) as Hc. rewrite H1 in Hc. cbn [fst] in Hc.
    rewrite Hc. reflexivity.
Qed.

(** X1: A render pass that returns has made one draw call for each DRAW command
    and for each DRAW_INDEXED command whose instance count is 1, and no
    other: an indexed draw with another instance count is dropped without a
    trace. *)
Theorem PerformRenderPass_draw_calls E fb cs w tr w' :
  PerformRenderPass E fb cs w = (tr, Ok tt w') ->
  List.length (List.filter is_draw tr) = list_sum (List.map draws cs).
Proof.
  destruct cs as [|c cs]; [intros [= <- _]; reflexivity|].
  intros H. apply PerformRenderPass_parts in H as (t0 & w0 & tc & st & H0 & Hc & ->).
  assert (Hq : forall e, not_draw e = true -> is_draw e = false)
    by (intros e; apply negb_true_iff).
  rewrite !List.filter_app, !List.length_app, (commands_draws _ _ _ _ _ _ _ Hc).
  assert (H1 : List.filter is_draw t0 = []).
  { change t0 with (fst (t0, @Ok unit tt w0)). rewrite <- H0.
    apply (emits_only_filter not_draw); [|exact Hq].
    unfold_bind_target. emits. }
  assert (H2 : List.filter is_draw (epilogue_trace st) = []).
  { change (epilogue_trace st) with (fst (epilogue_trace st, @Ok unit tt w0)).
    rewrite <- PerformRenderPass_epilogue_run.
    apply (emits_only_filter not_draw); [|exact Hq].
    unfold PerformRenderPass_epilogue, for_range. emits. }
  rewrite H1, H2. cbn. lia.
Qed.

Lemma PerformRenderPass_draw_calls_witness :
  List.length (List.filter is_draw
    (trace_of (PerformRenderPass Examples.desktop None
                 [DRAW 4 0 3; DRAW_INDEXED 4 6 5123 0 2; DRAW_INDEXED 4 6 5123 0 1]
                 Examples.world0)))
  = list_sum (List.map draws [DRAW 4 0 3; DRAW_INDEXED 4 6 5123 0 2; DRAW_INDEXED 4 6 5123 0 1]).
Proof.
  eapply (PerformRenderPass_draw_calls Examples.desktop None
            [DRAW 4 0 3; DRAW_INDEXED 4 6 5123 0 2; DRAW_INDEXED 4 6 5123 0 1]
            Examples.world0).
  vm_compute. reflexivity.
Defined.

(** ** What a whole pass emits *)

Lemma PerformRenderPass_emits_with E Q fb cs :
  (forall c st, emits_only Q (PerformRenderPass_command E c st)) ->
  emits_only Q (PerformBindFramebufferAsRenderTarget E fb) ->
  (forall vao, forallb Q (pass_setup vao) = true) ->
  (forall st, emits_only Q (PerformRenderPass_epilogue st)) ->
  emits_only Q (PerformRenderPass E fb cs).
Proof.
  intros Hc Hb Hs He. unfold PerformRenderPass.
  destruct cs as [|c cs]; [apply emits_ret|].
  pose proof (Hs 0) as Hs0. cbn [pass_setup forallb] in Hs0.
  apply andb_prop in Hs0 as [H1 Hs0]. apply andb_prop in Hs0 as [_ Hs0].
  apply andb_prop in Hs0 as [H3 _].
  apply emits_bind; [exact Hb|intros _].
  apply emits_bind; [apply emits_gl; exact H1|intros _].
  apply emits_bind; [apply emits_member|intros vao].
  apply emits_bind.
  { apply emits_gl. specialize (Hs vao). cbn [pass_setup forallb] in Hs.
    apply andb_prop in Hs as [_ Hs]. apply andb_prop in Hs as [Hs _]. exact Hs. }
  intros _. apply emits_bind; [apply emits_gl; exact H3|intros _].
  apply emits_bind; [apply commands_emit; exact Hc|intros st; apply He].
Qed.

Lemma PerformRenderPass_no_delete E fb cs :
  emits_only not_delete (PerformRenderPass E fb cs).
Proof.
  apply PerformRenderPass_emits_with.
  - intros c st. destruct c; unfold_command; emits.
  - unfold_bind_target. emits.
  - reflexivity.
  - intros st. unfold PerformRenderPass_epilogue, for_range. emits.
Qed.

Lemma PerformCopy_no_delete E c : emits_only not_delete (PerformCopy E c).
Proof. unfold PerformCopy, _assert_msg_. emits. all: destruct a as [[? ?] ?]; emits. Qed.

(** ** Steps are freed as they complete *)

Lemma deletes_app t1 t2 : deletes (t1 ++ t2) = deletes t1 ++ deletes t2.
Proof. apply List.filter_app. Qed.

Lemma RunStep_deletes E i step w tr w' :
  RunStep E i step w = (tr, Ok tt w') -> deletes tr = [Delete (I i)].
Proof.
  unfold RunStep. intros H.
  apply bind_ok_inv in H as (t1 & [] & w1 & t2 & H1 & H2 & ->).
  injection H2 as <- _. unfold deletes. rewrite List.filter_app.
  replace (List.filter is_delete t1) with (@nil Event); [reflexivity|].
  symmetry. change t1 with (fst (t1, @Ok unit tt w1)). rewrite <- H1.
  apply (emits_only_filter not_delete); [|intros e; apply negb_true_iff].
  destruct step;
    [apply PerformRenderPass_no_delete | apply PerformCopy_no_delete
    | apply emits_ret | apply emits_ret | apply emits_ret].
Qed.

Lemma RunSteps_from_deletes E steps :
  forall i w tr w',
    RunSteps_from E i steps w = (tr, Ok tt w') ->
    deletes tr
    = List.map (fun k => Delete (I (i + Z.of_nat k))) (List.seq 0 (List.length steps)).
Proof.
  induction steps as [|step steps IH]; intros i w tr w' H.
  - injection H as <- _. reflexivity.
  - cbn [RunSteps_from] in H.
    apply bind_ok_inv in H as (t1 & [] & w1 & t2 & H1 & H2 & ->).
    rewrite deletes_app, (RunStep_deletes _ _ _ _ _ _ H1), (IH _ _ _ _ H2).
    cbn [List.length List.seq List.map]. rewrite Z.add_0_r. cbn [app]. f_equal.
    rewrite <- List.seq_shift, List.map_map. apply List.map_ext. intros k.
    do 2 f_equal. lia.
Qed.

(** X2: A run of [RunSteps] that returns has freed every step of the list, each
    exactly once and in the order of the list, and has freed nothing else. *)
Theorem RunSteps_frees_each_step_once E steps w tr w' :
  RunSteps E steps w = (tr, Ok tt w') ->
  deletes tr = List.map (fun k => Delete (I (Z.of_nat k))) (List.seq 0 (List.length steps)).
Proof. intros H. apply RunSteps_from_deletes in H. exact H. Qed.

Lemma RunSteps_frees_each_step_once_witness :
  deletes (trace_of (RunSteps Examples.desktop
             [RENDER None [DRAW 4 0 3]; BLIT; COPY Examples.color_copy; RENDER None []]
             Examples.world0))
  = List.map (fun k => Delete (I (Z.of_nat k))) (List.seq 0 4).
Proof.
  eapply (RunSteps_frees_each_step_once Examples.desktop
            [RENDER None [DRAW 4 0 3]; BLIT; COPY Examples.color_copy; RENDER None []]
            Examples.world0).
  vm_compute. reflexivity.
Defined.

(** ** What the frame steps leave alone *)

Lemma RunSteps_from_keep_resources E steps :
  forall i, keeps same_resources (RunSteps_from E i steps).
Proof.
  induction steps as [|step steps IH]; intros i; cbn [RunSteps_from].
  - apply (keeps_ret _ same_resources_refl).
  - apply (keeps_bind _ same_resources_trans); [apply RunStep_keeps_resources|intros _; apply IH].
Qed.

(** X3: Whatever the steps, a run of [RunSteps] that returns has left every
    object of the heap as it was (no texture, buffer, shader, program,
    layout or framebuffer object is written), has taken no name from the
    driver, and has kept the texture-name cache, [curFramebuffer_], the
    target size, the vertex-array object and the anisotropy level: only
    [curFB_] with its size and the two cached framebuffer handles can
    differ. *)
Theorem RunSteps_keeps_resources E steps w tr w' :
  RunSteps E steps w = (tr, Ok tt w') -> same_resources w w'.
Proof.
  intros H. pose proof (RunSteps_from_keep_resources E steps 0 w) as K.
  unfold RunSteps in H. rewrite H in K. exact K.
Qed.

Lemma RunSteps_keeps_resources_witness :
  exists tr w',
    RunSteps Examples.desktop
      [RENDER (Some 1%positive) [DRAW 4 0 3]; COPY Examples.color_copy] Examples.world0
    = (tr, Ok tt w') /\
    same_resources Examples.world0 w'.
Proof.
  eexists _, _.
  refine ((fun H => conj H (RunSteps_keeps_resources Examples.desktop _ Examples.world0 _ _ H)) _).
  vm_compute. reflexivity.
Defined.

(** ** Scissoring of draws and clears *)

Lemma issued_under_app p b g t1 t2 :
  issued_under p b g (t1 ++ t2)
  = issued_under p b g t1 && issued_under p b (gl_run g t1) t2.
Proof.
  revert g. induction t1 as [|e t1 IH]; intros g; [reflexivity|].
  cbn [app issued_under]. rewrite IH, andb_assoc. reflexivity.
Qed.

Lemma issued_under_none Q p b g t :
  (forall e, Q e = true -> p e = false) ->
  forallb Q t = true -> issued_under p b g t = true.
Proof.
  intros HQ. revert g. induction t as [|e t IH]; intros g H; [reflexivity|].
  cbn [forallb] in H. apply andb_prop in H as [He H].
  cbn [issued_under]. rewrite (HQ _ He), (IH _ H). reflexivity.
Qed.

Lemma gl_step_not_toggle g e :
  not_scissor_toggle e = true -> gl_scissor_test (gl_step g e) = gl_scissor_test g.
Proof.
  destruct e as [fn args| |]; try reflexivity.
  destruct args as [|[a| | |] [|[b| | |] [|? ?]]]; try reflexivity;
    unfold not_scissor_toggle, is_scissor_toggle, gl_step, gl_bind_framebuffer.
  - intros H. apply negb_true_iff in H.
    destruct (String.eqb fn "glActiveTexture"); [split_ifs; reflexivity|].
    destruct (String.eqb fn "glEnableVertexAttribArray"); [reflexivity|].
    destruct (String.eqb fn "glDisableVertexAttribArray"); [reflexivity|].
    destruct (String.eqb fn "glEnable"), (String.eqb fn "glDisable"),
      (a =? GL_SCISSOR_TEST); try discriminate H; reflexivity.
  - intros _. split_ifs; reflexivity.
Qed.

Lemma gl_run_not_toggle g tr :
  forallb not_scissor_toggle tr = true -> gl_scissor_test (gl_run g tr) = gl_scissor_test g.
Proof.
  revert g. induction tr as [|e tr IH]; intros g H; [reflexivity|].
  cbn [forallb] in H. apply andb_prop in H as [He H].
  unfold gl_run in *. cbn [List.fold_left]. rewrite (IH _ H). apply gl_step_not_toggle, He.
Qed.

Lemma plain_call_inv e :
  plain_call e = true -> is_draw e = false /\ is_clear e = false /\ not_scissor_toggle e = true.
Proof.
  unfold plain_call. intros H. apply andb_prop in H as [H H3]. apply andb_prop in H as [H1 H2].
  apply negb_true_iff in H1, H2. auto.
Qed.

Lemma plain_trace g t :
  forallb plain_call t = true ->
  issued_under is_draw true g t = true /\ issued_under is_clear false g t = true /\
  gl_scissor_test (gl_run g t) = gl_scissor_test g.
Proof.
  intros H. repeat split.
  - apply (issued_under_none plain_call); [intros e He; apply plain_call_inv in He; tauto|exact H].
  - apply (issued_under_none plain_call); [intros e He; apply plain_call_inv in He; tauto|exact H].
  - apply gl_run_not_toggle. rewrite forallb_forall in *. intros e He.
    specialize (H e He). apply plain_call_inv in H. tauto.
Qed.


Lemma command_scissor E c st w g :
  gl_scissor_test g = true ->
  scissor_kept g (fst (PerformRenderPass_command E c st w)).
Proof.
  intros Hg.
  assert (Hp : forall m : M PassState, emits_only plain_call m -> scissor_kept g (fst (m w))).
  { intros m Hm. destruct (plain_trace g _ (Hm w)) as (H1 & H2 & H3).
    unfold scissor_kept. rewrite H3. auto. }
  destruct c; try solve [apply Hp; unfold_command; emits].
  - unfold PerformRenderPass_command, when, scissor_kept.
    destruct (negb (Z.land clearMask GL_COLOR_BUFFER_BIT =? 0)),
      (negb (Z.land clearMask GL_DEPTH_BUFFER_BIT =? 0)),
      (negb (Z.land clearMask GL_STENCIL_BUFFER_BIT =? 0)),
      (USING_GLES2 (build E)); cbn; auto.
  - unfold scissor_kept. cbn. rewrite Hg. auto.
  - unfold PerformRenderPass_command, when, scissor_kept.
    destruct (instances =? 1); cbn; rewrite ?Hg; auto.
Qed.

Lemma commands_scissor E cs :
  forall st w g, gl_scissor_test g = true ->
    scissor_kept g (fst (PerformRenderPass_commands E cs st w)).
Proof.
  induction cs as [|c cs IH]; intros st w g Hg.
  - unfold scissor_kept. cbn. auto.
  - cbn [PerformRenderPass_commands]. unfold bind.
    pose proof (command_scissor E c st w g Hg) as (H1 & H2 & H3).
    destruct (PerformRenderPass_command E c st w) as [t1 [st1 w1|f]]; cbn [fst] in *.
    + specialize (IH st1 w1 _ H3). destruct IH as (I1 & I2 & I3).
      destruct (PerformRenderPass_commands E cs st1 w1) as [t2 o]. cbn [fst] in *.
      unfold scissor_kept. rewrite !issued_under_app, H1, H2, I1, I2.
      unfold gl_run in *. rewrite List.fold_left_app, I3. auto.
    + unfold scissor_kept. auto.
Qed.

(** X4: In a render pass that returns, every draw call ([glDrawArrays],
    [glDrawElements]) is issued with the scissor test enabled and every
    [glClear] with the scissor test disabled, whatever the driver's state
    before the pass: the pass enables the test before the first command and
    CLEAR switches it off around its [glClear] and back on. *)
Theorem PerformRenderPass_scissor_discipline E fb cs w tr w' g :
  PerformRenderPass E fb cs w = (tr, Ok tt w') ->
  issued_under is_draw true g tr = true /\ issued_under is_clear false g tr = true.
Proof.
  destruct cs as [|c cs]; [intros [= <- _]; cbn; auto|].
  intros H. apply PerformRenderPass_parts in H as (t0 & w0 & tc & st & H0 & Hc & ->).
  assert (P0 : forallb plain_call t0 = true).
  { assert (Hb : emits_only plain_call (PerformBindFramebufferAsRenderTarget E fb))
      by (unfold_bind_target; emits).
    specialize (Hb w). rewrite H0 in Hb. exact Hb. }
  destruct (plain_trace g _ P0) as (A1 & A2 & _).
  set (g1 := gl_run g t0).
  assert (Hs : gl_scissor_test (gl_run g1 (pass_setup (globalVAO_ (this w0)))) = true).
  { cbn. split_ifs; reflexivity. }
  pose proof (commands_scissor E (c :: cs) initial_pass_state w0 _ Hs) as (C1 & C2 & _).
  rewrite Hc in C1, C2. cbn [fst] in C1, C2.
  assert (Pe : forall p gg, (p = is_draw \/ p = is_clear) -> forall b,
             issued_under p b gg (epilogue_trace st) = true).
  { intros p gg Hpq b.
    apply (issued_under_none (fun e => negb (is_draw e) && negb (is_clear e))).
    - intros e He. apply andb_prop in He as [E1 E2]. apply negb_true_iff in E1, E2.
      destruct Hpq as [-> | ->]; assumption.
    - apply epilogue_trace_emits. unfold PerformRenderPass_epilogue, for_range. emits. }
  rewrite !issued_under_app. fold g1. rewrite A1, A2, C1, C2.
  rewrite !Pe by auto.
  split; cbn; reflexivity.
Qed.

Lemma PerformRenderPass_scissor_discipline_witness :
  exists tr w',
    PerformRenderPass Examples.desktop None
      [CLEAR 16640 0 F32.zero 0; DRAW 4 0 3; CLEAR 256 0 F32.zero 0;
       DRAW_INDEXED 4 6 5123 0 1] Examples.world0 = (tr, Ok tt w') /\
    issued_under is_draw true Examples.gl0 tr = true /\
    issued_under is_clear false Examples.gl0 tr = true.
Proof.
  eexists _, _.
  refine ((fun H => conj H
            (PerformRenderPass_scissor_discipline _ _ _ _ _ _ Examples.gl0 H)) _).
  vm_compute. reflexivity.
Defined.

(** ** Commands only read the world *)

Ltac keeps_world := keeps_with (@eq_refl World) (@eq_trans World) fail fail.

Lemma command_keeps_world E c st : keeps eq (PerformRenderPass_command E c st).
Proof. destruct c; unfold_command; keeps_world. Qed.

Lemma commands_keep_world E cs : forall st, keeps eq (PerformRenderPass_commands E cs st).
Proof.
  induction cs as [|c cs IH]; intros st; cbn [PerformRenderPass_commands].
  - apply (keeps_ret _ (@eq_refl World)).
  - apply (keeps_bind _ (@eq_trans World)); [apply command_keeps_world|intros st'; apply IH].
Qed.

Lemma commands_world E cs st w tr st' w' :
  PerformRenderPass_commands E cs st w = (tr, Ok st' w') -> w' = w.
Proof.
  intros H. pose proof (commands_keep_world E cs st w) as K. rewrite H in K.
  symmetry. exact K.
Qed.

Lemma commands_app E cs1 cs2 :
  forall st w tr st' w',
    PerformRenderPass_commands E (cs1 ++ cs2) st w = (tr, Ok st' w') ->
    exists t1 st1 t2,
      PerformRenderPass_commands E cs1 st w = (t1, Ok st1 w) /\
      PerformRenderPass_commands E cs2 st1 w = (t2, Ok st' w') /\ tr = t1 ++ t2.
Proof.
  induction cs1 as [|c cs1 IH]; intros st w tr st' w' H.
  - exists [], st, tr. repeat split. exact H.
  - cbn [app PerformRenderPass_commands] in H.
    apply bind_ok_inv in H as (t1 & st1 & w1 & t2 & H1 & H2 & ->).
    pose proof (command_keeps_world E c st w) as K. rewrite H1 in K. cbn in K. subst w1.
    apply IH in H2 as (ta & sta & tb & Ha & Hb & ->).
    exists (t1 ++ ta), sta, tb. repeat split; [|exact Hb|apply app_assoc].
    cbn [PerformRenderPass_commands]. eapply bind_ok; eassumption.
Qed.

(** ** Filtered buffer binds *)

Lemma gl_step_not_buffer g e :
  not_buffer_call e = true ->
  gl_array_buffer_binding (gl_step g e) = gl_array_buffer_binding g /\
  gl_element_array_buffer_binding (gl_step g e) = gl_element_array_buffer_binding g.
Proof.
  destruct e as [fn args| |]; try (split; reflexivity).
  unfold not_buffer_call, is_call. intros H. apply negb_true_iff in H.
  rewrite String.eqb_sym in H.
  destruct args as [|[a| | |] [|[b| | |] [|? ?]]]; try (split; reflexivity);
    unfold gl_step, gl_bind_framebuffer; rewrite ?H; split_ifs; split; reflexivity.
Qed.

Lemma gl_run_not_buffer g tr :
  forallb not_buffer_call tr = true ->
  gl_array_buffer_binding (gl_run g tr) = gl_array_buffer_binding g /\
  gl_element_array_buffer_binding (gl_run g tr) = gl_element_array_buffer_binding g.
Proof.
  revert g. induction tr as [|e tr IH]; intros g H; [split; reflexivity|].
  cbn [forallb] in H. apply andb_prop in H as [He H].
  unfold gl_run in *. cbn [List.fold_left].
  destruct (IH (gl_step g e) H) as [-> ->]. apply gl_step_not_buffer, He.
Qed.

Lemma select_slot_buffers slot st :
  yields (fun s => curArrayBuffer s = curArrayBuffer st /\
                   curElemArrayBuffer s = curElemArrayBuffer st) (select_slot slot st).
Proof.
  intros w. rewrite select_slot_run. destruct (slot =? activeTexture st); split; reflexivity.
Qed.

Ltac yield_eq :=
  repeat first
    [ apply yields_ret; repeat split; reflexivity
    | eapply yields_bind_with; [apply select_slot_buffers | intros ? [? ?]]
    | apply yields_ret; split; assumption
    | apply yields_bind; intros ?
    | match goal with
      | |- yields _ (if ?b then _ else _) => destruct b
      | |- yields _ (match ?x with _ => _ end) => destruct x
      end ].

Lemma command_keeps_buffers_cached E c st w g :
  buffers_cached st g ->
  match PerformRenderPass_command E c st w with
  | (t, Ok st' _) => buffers_cached st' (gl_run g t)
  | _ => True
  end.
Proof.
  intros [HA HE].
  assert (Hother :
    emits_only not_buffer_call (PerformRenderPass_command E c st) ->
    yields (fun s => curArrayBuffer s = curArrayBuffer st /\
                     curElemArrayBuffer s = curElemArrayBuffer st)
           (PerformRenderPass_command E c st) ->
    match PerformRenderPass_command E c st w with
    | (t, Ok st' _) => buffers_cached st' (gl_run g t)
    | _ => True
    end).
  { intros He Hy. specialize (He w). specialize (Hy w).
    destruct (PerformRenderPass_command E c st w) as [t [st' w'|f]]; [|exact Logic.I].
    cbn [fst snd] in *. destruct Hy as [Y1 Y2].
    unfold buffers_cached. destruct (gl_run_not_buffer g t He) as [-> ->].
    rewrite Y1, Y2. split; assumption. }
  destruct c;
    try solve [apply Hother;
               [unfold_command; emits
               |unfold PerformRenderPass_command, resolve_uniform, GetUniformLoc,
                  glGetUniformLocation, for_range; yield_eq]].
  clear Hother.
  match goal with
  | |- context [PerformRenderPass_command _ (BIND_BUFFER ?t ?b) _ _] =>
      generalize t, b; intros tgt bufp
  end.
  unfold PerformRenderPass_command.
  assert (Hb : forall buf,
    match (if tgt =? GL_ARRAY_BUFFER then
             if negb (buf =? curArrayBuffer st) then
               gl "glBindBuffer" [I GL_ARRAY_BUFFER; I buf] ;; ret (set_curArrayBuffer buf st)
             else ret st
           else if tgt =? GL_ELEMENT_ARRAY_BUFFER then
             if negb (buf =? curElemArrayBuffer st) then
               gl "glBindBuffer" [I GL_ELEMENT_ARRAY_BUFFER; I buf] ;;
               ret (set_curElemArrayBuffer buf st)
             else ret st
           else gl "glBindBuffer" [I tgt; I buf] ;; ret st) w with
    | (t, Ok st' _) => buffers_cached st' (gl_run g t)
    | _ => True
    end).
  { intros buf. destruct (tgt =? GL_ARRAY_BUFFER) eqn:T1.
    - destruct (buf =? curArrayBuffer st) eqn:B; cbn; split; auto.
    - destruct (tgt =? GL_ELEMENT_ARRAY_BUFFER) eqn:T2.
      + destruct (buf =? curElemArrayBuffer st) eqn:B; cbn; split; auto.
      + cbn. rewrite T1, T2. split; auto. }
  destruct bufp as [p|].
  - unfold bind at 1. unfold bind at 1. unfold deref.
    destruct (buffers (heap w) !! p) as [b|]; [|exact Logic.I].
    cbn [ret]. specialize (Hb (buffer b)).
    destruct (_ w) as [t o] in Hb |- *. exact Hb.
  - unfold bind at 1. cbn [ret]. specialize (Hb 0).
    destruct (_ w) as [t o] in Hb |- *. exact Hb.
Qed.

Lemma commands_keep_buffers_cached E cs :
  forall st w g tr st' w',
    buffers_cached st g ->
    PerformRenderPass_commands E cs st w = (tr, Ok st' w') ->
    buffers_cached st' (gl_run g tr).
Proof.
  induction cs as [|c cs IH]; intros st w g tr st' w' Hc H.
  - injection H as <- <- _. exact Hc.
  - cbn [PerformRenderPass_commands] in H.
    apply bind_ok_inv in H as (t1 & st1 & w1 & t2 & H1 & H2 & ->).
    pose proof (command_keeps_buffers_cached E c st w g Hc) as K. rewrite H1 in K.
    rewrite gl_run_app. eapply IH; eassumption.
Qed.

Lemma BIND_BUFFER_local E tgt p b st w tr st' w' :
  buffers (heap w) !! p = Some b ->
  PerformRenderPass_command E (BIND_BUFFER tgt (Some p)) st w = (tr, Ok st' w') ->
  (tgt = GL_ARRAY_BUFFER -> curArrayBuffer st' = buffer b) /\
  (tgt = GL_ELEMENT_ARRAY_BUFFER -> curElemArrayBuffer st' = buffer b).
Proof.
  intros Hp. unfold PerformRenderPass_command, bind at 1. unfold bind at 1, deref.
  rewrite Hp. cbn [ret]. intros H. split; intros ->.
  - change (GL_ARRAY_BUFFER =? GL_ARRAY_BUFFER) with true in H. cbv iota in H.
    destruct (buffer b =? curArrayBuffer st) eqn:B; cbn in H; injection H as _ <- _;
      [symmetry; apply Z.eqb_eq, B|reflexivity].
  - change (GL_ELEMENT_ARRAY_BUFFER =? GL_ARRAY_BUFFER) with false in H.
    change (GL_ELEMENT_ARRAY_BUFFER =? GL_ELEMENT_ARRAY_BUFFER) with true in H. cbv iota in H.
    destruct (buffer b =? curElemArrayBuffer st) eqn:B; cbn in H; injection H as _ <- _;
      [symmetry; apply Z.eqb_eq, B|reflexivity].
Qed.

Lemma initial_buffers_cached g : buffers_cached initial_pass_state g.
Proof. split; intros H; exfalso; apply H; reflexivity. Qed.

(** X5: The filter of BIND_BUFFER is sound.  After any commands of a pass,
    a BIND_BUFFER for the array or the element-array target leaves the
    driver with the buffer asked for bound there, whether the command made
    its [glBindBuffer] call or dropped it as redundant, provided the
    buffer's name is not [(GLuint)-1], the value the two locals start
    from. *)
Theorem BIND_BUFFER_leaves_buffer_bound E cs tgt p b w g tr st w' :
  tgt = GL_ARRAY_BUFFER \/ tgt = GL_ELEMENT_ARRAY_BUFFER ->
  buffers (heap w) !! p = Some b ->
  buffer b <> to_u32 (-1) ->
  PerformRenderPass_commands E (cs ++ [BIND_BUFFER tgt (Some p)]) initial_pass_state w
  = (tr, Ok st w') ->
  buffer_binding tgt (gl_run g tr) = Some (buffer b).
Proof.
  intros Ht Hp Hb H.
  pose proof (commands_keep_buffers_cached _ _ _ _ g _ _ _ (initial_buffers_cached g) H)
    as [KA KE].
  apply commands_app in H as (t1 & st1 & t2 & _ & H2 & _).
  cbn [PerformRenderPass_commands] in H2.
  apply bind_ok_inv in H2 as (ta & sta & wa & tb & Ha & Hr & _).
  injection Hr as _ -> _.
  destruct (BIND_BUFFER_local _ _ _ _ _ _ _ _ _ Hp Ha) as [LA LE].
  unfold buffer_binding. destruct Ht as [-> | ->].
  - change (GL_ARRAY_BUFFER =? GL_ARRAY_BUFFER) with true. cbv iota.
    rewrite <- (LA eq_refl) in *. f_equal. apply KA, Hb.
  - change (GL_ELEMENT_ARRAY_BUFFER =? GL_ARRAY_BUFFER) with false.
    change (GL_ELEMENT_ARRAY_BUFFER =? GL_ELEMENT_ARRAY_BUFFER) with true. cbv iota.
    rewrite <- (LE eq_refl) in *. f_equal. apply KE, Hb.
Qed.

Lemma BIND_BUFFER_leaves_buffer_bound_witness :
  exists tr st w',
    PerformRenderPass_commands Examples.desktop
      ([BIND_BUFFER GL_ELEMENT_ARRAY_BUFFER (Some 2%positive); DRAW 4 0 3;
        BIND_BUFFER GL_ELEMENT_ARRAY_BUFFER None] ++
       [BIND_BUFFER GL_ELEMENT_ARRAY_BUFFER (Some 2%positive)])
      initial_pass_state MoreExamples.world1 = (tr, Ok st w') /\
    buffer_binding GL_ELEMENT_ARRAY_BUFFER (gl_run Examples.gl0 tr) = Some 6.
Proof.
  eexists _, _, _.
  refine ((fun H => conj H
            (BIND_BUFFER_leaves_buffer_bound Examples.desktop _ GL_ELEMENT_ARRAY_BUFFER
               2%positive {| buffer := 6; target_ := GL_ELEMENT_ARRAY_BUFFER |}
               MoreExamples.world1 Examples.gl0 _ _ _
               (or_intror eq_refl) eq_refl _ H)) _).
  - discriminate.
  - vm_compute. reflexivity.
Defined.

(** The precondition on the name is needed: a first BIND_BUFFER of a pass for
    a buffer named [(GLuint)-1] is dropped. *)
Lemma BIND_BUFFER_initial_value_dropped E p b w :
  buffers (heap w) !! p = Some b ->
  buffer b = to_u32 (-1) ->
  PerformRenderPass_commands E [BIND_BUFFER GL_ARRAY_BUFFER (Some p)] initial_pass_state w
  = ([], Ok initial_pass_state w).
Proof.
  intros Hp Hb. cbn [PerformRenderPass_commands]. unfold PerformRenderPass_command.
  unfold bind, deref. rewrite Hp. cbn [ret]. rewrite Hb. reflexivity.
Qed.

(** ** The vertical flip of SCISSOR *)

Lemma same_flip_refl w : same_flip w w.
Proof. split; reflexivity. Qed.
Lemma same_flip_trans w1 w2 w3 : same_flip w1 w2 -> same_flip w2 w3 -> same_flip w1 w3.
Proof. unfold same_flip. intuition congruence. Qed.

Ltac keeps_flip :=
  keeps_with same_flip_refl same_flip_trans
    ltac:(repeat match goal with c : CachedHandle |- _ => destruct c end; split; reflexivity)
    fail.

Lemma same_heap_refl w : same_heap w w.
Proof. reflexivity. Qed.
Lemma same_heap_trans w1 w2 w3 : same_heap w1 w2 -> same_heap w2 w3 -> same_heap w1 w3.
Proof. unfold same_heap. congruence. Qed.

Ltac keeps_heap := keeps_with same_heap_refl same_heap_trans ltac:(reflexivity) fail.

Lemma bind_target_flip E fb w t w1 :
  PerformBindFramebufferAsRenderTarget E fb w = (t, Ok tt w1) ->
  curFramebuffer_ (this w1) = curFramebuffer_ (this w) /\
  curFBHeight_ (this w1) = pass_height fb w /\ heap w1 = heap w.
Proof.
  assert (K1 : forall r n, keeps same_flip (fbo_bind_fb_target E r n))
    by (intros r n; unfold fbo_bind_fb_target; destruct (fbo_get_fb_target E r); keeps_flip).
  assert (K2 : keeps same_flip (fbo_unbind E)) by (unfold fbo_unbind; keeps_flip).
  assert (H1 : forall r n, keeps same_heap (fbo_bind_fb_target E r n))
    by (intros r n; unfold fbo_bind_fb_target; destruct (fbo_get_fb_target E r); keeps_heap).
  assert (H2 : keeps same_heap (fbo_unbind E)) by (unfold fbo_unbind; keeps_heap).
  unfold PerformBindFramebufferAsRenderTarget, pass_height. destruct fb as [p|].
  - unfold bind at 1, deref. destruct (framebuffers (heap w) !! p) as [f|]; [|discriminate].
    unfold bind at 1, modify_this. cbn [app]. intros H.
    specialize (K1 false (framebuf f) (set_this (set_curFB (Some p) (width f) (height f) (this w)) w)).
    specialize (H1 false (framebuf f) (set_this (set_curFB (Some p) (width f) (height f) (this w)) w)).
    destruct (fbo_bind_fb_target E false (framebuf f) _) as [t' [[] w2|e]]; [|discriminate].
    injection H as _ <-. destruct K1 as [-> ->]. unfold same_heap in H1. cbn in H1. rewrite H1. repeat split.
  - unfold bind at 1, member. unfold bind at 1. unfold bind at 1, modify_this. cbn [app].
    intros H.
    specialize (K2 (set_this (set_curFB None (targetWidth_ (this w)) (targetHeight_ (this w)) (this w)) w)).
    specialize (H2 (set_this (set_curFB None (targetWidth_ (this w)) (targetHeight_ (this w)) (this w)) w)).
    destruct (fbo_unbind E _) as [t' [[] w2|e]]; [|discriminate].
    injection H as _ <-. destruct K2 as [-> ->]. unfold same_heap in H2. cbn in H2. rewrite H2. repeat split.
Qed.

(** X6: The Y coordinate of a SCISSOR command is flipped against the height of
    the pass's target exactly when the member [curFramebuffer_] is null,
    whatever the target of the pass: binding the target assigns [curFB_],
    and nothing in the pass assigns [curFramebuffer_].  So a pass onto an
    offscreen framebuffer gets its scissor rectangle flipped when
    [curFramebuffer_] is null, and a pass onto the backbuffer gets it
    unflipped when it is not. *)
Theorem SCISSOR_flip_follows_curFramebuffer_ E fb cs x y sw sh w tr w' :
  PerformRenderPass E fb (cs ++ [SCISSOR x y sw sh]) w = (tr, Ok tt w') ->
  exists t1 st,
    tr = t1 ++
         GL "glScissor"
            [I x;
             I (match curFramebuffer_ (this w) with
                | Some _ => y
                | None => to_s32 (pass_height fb w - y - sh)
                end);
             I sw; I sh]
         :: epilogue_trace st.
Proof.
  destruct (cs ++ [SCISSOR x y sw sh]) as [|c0 cs0] eqn:Hcs;
    [destruct cs; discriminate Hcs|].
  intros H. apply PerformRenderPass_parts in H as (t0 & w0 & tc & st & H0 & Hc & ->).
  rewrite <- Hcs in Hc.
  apply commands_app in Hc as (ta & sta & tb & Ha & Hb & ->).
  apply bind_target_flip in H0 as (F1 & F2 & _).
  cbn [PerformRenderPass_commands] in Hb.
  apply bind_ok_inv in Hb as (t1 & st1 & w1 & t2 & H1 & H2 & ->).
  injection H2 as <- <- _.
  unfold PerformRenderPass_command, bind, member in H1. cbn [app ret] in H1.
  injection H1 as <- <- _. rewrite F1, F2.
  exists (t0 ++ pass_setup (globalVAO_ (this w0)) ++ ta), sta.
  rewrite <- !app_assoc. reflexivity.
Qed.

Lemma SCISSOR_flip_follows_curFramebuffer__witness :
  exists t1 st,
    trace_of (PerformRenderPass Examples.desktop (Some 1%positive)
                ([DRAW 4 0 3] ++ [SCISSOR 10 20 100 50]) Examples.world0)
    = t1 ++ GL "glScissor" [I 10; I 202; I 100; I 50] :: epilogue_trace st.
Proof.
  eapply (SCISSOR_flip_follows_curFramebuffer_ Examples.desktop (Some 1%positive)
            [DRAW 4 0 3] 10 20 100 50 Examples.world0).
  vm_compute. reflexivity.
Defined.

(** ** The cached draw framebuffer *)

Lemma gl_step_not_framebuffer g e :
  not_framebuffer_call e = true ->
  gl_draw_framebuffer_binding (gl_step g e) = gl_draw_framebuffer_binding g.
Proof.
  destruct e as [fn args| |]; try reflexivity.
  unfold not_framebuffer_call, is_call. intros H.
  apply negb_true_iff, orb_false_iff in H. destruct H as [H1 H2].
  rewrite String.eqb_sym in H1. rewrite String.eqb_sym in H2.
  destruct args as [|[a| | |] [|[b| | |] [|? ?]]]; try reflexivity;
    unfold gl_step; rewrite ?H1, ?H2; cbn [orb]; split_ifs; reflexivity.
Qed.

Lemma gl_run_not_framebuffer g tr :
  forallb not_framebuffer_call tr = true ->
  gl_draw_framebuffer_binding (gl_run g tr) = gl_draw_framebuffer_binding g.
Proof.
  revert g. induction tr as [|e tr IH]; intros g H; [reflexivity|].
  cbn [forallb] in H. apply andb_prop in H as [He H].
  unfold gl_run in *. cbn [List.fold_left]. rewrite (IH _ H).
  apply gl_step_not_framebuffer, He.
Qed.

Section DrawHandle.
Variable E : Env.
Hypothesis fbo : ARB_framebuffer_object (gl_extensions E) || IsGLES (gl_extensions E) = true.
Hypothesis default0 : g_defaultFBO E = 0.
Hypothesis not_ios : IOS (build E) = false.

Lemma fbo_bind_fb_target_draw name w g t w' :
  draw_handle_cached w g ->
  fbo_bind_fb_target E false name w = (t, Ok tt w') ->
  gl_draw_framebuffer_binding (gl_run g t) = name /\
  currentDrawHandle_ (this w') = name /\ heap w' = heap w.
Proof.
  unfold draw_handle_cached, fbo_bind_fb_target, fbo_get_fb_target. intros Hc.
  rewrite fbo.
  destruct (if IsGLES (gl_extensions E)
            then GLES3 (gl_extensions E) || NV_framebuffer_blit (gl_extensions E)
            else ARB_framebuffer_object (gl_extensions E)).
  all: unfold bind at 1, member; cbn [get_cached app].
  all: destruct (currentDrawHandle_ (this w) =? name) eqn:Hn.
  all: cbn; intros H; injection H as <- <-; cbn.
  all: try (apply Z.eqb_eq in Hn; subst name; auto).
  all: auto.
Qed.

Lemma fbo_unbind_draw w g t w' :
  fbo_unbind E w = (t, Ok tt w') ->
  gl_draw_framebuffer_binding (gl_run g t) = 0 /\
  currentDrawHandle_ (this w') = 0 /\ heap w' = heap w.
Proof.
  unfold fbo_unbind. rewrite fbo, default0, not_ios.
  destruct (USING_GLES2 (build E)); cbn; intros H; injection H as <- <-; cbn; auto.
Qed.

Lemma bind_target_draw fb w g t w' :
  draw_handle_cached w g ->
  PerformBindFramebufferAsRenderTarget E fb w = (t, Ok tt w') ->
  gl_draw_framebuffer_binding (gl_run g t) = pass_framebuffer fb w /\
  currentDrawHandle_ (this w') = pass_framebuffer fb w.
Proof.
  intros Hc. unfold PerformBindFramebufferAsRenderTarget, pass_framebuffer.
  destruct fb as [p|].
  - unfold bind at 1, deref. destruct (framebuffers (heap w) !! p) as [f|]; [|discriminate].
    unfold bind at 1, modify_this. cbn [app]. intros H.
    destruct (fbo_bind_fb_target E false (framebuf f) _) as [t' [[] w2|e]] eqn:Hb;
      [|discriminate].
    injection H as <- <-.
    apply (fbo_bind_fb_target_draw _ _ g) in Hb as (B1 & B2 & _); [auto|exact Hc].
  - unfold bind at 1, member. unfold bind at 1. unfold bind at 1, modify_this. cbn [app].
    intros H. destruct (fbo_unbind E _) as [t' [[] w2|e]] eqn:Hb; [|discriminate].
    injection H as <- <-.
    apply (fbo_unbind_draw _ g) in Hb as (B1 & B2 & _). auto.
Qed.

Lemma command_no_framebuffer_call c st :
  emits_only not_framebuffer_call (PerformRenderPass_command E c st).
Proof. destruct c; unfold_command; emits. Qed.

Lemma pass_target fb c cs w g tr w' :
  draw_handle_cached w g ->
  PerformRenderPass E fb (c :: cs) w = (tr, Ok tt w') ->
  gl_draw_framebuffer_binding (gl_run g tr) = pass_framebuffer fb w /\
  currentDrawHandle_ (this w') = pass_framebuffer fb w.
Proof.
  intros Hc H. apply PerformRenderPass_parts in H as (t0 & w0 & tc & st & H0 & Hcs & ->).
  destruct (bind_target_draw _ _ _ _ _ Hc H0) as [B1 B2].
  pose proof (commands_emit E _ command_no_framebuffer_call (c :: cs) initial_pass_state w0)
    as He.
  rewrite Hcs in He. cbn [fst] in He.
  apply commands_world in Hcs. subst w'. split; [|exact B2].
  rewrite !gl_run_app.
  rewrite gl_run_not_framebuffer.
  2:{ apply epilogue_trace_emits. unfold PerformRenderPass_epilogue, for_range. emits. }
  rewrite (gl_run_not_framebuffer _ tc He).
  rewrite gl_run_not_framebuffer by reflexivity. exact B1.
Qed.

Lemma PerformCopy_keeps_world c : keeps eq (PerformCopy E c).
Proof.
  unfold PerformCopy, _assert_msg_. keeps_world.
  all: destruct a as [[? ?] ?]; keeps_world.
Qed.

Lemma PerformCopy_no_framebuffer_call c : emits_only not_framebuffer_call (PerformCopy E c).
Proof. unfold PerformCopy, _assert_msg_. emits. all: destruct a as [[? ?] ?]; emits. Qed.

Lemma RunStep_draw_handle i step w g tr w' :
  draw_handle_cached w g ->
  RunStep E i step w = (tr, Ok tt w') ->
  draw_handle_cached w' (gl_run g tr).
Proof.
  intros Hc. unfold RunStep. intros H.
  apply bind_ok_inv in H as (t1 & [] & w1 & t2 & H1 & H2 & ->).
  injection H2 as <- <-. rewrite gl_run_app. unfold draw_handle_cached.
  rewrite (gl_run_not_framebuffer _ [Delete (I i)]) by reflexivity.
  destruct step as [fb [|c cs]|c| | |].
  - injection H1 as <- <-. exact Hc.
  - destruct (pass_target _ _ _ _ _ _ _ Hc H1) as [-> ->]. reflexivity.
  - pose proof (PerformCopy_keeps_world c w) as K.
    pose proof (PerformCopy_no_framebuffer_call c w) as Q.
    rewrite H1 in K, Q. cbn in K, Q. subst w1.
    rewrite (gl_run_not_framebuffer _ _ Q). exact Hc.
  - injection H1 as <- <-. exact Hc.
  - injection H1 as <- <-. exact Hc.
  - injection H1 as <- <-. exact Hc.
Qed.

Lemma RunSteps_from_draw_handle steps :
  forall i w g tr w',
    draw_handle_cached w g ->
    RunSteps_from E i steps w = (tr, Ok tt w') ->
    draw_handle_cached w' (gl_run g tr).
Proof.
  induction steps as [|step steps IH]; intros i w g tr w' Hc H.
  - injection H as <- <-. exact Hc.
  - cbn [RunSteps_from] in H.
    apply bind_ok_inv in H as (t1 & [] & w1 & t2 & H1 & H2 & ->).
    rewrite gl_run_app. eapply IH; [|exact H2].
    eapply RunStep_draw_handle; eassumption.
Qed.

End DrawHandle.

(** X7: Where framebuffer objects are core ([ARB_framebuffer_object] or an
    OpenGL ES context), the default framebuffer is 0 and the build is not
    for iOS, the cached draw handle stays the driver's draw framebuffer
    binding through any run of [RunSteps] that returns: no filtered bind of
    [fbo_bind_fb_target] is dropped wrongly. *)
Theorem RunSteps_draw_handle_cached E steps w g tr w' :
  ARB_framebuffer_object (gl_extensions E) || IsGLES (gl_extensions E) = true ->
  g_defaultFBO E = 0 ->
  IOS (build E) = false ->
  draw_handle_cached w g ->
  RunSteps E steps w = (tr, Ok tt w') ->
  draw_handle_cached w' (gl_run g tr).
Proof.
  intros H1 H2 H3 Hc H. eapply RunSteps_from_draw_handle; eassumption.
Qed.

Lemma RunSteps_draw_handle_cached_witness :
  exists tr w',
    RunSteps Examples.desktop
      [RENDER (Some 1%positive) [DRAW 4 0 3]; RENDER None [DRAW 4 0 3];
       RENDER (Some 2%positive) [DRAW 4 0 3]] Examples.world0 = (tr, Ok tt w') /\
    draw_handle_cached w' (gl_run Examples.gl0 tr).
Proof.
  eexists _, _.
  refine ((fun H => conj H
            (RunSteps_draw_handle_cached Examples.desktop _ Examples.world0 Examples.gl0 _ _
               eq_refl eq_refl eq_refl eq_refl H)) _).
  vm_compute. reflexivity.
Defined.

(** X8: Where framebuffer objects are core, the default framebuffer is 0, the
    build is not for iOS and the cached draw handle is the driver's draw
    binding, a pass with commands that returns leaves the driver drawing
    into the framebuffer named by the field [framebuf] of its target (0 for
    the backbuffer), and the cached draw handle is that name. *)
Theorem PerformRenderPass_draws_into_target E fb c cs w g tr w' :
  ARB_framebuffer_object (gl_extensions E) || IsGLES (gl_extensions E) = true ->
  g_defaultFBO E = 0 ->
  IOS (build E) = false ->
  draw_handle_cached w g ->
  PerformRenderPass E fb (c :: cs) w = (tr, Ok tt w') ->
  gl_draw_framebuffer_binding (gl_run g tr) = pass_framebuffer fb w /\
  currentDrawHandle_ (this w') = pass_framebuffer fb w.
Proof.
  intros H1 H2 H3 Hc H. eapply pass_target; eassumption.
Qed.

Lemma PerformRenderPass_draws_into_target_witness :
  exists tr w',
    PerformRenderPass Examples.desktop (Some 1%positive) (DRAW 4 0 3 :: [GENMIPS])
      MoreExamples.world2 = (tr, Ok tt w') /\
    gl_draw_framebuffer_binding (gl_run Examples.gl0 tr) = 9 /\
    currentDrawHandle_ (this w') = 9.
Proof.
  eexists _, _.
  refine ((fun H => conj H
            (PerformRenderPass_draws_into_target Examples.desktop (Some 1%positive) _ _
               MoreExamples.world2 Examples.gl0 _ _ eq_refl eq_refl eq_refl eq_refl H)) _).
  vm_compute. reflexivity.
Defined.

(** ** Texture names and device objects *)

Lemma int_args_map_I l : int_args (List.map I l) = l.
Proof. induction l as [|x l IH]; [reflexivity|]. cbn. f_equal. exact IH. Qed.

Lemma names_of_app fn t1 t2 : names_of fn (t1 ++ t2) = names_of fn t1 ++ names_of fn t2.
Proof. apply List.flat_map_app. Qed.

Lemma AllocTextureName_step w :
  exists tr x w1,
    AllocTextureName w = (tr, Ok x w1) /\
    nameCache_ (this w1) ++ [x] = nameCache_ (this w) ++ names_of "glGenTextures" tr /\
    heap w1 = heap w /\ globalVAO_ (this w1) = globalVAO_ (this w) /\
    ((names_of "glGenTextures" tr = [] /\ next_name w1 = next_name w) \/
     (nameCache_ (this w) = [] /\
      names_of "glGenTextures" tr
      = List.map (fun k => Z.pos (next_name w) + Z.of_nat k) (List.seq 0 16) /\
      Z.pos (next_name w1) = Z.pos (next_name w) + 16)).
Proof.
  unfold AllocTextureName.
  destruct (nameCache_ (this w)) as [|a l] eqn:Hc.
  - do 3 eexists. split; [|split; [|split; [|split]]].
    + eapply bind_ok; [reflexivity|]. cbv beta. rewrite Hc. run.
    + reflexivity.
    + reflexivity.
    + reflexivity.
    + right. repeat split.
  - do 3 eexists. split; [|split; [|split; [|split]]].
    + etransitivity.
      * eapply bind_ok; [reflexivity|]. cbv beta. rewrite Hc. run.
      * reflexivity.
    + cbn [this set_this nameCache_ set_nameCache_ modify_this names_of List.flat_map].
      rewrite Hc, app_nil_r. symmetry. apply List.app_removelast_last. discriminate.
    + reflexivity.
    + reflexivity.
    + left. split; reflexivity.
Qed.

Lemma AllocTextureNames_stack n :
  forall w tr xs w',
    AllocTextureNames n w = (tr, Ok xs w') ->
    Permutation (xs ++ nameCache_ (this w'))
                (nameCache_ (this w) ++ names_of "glGenTextures" tr) /\
    heap w' = heap w /\ globalVAO_ (this w') = globalVAO_ (this w) /\
    Z.pos (next_name w) <= Z.pos (next_name w') /\
    NoDup (names_of "glGenTextures" tr) /\
    (forall y, In y (names_of "glGenTextures" tr) ->
               Z.pos (next_name w) <= y < Z.pos (next_name w')).
Proof.
  induction n as [|n IH]; intros w tr xs w' H.
  - injection H as <- <- <-. cbn. rewrite app_nil_r.
    repeat split; try reflexivity; try lia; try constructor; intros y [].
  - cbn [AllocTextureNames] in H.
    apply bind_ok_inv in H as (t1 & x & w1 & t2 & H1 & H & ->).
    apply bind_ok_inv in H as (t3 & xs' & w3 & t4 & H3 & H & ->).
    injection H as <- <- <-. rewrite app_nil_r.
    destruct (AllocTextureName_step w) as (t1' & x' & w1' & R1 & S1 & Hh & Hv & Hg).
    rewrite H1 in R1. injection R1 as <- <- <-.
    destruct (IH _ _ _ _ H3) as (P & Hh' & Hv' & Hle & Hnd & Hrng).
    rewrite names_of_app.
    assert (Hle1 : Z.pos (next_name w) <= Z.pos (next_name w1))
      by (destruct Hg as [[_ ->]|(_ & _ & ->)]; lia).
    split; [|split; [|split; [|split; [|split]]]].
    + cbn [app]. rewrite app_assoc, <- S1, <- app_assoc. cbn [app].
      rewrite <- Permutation_middle. constructor. exact P.
    + congruence.
    + congruence.
    + lia.
    + destruct Hg as [[-> _]|(_ & -> & Hn)]; [exact Hnd|].
      apply NoDup_app. split; [|split; [|exact Hnd]].
      * apply NoDup_fmap_2; [intros a b Hab; lia|apply NoDup_seq].
      * intros y Hy Hy'. apply list_elem_of_In in Hy, Hy'.
        apply Hrng in Hy'. apply in_map_iff in Hy as (k & <- & Hk).
        apply in_seq in Hk. lia.
    + intros y Hy. apply in_app_or in Hy as [Hy|Hy].
      * destruct Hg as [[Hg _]|(_ & Hg & Hn)]; rewrite Hg in Hy; [destruct Hy|].
        apply in_map_iff in Hy as (k & <- & Hk). apply in_seq in Hk. lia.
      * apply Hrng in Hy. lia.
Qed.

(** X9: From a cache of distinct names the driver has handed out, the names
    [AllocTextureName] returns in any number of calls are pairwise distinct,
    differ from every name still cached afterwards, and are never 0. *)
Theorem AllocTextureName_never_repeats n w tr xs w' :
  names_fresh w ->
  AllocTextureNames n w = (tr, Ok xs w') ->
  NoDup (xs ++ nameCache_ (this w')) /\ Forall (fun x => 0 < x) xs.
Proof.
  intros [Hnd Hb] H.
  destruct (AllocTextureNames_stack _ _ _ _ _ H) as (P & _ & _ & Hle & Hg & Hr).
  assert (N : NoDup (nameCache_ (this w) ++ names_of "glGenTextures" tr)).
  { apply NoDup_app. split; [exact Hnd|split; [|exact Hg]].
    intros y Hy Hy'. apply list_elem_of_In in Hy, Hy'.
    apply Hb in Hy. apply Hr in Hy'. lia. }
  split.
  - rewrite P. exact N.
  - apply Forall_forall. intros x Hx. apply list_elem_of_In in Hx.
    assert (Hin : In x (nameCache_ (this w) ++ names_of "glGenTextures" tr)).
    { apply (Permutation_in _ P). apply in_or_app. left. exact Hx. }
    apply in_app_or in Hin as [Hin|Hin]; [apply Hb in Hin|apply Hr in Hin]; lia.
Qed.

Lemma AllocTextureName_never_repeats_witness :
  exists tr xs w',
    AllocTextureNames 20 Examples.world0 = (tr, Ok xs w') /\
    NoDup (xs ++ nameCache_ (this w')) /\ Forall (fun x => 0 < x) xs.
Proof.
  eexists _, _, _.
  refine ((fun H => conj H (AllocTextureName_never_repeats 20 Examples.world0 _ _ _ _ H)) _).
  - split; [constructor|intros x []].
  - vm_compute. reflexivity.
Defined.

Lemma DestroyDeviceObjects_run w td w1 :
  DestroyDeviceObjects w = (td, Ok tt w1) ->
  names_of "glDeleteTextures" td = nameCache_ (this w) /\
  nameCache_ (this w1) = [] /\
  names_of "glDeleteVertexArrays" td = [globalVAO_ (this w)].
Proof.
  unfold DestroyDeviceObjects. unfold bind at 1, member. cbn [app].
  destruct (nameCache_ (this w)) as [|a l] eqn:Hc.
  - cbn. intros H. injection H as <- <-. cbn. rewrite ?Hc. repeat split.
  - cbn. intros H. injection H as <- <-. cbn. rewrite int_args_map_I, app_nil_r.
    repeat split.
Qed.

Lemma CreateDeviceObjects_run E w t w1 :
  CreateDeviceObjects E w = (t, Ok tt w1) ->
  names_of "glGenVertexArrays" t = [globalVAO_ (this w1)] /\
  nameCache_ (this w1) = nameCache_ (this w) /\
  globalVAO_ (this w1) <> 0.
Proof.
  unfold CreateDeviceObjects. cbn. intros H. injection H as <- <-. cbn.
  repeat split. lia.
Qed.

(** X10: The device objects of a runner's life are conserved.  After
    [CreateDeviceObjects], any number of [AllocTextureName] calls and any
    frame of [RunSteps], [DestroyDeviceObjects] deletes the vertex-array
    object that [CreateDeviceObjects] generated, and deletes exactly the
    texture names that were generated (or cached at the start) and not
    handed out: each name is either returned to a caller or deleted, never
    both, and the cache ends empty. *)
Theorem device_objects_conserved E n steps w t1 w1 t2 xs w2 t3 w3 t4 w4 :
  CreateDeviceObjects E w = (t1, Ok tt w1) ->
  AllocTextureNames n w1 = (t2, Ok xs w2) ->
  RunSteps E steps w2 = (t3, Ok tt w3) ->
  DestroyDeviceObjects w3 = (t4, Ok tt w4) ->
  names_of "glDeleteVertexArrays" t4 = names_of "glGenVertexArrays" t1 /\
  Permutation (xs ++ names_of "glDeleteTextures" t4)
              (nameCache_ (this w) ++ names_of "glGenTextures" t2) /\
  nameCache_ (this w4) = [].
Proof.
  intros H1 H2 H3 H4.
  apply CreateDeviceObjects_run in H1 as (C1 & C2 & _).
  apply AllocTextureNames_stack in H2 as (P & _ & Hv & _).
  pose proof (RunSteps_from_keep_resources E steps 0 w2) as K.
  unfold RunSteps in H3. rewrite H3 in K. cbn in K.
  destruct K as (_ & _ & Kc & _ & _ & _ & Kv & _).
  apply DestroyDeviceObjects_run in H4 as (D1 & D2 & D3).
  rewrite D1, D3, C1, Kc, Kv, Hv, <- C2. auto.
Qed.

Lemma device_objects_conserved_witness :
  exists t1 w1 t2 xs w2 t3 w3 t4 w4,
    CreateDeviceObjects Examples.desktop Examples.world0 = (t1, Ok tt w1) /\
    AllocTextureNames 3 w1 = (t2, Ok xs w2) /\
    RunSteps Examples.desktop [RENDER None [DRAW 4 0 3]] w2 = (t3, Ok tt w3) /\
    DestroyDeviceObjects w3 = (t4, Ok tt w4) /\
    names_of "glDeleteVertexArrays" t4 = names_of "glGenVertexArrays" t1 /\
    Permutation (xs ++ names_of "glDeleteTextures" t4)
                (nameCache_ (this Examples.world0) ++ names_of "glGenTextures" t2) /\
    nameCache_ (this w4) = [].
Proof.
  eexists _, _, _, _, _, _, _, _, _.
  refine ((fun (K : forall t1 w1 t2 xs w2 t3 w3 t4 w4 H1 H2 H3 H4, _) => K _ _ _ _ _ _ _ _ _ _ _ _ _)
            (fun t1 w1 t2 xs w2 t3 w3 t4 w4 H1 H2 H3 H4 =>
               conj H1 (conj H2 (conj H3 (conj H4
                 (device_objects_conserved Examples.desktop 3 [RENDER None [DRAW 4 0 3]]
                    Examples.world0 t1 w1 t2 xs w2 t3 w3 t4 w4 H1 H2 H3 H4)))))).
  all: vm_compute; reflexivity.
Defined.

(** ** Framebuffer creation in every configuration *)

Lemma this_put_fb p x w : this (put_fb p x w) = this w.
Proof. with_strategy transparent [put_fb] (unfold put_fb). reflexivity. Qed.
Lemma this_bump n w : this (bump n w) = this w.
Proof. with_strategy transparent [bump] (unfold bump). reflexivity. Qed.
Lemma lookup_put_fb_ne p q x w :
  q <> p -> framebuffers (heap (put_fb p x w)) !! q = framebuffers (heap w) !! q.
Proof.
  intros H. with_strategy transparent [put_fb] (unfold put_fb). simpl.
  apply lookup_insert_ne. congruence.
Qed.

Ltac fb_fields :=
  cbn [width height handle framebuf color_texture z_stencil_buffer z_buffer stencil_buffer
       set_stencil_buffer set_z_buffer set_z_stencil_buffer set_color_texture set_handle
       this heap set_this currentDrawHandle_ currentReadHandle_
       set_currentDrawHandle_ set_currentReadHandle_ next_name];
  repeat rewrite ?next_name_put_fb, ?next_name_bump, ?this_put_fb, ?this_bump, ?heap_bump.

(** What the body of [InitCreateFramebuffer] leaves, whatever the layout. *)
Lemma InitCreateFramebuffer_body_run E p w fb0 :
  framebuffers (heap w) !! p = Some fb0 ->
  exists tr w' fb,
    InitCreateFramebuffer_body E p w = (tr, Ok tt w') /\
    framebuffers (heap w') !! p = Some fb /\
    (forall q, q <> p -> framebuffers (heap w') !! q = framebuffers (heap w) !! q) /\
    (width fb = width fb0 /\ height fb = height fb0 /\ framebuf fb = framebuf fb0) /\
    (handle fb = Z.pos (next_name w) /\ color_texture fb = Z.pos (next_name w) + 1) /\
    (currentDrawHandle_ (this w') = handle fb /\ currentReadHandle_ (this w') = handle fb) /\
    (if IsGLES (gl_extensions E) && negb (OES_packed_depth_stencil (gl_extensions E))
     then z_stencil_buffer fb = 0 /\ z_buffer fb = Z.pos (next_name w) + 2 /\
          stencil_buffer fb = Z.pos (next_name w) + 3 /\
          Z.pos (next_name w') = Z.pos (next_name w) + 4
     else z_stencil_buffer fb = Z.pos (next_name w) + 2 /\ z_buffer fb = 0 /\
          stencil_buffer fb = 0 /\
          Z.pos (next_name w') = Z.pos (next_name w) + 3).
Proof.
  intros H.
  destruct (IsGLES (gl_extensions E)) eqn:Hes;
    [destruct (OES_packed_depth_stencil (gl_extensions E)) eqn:Hpk|].
  all: do 3 eexists; split; [unfold_fb; rewrite ?Hes, ?Hpk; run_fb|].
  all: split; [cbn [heap set_this]; apply lookup_put_fb|].
  all: split;
    [intros q Hq; cbn [heap set_this];
     repeat first [rewrite heap_bump | rewrite (lookup_put_fb_ne _ _ _ _ Hq)]; reflexivity|].
  all: fb_fields; cbn [andb negb]; repeat split; lia.
Qed.

Lemma names_of_status_log fn st w :
  names_of fn (fst (framebuffer_status_log st w)) = [].
Proof.
  unfold framebuffer_status_log.
  destruct (st =? GL_FRAMEBUFFER_COMPLETE), (st =? GL_FRAMEBUFFER_UNSUPPORTED),
    (st =? GL_FRAMEBUFFER_INCOMPLETE_ATTACHMENT); reflexivity.
Qed.

Ltac names_tac :=
  rewrite !names_of_app, ?names_of_status_log; cbn;
  repeat rewrite ?next_name_put_fb, ?next_name_bump;
  first [reflexivity | apply (f_equal (fun x => [x])); lia].

Lemma fbo_ext_create_names E p w fb0 :
  framebuffers (heap w) !! p = Some fb0 ->
  exists tr w1 fb1,
    fbo_ext_create E p w = (tr, Ok tt w1) /\
    framebuffers (heap w1) !! p = Some fb1 /\
    (forall q, q <> p -> framebuffers (heap w1) !! q = framebuffers (heap w) !! q) /\
    (width fb1 = width fb0 /\ height fb1 = height fb0 /\ framebuf fb1 = framebuf fb0) /\
    Z.pos (next_name w1) = Z.pos (next_name w) + 3 /\
    names_of "glGenFramebuffersEXT" tr = [Z.pos (next_name w)] /\
    names_of "glGenTextures" tr = [Z.pos (next_name w) + 1] /\
    names_of "glGenRenderbuffersEXT" tr = [Z.pos (next_name w) + 2].
Proof.
  intros H. do 3 eexists. split; [unfold_fb; run_fb|].
  split; [cbn [heap set_this]; apply lookup_put_fb|].
  split;
    [intros q Hq; cbn [heap set_this];
     repeat first [rewrite heap_bump | rewrite (lookup_put_fb_ne _ _ _ _ Hq)]; reflexivity|].
  fb_fields. split; [repeat split|]. split; [lia|].
  repeat split; names_tac.
Qed.

Lemma InitCreateFramebuffer_body_names E p w fb0 :
  framebuffers (heap w) !! p = Some fb0 ->
  IsGLES (gl_extensions E) && negb (OES_packed_depth_stencil (gl_extensions E)) = false ->
  exists tr w',
    InitCreateFramebuffer_body E p w = (tr, Ok tt w') /\
    names_of "glGenFramebuffers" tr = [Z.pos (next_name w)] /\
    names_of "glGenTextures" tr = [Z.pos (next_name w) + 1] /\
    names_of "glGenRenderbuffers" tr = [Z.pos (next_name w) + 2] /\
    names_of "glGenFramebuffersEXT" tr = [] /\
    names_of "glGenRenderbuffersEXT" tr = [].
Proof.
  intros H Hl.
  destruct (IsGLES (gl_extensions E)) eqn:Hes;
    [destruct (OES_packed_depth_stencil (gl_extensions E)) eqn:Hpk; [|discriminate Hl]|].
  all: do 2 eexists; split; [unfold_fb; rewrite ?Hes, ?Hpk; run_fb|].
  all: repeat split; names_tac.
Qed.

(** X11: A CREATE_FRAMEBUFFER step on a live framebuffer object returns in every
    configuration and resets the local [boundTexture].  It leaves the
    object's [framebuf], [width] and [height] and every other framebuffer
    object as they were.  Where framebuffer objects can be created, the
    object gets a non-zero [handle] and both cached handles of the runner
    are set to it; where they cannot (a build without USING_GLES2 and
    neither extension), the step makes no call and changes nothing. *)
Theorem CREATE_FRAMEBUFFER_returns E p b w fb0 :
  framebuffers (heap w) !! p = Some fb0 ->
  exists tr w' fb,
    RunInitStep E (CREATE_FRAMEBUFFER p) b w = (tr, Ok (to_u32 (-1)) w') /\
    framebuffers (heap w') !! p = Some fb /\
    (forall q, q <> p -> framebuffers (heap w') !! q = framebuffers (heap w) !! q) /\
    (width fb = width fb0 /\ height fb = height fb0 /\ framebuf fb = framebuf fb0) /\
    (if fbo_creatable E
     then handle fb <> 0 /\ currentDrawHandle_ (this w') = handle fb /\
          currentReadHandle_ (this w') = handle fb
     else tr = [] /\ w' = w).
Proof.
  intros H.
  assert (Hbody : forall w1 fb1,
    framebuffers (heap w1) !! p = Some fb1 ->
    exists tr w' fb,
      InitCreateFramebuffer_body E p w1 = (tr, Ok tt w') /\
      framebuffers (heap w') !! p = Some fb /\
      (forall q, q <> p -> framebuffers (heap w') !! q = framebuffers (heap w1) !! q) /\
      (width fb = width fb1 /\ height fb = height fb1 /\ framebuf fb = framebuf fb1) /\
      handle fb <> 0 /\ currentDrawHandle_ (this w') = handle fb /\
      currentReadHandle_ (this w') = handle fb).
  { intros w1 fb1 H1.
    destruct (InitCreateFramebuffer_body_run E p w1 fb1 H1)
      as (tr & w' & fb & Hr & Hl & Ho & Hf & [Hh _] & [Hd Hrd] & _).
    exists tr, w', fb. repeat split; try tauto; try assumption. lia. }
  unfold RunInitStep, InitCreateFramebuffer, fbo_creatable.
  destruct (USING_GLES2 (build E)); cbn [orb];
    [|destruct (ARB_framebuffer_object (gl_extensions E)); cbn [orb negb andb];
      [|destruct (EXT_framebuffer_object (gl_extensions E))]].
  - destruct (Hbody w fb0 H) as (tr & w' & fb & Hr & R).
    exists (tr ++ []), w', fb. split; [eapply bind_ok; [exact Hr|reflexivity]|exact R].
  - destruct (Hbody w fb0 H) as (tr & w' & fb & Hr & R).
    exists (tr ++ []), w', fb. split; [eapply bind_ok; [exact Hr|reflexivity]|exact R].
  - destruct (fbo_ext_create_names E p w fb0 H)
      as (t0 & w1 & fb1 & Hr0 & Hl1 & Ho1 & (Hw & Hh & Hf) & _).
    destruct (Hbody w1 fb1 Hl1) as (tr & w' & fb & Hr & Hl & Ho & (Hw' & Hh' & Hf') & R).
    exists ((t0 ++ tr) ++ []), w', fb. split; [|split; [exact Hl|split; [|split]]].
    + eapply bind_ok; [|reflexivity]. eapply bind_ok; [exact Hr0|exact Hr].
    + intros q Hq. rewrite (Ho q Hq). apply Ho1, Hq.
    + repeat split; congruence.
    + exact R.
  - exists [], w, fb0. repeat split. exact H.
Qed.

Lemma CREATE_FRAMEBUFFER_returns_witness :
  exists tr w' fb,
    RunInitStep Examples.desktop (CREATE_FRAMEBUFFER 1) 5 Examples.world0
    = (tr, Ok (to_u32 (-1)) w') /\
    framebuffers (heap w') !! 1%positive = Some fb /\
    (forall q, q <> 1%positive ->
               framebuffers (heap w') !! q = framebuffers (heap Examples.world0) !! q) /\
    (width fb = 480 /\ height fb = 272 /\ framebuf fb = 0) /\
    handle fb <> 0 /\ currentDrawHandle_ (this w') = handle fb /\
    currentReadHandle_ (this w') = handle fb.
Proof.
  apply (CREATE_FRAMEBUFFER_returns Examples.desktop 1 5 Examples.world0
           (Examples.fb 480 272 11)).
  reflexivity.
Defined.

Lemma GLRFramebuffer_dtor_combined E fb :
  (USING_GLES2 (build E) = true -> IsGLES (gl_extensions E) = true) ->
  fbo_creatable E = true ->
  z_stencil_buffer fb <> 0 -> z_buffer fb = 0 -> stencil_buffer fb = 0 ->
  deleted_renderbuffers (GLRFramebuffer_dtor E fb)
  = [GL "glDeleteRenderbuffers" [I 1; I (z_stencil_buffer fb)]].
Proof.
  intros Hb Hc Hzs Hz Hst.
  unfold GLRFramebuffer_dtor, delete_renderbuffers, deleted_renderbuffers, fbo_creatable in *.
  rewrite Hz, Hst. apply Z.eqb_neq in Hzs. rewrite Hzs.
  destruct (USING_GLES2 (build E)).
  - rewrite (Hb eq_refl), orb_true_r. destruct (handle fb =? 0); reflexivity.
  - destruct (ARB_framebuffer_object (gl_extensions E)), (IsGLES (gl_extensions E)),
      (EXT_framebuffer_object (gl_extensions E)); try discriminate Hc;
      destruct (handle fb =? 0); reflexivity.
Qed.

(** X12: Outside the one configuration with separate renderbuffers (an ES context
    without packed depth-stencil), a CREATE_FRAMEBUFFER step that can create
    framebuffer objects leaves the framebuffer with one combined
    depth-stencil renderbuffer and no separate ones, and the destructor of
    that framebuffer deletes exactly this one renderbuffer.  A USING_GLES2
    build is taken to run on an ES context. *)
Theorem CREATE_FRAMEBUFFER_combined_elsewhere E p b w fb0 :
  framebuffers (heap w) !! p = Some fb0 ->
  fbo_creatable E = true ->
  (USING_GLES2 (build E) = true -> IsGLES (gl_extensions E) = true) ->
  IsGLES (gl_extensions E) && negb (OES_packed_depth_stencil (gl_extensions E)) = false ->
  exists tr w' fb,
    RunInitStep E (CREATE_FRAMEBUFFER p) b w = (tr, Ok (to_u32 (-1)) w') /\
    framebuffers (heap w') !! p = Some fb /\
    z_stencil_buffer fb <> 0 /\ z_buffer fb = 0 /\ stencil_buffer fb = 0 /\
    deleted_renderbuffers (GLRFramebuffer_dtor E fb)
    = [GL "glDeleteRenderbuffers" [I 1; I (z_stencil_buffer fb)]].
Proof.
  intros H Hc Hb Hl.
  assert (Hbody : forall w1 fb1,
    framebuffers (heap w1) !! p = Some fb1 ->
    exists tr w' fb,
      InitCreateFramebuffer_body E p w1 = (tr, Ok tt w') /\
      framebuffers (heap w') !! p = Some fb /\
      z_stencil_buffer fb <> 0 /\ z_buffer fb = 0 /\ stencil_buffer fb = 0 /\
      deleted_renderbuffers (GLRFramebuffer_dtor E fb)
      = [GL "glDeleteRenderbuffers" [I 1; I (z_stencil_buffer fb)]]).
  { intros w1 fb1 H1.
    destruct (InitCreateFramebuffer_body_run E p w1 fb1 H1)
      as (tr & w' & fb & Hr & Hlk & _ & _ & _ & _ & Hlay).
    rewrite Hl in Hlay. destruct Hlay as (Hzs & Hz & Hst & _).
    assert (Hne : z_stencil_buffer fb <> 0) by lia.
    exists tr, w', fb. repeat split; try assumption.
    apply GLRFramebuffer_dtor_combined; assumption. }
  unfold RunInitStep, InitCreateFramebuffer. unfold fbo_creatable in Hc.
  destruct (USING_GLES2 (build E)); cbn [orb] in Hc;
    [|destruct (ARB_framebuffer_object (gl_extensions E)); cbn [orb negb andb] in *;
      [|rewrite Hc]].
  - destruct (Hbody w fb0 H) as (tr & w' & fb & Hr & R).
    exists (tr ++ []), w', fb. split; [eapply bind_ok; [exact Hr|reflexivity]|exact R].
  - destruct (Hbody w fb0 H) as (tr & w' & fb & Hr & R).
    exists (tr ++ []), w', fb. split; [eapply bind_ok; [exact Hr|reflexivity]|exact R].
  - destruct (fbo_ext_create_names E p w fb0 H) as (t0 & w1 & fb1 & Hr0 & Hl1 & _).
    destruct (Hbody w1 fb1 Hl1) as (tr & w' & fb & Hr & R).
    exists ((t0 ++ tr) ++ []), w', fb. split; [|exact R].
    eapply bind_ok; [|reflexivity]. eapply bind_ok; [exact Hr0|exact Hr].
Qed.

Lemma CREATE_FRAMEBUFFER_combined_elsewhere_witness :
  exists tr w' fb,
    RunInitStep Examples.desktop (CREATE_FRAMEBUFFER 2) 0 Examples.world0
    = (tr, Ok (to_u32 (-1)) w') /\
    framebuffers (heap w') !! 2%positive = Some fb /\
    z_stencil_buffer fb <> 0 /\ z_buffer fb = 0 /\ stencil_buffer fb = 0 /\
    deleted_renderbuffers (GLRFramebuffer_dtor Examples.desktop fb)
    = [GL "glDeleteRenderbuffers" [I 1; I (z_stencil_buffer fb)]].
Proof.
  apply (CREATE_FRAMEBUFFER_combined_elsewhere Examples.desktop 2 0 Examples.world0
           (Examples.fb 480 272 22)).
  - reflexivity.
  - reflexivity.
  - discriminate.
  - reflexivity.
Defined.

(** X13: On a desktop context that has framebuffer objects through
    [EXT_framebuffer_object] only, a CREATE_FRAMEBUFFER step creates
    everything twice: [fbo_ext_create] generates a framebuffer, a colour
    texture and a renderbuffer, and, [InitCreateFramebuffer] going on after
    it, a second set is generated through the core entry points and stored
    over the first in the same fields.  The object ends up holding the
    second set; the three names of the first set are held by nothing, and
    the destructor of the framebuffer deletes the second set only. *)
Theorem CREATE_FRAMEBUFFER_ext_creates_twice E p b w fb0 :
  framebuffers (heap w) !! p = Some fb0 ->
  USING_GLES2 (build E) = false ->
  IsGLES (gl_extensions E) = false ->
  ARB_framebuffer_object (gl_extensions E) = false ->
  EXT_framebuffer_object (gl_extensions E) = true ->
  let n := Z.pos (next_name w) in
  exists tr w' fb,
    RunInitStep E (CREATE_FRAMEBUFFER p) b w = (tr, Ok (to_u32 (-1)) w') /\
    framebuffers (heap w') !! p = Some fb /\
    (names_of "glGenFramebuffersEXT" tr = [n] /\
     names_of "glGenTextures" tr = [n + 1; n + 4] /\
     names_of "glGenRenderbuffersEXT" tr = [n + 2] /\
     names_of "glGenFramebuffers" tr = [n + 3] /\
     names_of "glGenRenderbuffers" tr = [n + 5]) /\
    (handle fb = n + 3 /\ color_texture fb = n + 4 /\ z_stencil_buffer fb = n + 5 /\
     z_buffer fb = 0 /\ stencil_buffer fb = 0) /\
    (names_of "glDeleteFramebuffersEXT" (GLRFramebuffer_dtor E fb) = [n + 3] /\
     names_of "glDeleteTextures" (GLRFramebuffer_dtor E fb) = [n + 4] /\
     names_of "glDeleteRenderbuffers" (GLRFramebuffer_dtor E fb) = [n + 5]).
Proof.
  intros H Hg Hes Harb Hext n.
  destruct (fbo_ext_create_names E p w fb0 H)
    as (t0 & w1 & fb1 & Hr0 & Hl1 & _ & _ & Hn1 & G1 & G2 & G3).
  destruct (InitCreateFramebuffer_body_run E p w1 fb1 Hl1)
    as (tr & w' & fb & Hr & Hlk & _ & _ & [Hh Hct] & _ & Hlay).
  rewrite Hes in Hlay. cbn [andb] in Hlay. destruct Hlay as (Hzs & Hz & Hst & _).
  assert (Hl : IsGLES (gl_extensions E)
               && negb (OES_packed_depth_stencil (gl_extensions E)) = false)
    by (rewrite Hes; reflexivity).
  destruct (InitCreateFramebuffer_body_names E p w1 fb1 Hl1 Hl)
    as (tr' & w'' & Hr' & B1 & B2 & B3 & B4 & B5).
  rewrite Hr in Hr'. injection Hr' as <- _.
  exists ((t0 ++ tr) ++ []), w', fb.
  split; [|split; [exact Hlk|split; [|split]]].
  - unfold RunInitStep, InitCreateFramebuffer. rewrite Hg, Harb, Hext. cbn [negb andb].
    eapply bind_ok; [|reflexivity]. eapply bind_ok; [exact Hr0|exact Hr].
  - rewrite !names_of_app, G1, G2, G3, B1, B2, B3, B4, B5, Hn1.
    assert (E1 : names_of "glGenFramebuffers" t0 = [] /\
                 names_of "glGenRenderbuffers" t0 = []).
    { clear -Hr0 H. revert Hr0. unfold_fb. intros Hr0.
      match type of Hr0 with ?m = _ =>
        assert (Hx : exists t w2, m = (t, Ok tt w2) /\
                       names_of "glGenFramebuffers" t = [] /\
                       names_of "glGenRenderbuffers" t = [])
      end.
      { do 2 eexists. split; [run_fb|]. split; names_tac. }
      destruct Hx as (t & w2 & Hx & N1 & N2). rewrite Hx in Hr0. injection Hr0 as <- _.
      split; assumption. }
    destruct E1 as [-> ->]. cbn [names_of List.flat_map app]. unfold n.
    repeat split; try reflexivity; f_equal; try lia; f_equal; lia.
  - unfold n. repeat split; lia.
  - unfold GLRFramebuffer_dtor, delete_renderbuffers.
    rewrite Harb, Hes, Hext, Hg, Hz, Hst, Hh, Hct, Hzs, Hn1. cbn [orb negb].
    assert ((Z.pos (next_name w) + 3 =? 0) = false) as -> by lia.
    assert ((Z.pos (next_name w) + 3 + 2 =? 0) = false) as -> by lia.
    unfold n. cbn. repeat split; f_equal; lia.
Qed.

Lemma CREATE_FRAMEBUFFER_ext_creates_twice_witness :
  exists tr w' fb,
    RunInitStep Configurations.legacy_desktop (CREATE_FRAMEBUFFER 1) 0 Examples.world0
    = (tr, Ok (to_u32 (-1)) w') /\
    framebuffers (heap w') !! 1%positive = Some fb /\
    (names_of "glGenFramebuffersEXT" tr = [100] /\
     names_of "glGenTextures" tr = [100 + 1; 100 + 4] /\
     names_of "glGenRenderbuffersEXT" tr = [100 + 2] /\
     names_of "glGenFramebuffers" tr = [100 + 3] /\
     names_of "glGenRenderbuffers" tr = [100 + 5]) /\
    (handle fb = 100 + 3 /\ color_texture fb = 100 + 4 /\ z_stencil_buffer fb = 100 + 5 /\
     z_buffer fb = 0 /\ stencil_buffer fb = 0) /\
    (names_of "glDeleteFramebuffersEXT"
       (GLRFramebuffer_dtor Configurations.legacy_desktop fb) = [100 + 3] /\
     names_of "glDeleteTextures"
       (GLRFramebuffer_dtor Configurations.legacy_desktop fb) = [100 + 4] /\
     names_of "glDeleteRenderbuffers"
       (GLRFramebuffer_dtor Configurations.legacy_desktop fb) = [100 + 5]).
Proof.
  apply (CREATE_FRAMEBUFFER_ext_creates_twice Configurations.legacy_desktop 1 0
           Examples.world0 (Examples.fb 480 272 11)); reflexivity.
Defined.

(** ** Init steps *)

Lemma emits_fresh_names Q n : emits_only Q (fresh_names n).
Proof. intros w. reflexivity. Qed.

Ltac unfold_init :=
  unfold RunInitStep, InitCreateFramebuffer, InitCreateFramebuffer_body, fbo_ext_create,
    create_combined, create_separate, attach_all, color_texture_params,
    set_current_handles, framebuffer_status_log, assign_fb, assign, glGen1, glGen, glCreate,
    glCheckFramebufferStatus, bind_frag_data, glGetProgramiv_LINK_STATUS,
    glGetProgramiv_INFO_LOG_LENGTH, glGetUniformLocation, glGetShaderiv_COMPILE_STATUS,
    _assert_msg_, _dbg_assert_msg_, index, for_range.

Ltac emits_init :=
  repeat first
    [ apply emits_bind; [|intros ?]
    | apply emits_ret | apply emits_fail
    | apply emits_gl; reflexivity
    | apply emits_log; reflexivity
    | apply emits_emit; reflexivity
    | apply emits_deref | apply emits_member | apply emits_modify_this
    | apply emits_modify_heap | apply emits_fresh_names
    | apply emits_when
    | apply emits_for_each; intros ?
    | progress unfold _assert_msg_
    | match goal with
      | |- emits_only _ (if ?b then _ else _) => destruct b
      | |- emits_only _ (match ?x with _ => _ end) => destruct x
      end ].

Lemma RunInitStep_no_unit_call E step b : emits_only not_unit_call (RunInitStep E step b).
Proof. destruct step; unfold_init; emits_init. Qed.

Lemma RunInitSteps_loop_no_unit_call E steps :
  forall b, emits_only not_unit_call (RunInitSteps_loop E steps b).
Proof.
  induction steps as [|s steps IH]; intros b; cbn [RunInitSteps_loop].
  - apply emits_ret.
  - apply emits_bind; [apply RunInitStep_no_unit_call|intros b'; apply IH].
Qed.

Lemma count_calls_none Q fn tr :
  (forall e, Q e = true -> is_call fn e = false) ->
  forallb Q tr = true -> count_calls fn tr = 0%nat.
Proof.
  intros HQ H. unfold count_calls. induction tr as [|e tr IH]; [reflexivity|].
  cbn [forallb] in H. apply andb_prop in H as [He H].
  cbn [List.filter]. rewrite (HQ e He). apply IH, H.
Qed.

(** X14: [RunInitSteps] selects texture unit 0 once, before the first step, and
    never switches the unit again, whatever the steps and however the run
    ends: all the texture work of the init steps happens on unit 0. *)
Theorem RunInitSteps_stays_on_unit_0 E steps w g :
  count_calls "glActiveTexture" (trace_of (RunInitSteps E steps w)) = 1%nat /\
  (0 < gl_max_texture_units g ->
   gl_active_texture (gl_run g (trace_of (RunInitSteps E steps w))) = GL_TEXTURE0).
Proof.
  unfold RunInitSteps, trace_of, bind. cbn [gl emit].
  pose proof (RunInitSteps_loop_no_unit_call E steps (to_u32 (-1)) w) as H.
  destruct (RunInitSteps_loop E steps (to_u32 (-1)) w) as [t [[] w'|f]]; cbn [fst] in *.
  all: split;
    [ cbn [app]; change (GL "glActiveTexture" [I GL_TEXTURE0] :: t)
        with ([GL "glActiveTexture" [I GL_TEXTURE0]] ++ t);
      rewrite count_calls_app;
      rewrite (count_calls_none not_unit_call _ t); [reflexivity| |exact H];
      intros e He; apply negb_true_iff; exact He
    | intros Hm; cbn [app];
      change (GL "glActiveTexture" [I GL_TEXTURE0] :: t)
        with ([GL "glActiveTexture" [I GL_TEXTURE0]] ++ t);
      rewrite gl_run_app, (gl_run_not_unit _ t H); cbn;
      replace (GL_TEXTURE0 <? GL_TEXTURE0 + gl_max_texture_units g) with true
        by (symmetry; apply Z.ltb_lt; lia);
      reflexivity ].
Qed.

Lemma deref_inv {T} (sel : Heap -> gmap ptr T) p w t x w' :
  deref sel p w = (t, Ok x w') -> sel (heap w) !! p = Some x /\ t = [] /\ w' = w.
Proof.
  unfold deref. destruct (sel (heap w) !! p); [|discriminate].
  intros H. injection H as <- <- <-. auto.
Qed.

Lemma RunInitStep_data_freed E step b w t b' w' :
  RunInitStep E step b w = (t, Ok b' w') ->
  List.filter is_data_delete t = data_freed step.
Proof.
  assert (Hq : forall e, keeps_data e = true -> is_data_delete e = false)
    by (intros e; apply negb_true_iff).
  assert (Hother : emits_only keeps_data (RunInitStep E step b) ->
                   data_freed step = [] ->
                   List.filter is_data_delete (fst (RunInitStep E step b w)) = data_freed step).
  { intros He ->. apply (emits_only_filter keeps_data); assumption. }
  intros H.
  destruct step;
    try solve [rewrite <- Hother; [rewrite H; reflexivity
                                  |unfold_init; emits_init|reflexivity]].
  - clear Hother. revert H. unfold RunInitStep. intros H.
    apply bind_ok_inv in H as (t1 & buf & w1 & t2 & H1 & H & ->).
    apply deref_inv in H1 as (_ & -> & ->).
    destruct deleteData; cbn in H; injection H as <- _ _; reflexivity.
  - clear Hother. revert H. unfold RunInitStep. intros H.
    apply bind_ok_inv in H as (t1 & tex & w1 & t2 & H1 & H & ->).
    apply deref_inv in H1 as (_ & -> & ->).
    destruct (negb (b =? _)); cbn in H; injection H as <- _ _;
      reflexivity.
Qed.

Lemma RunInitSteps_loop_data_freed E steps :
  forall b w tr w',
    RunInitSteps_loop E steps b w = (tr, Ok tt w') ->
    List.filter is_data_delete tr = List.flat_map data_freed steps.
Proof.
  induction steps as [|s steps IH]; intros b w tr w' H.
  - injection H as <- _. reflexivity.
  - cbn [RunInitSteps_loop] in H.
    apply bind_ok_inv in H as (t1 & b1 & w1 & t2 & H1 & H2 & ->).
    rewrite List.filter_app, (RunInitStep_data_freed _ _ _ _ _ _ _ H1), (IH _ _ _ _ H2).
    reflexivity.
Qed.

(** X15: A run of [RunInitSteps] that returns has freed the upload data the
    steps handed over, each block once and in the order of the steps: the
    pixels of every TEXTURE_IMAGE step, the data of a BUFFER_SUBDATA step
    exactly when its [deleteData] flag is set, and no other upload block.
    (Shader sources and info logs are strings, not upload blocks.) *)
Theorem RunInitSteps_frees_step_data E steps w tr w' :
  RunInitSteps E steps w = (tr, Ok tt w') ->
  List.filter is_data_delete tr = List.flat_map data_freed steps.
Proof.
  unfold RunInitSteps. intros H.
  apply bind_ok_inv in H as (t1 & [] & w1 & t2 & H1 & H2 & ->).
  injection H1 as <- <-. cbn [app List.filter is_data_delete].
  eapply RunInitSteps_loop_data_freed, H2.
Qed.

Lemma RunInitSteps_frees_step_data_witness :
  List.filter is_data_delete
    (trace_of (RunInitSteps Examples.desktop
       [CREATE_TEXTURE 1; TEXTURE_IMAGE 1 0 6408 64 64 6408 5121 true 7;
        CREATE_BUFFER 1 1024 35044; BUFFER_SUBDATA 1 0 512 8 false;
        BUFFER_SUBDATA 1 512 512 9 true] MoreExamples.world1))
  = List.flat_map data_freed
      [CREATE_TEXTURE 1; TEXTURE_IMAGE 1 0 6408 64 64 6408 5121 true 7;
       CREATE_BUFFER 1 1024 35044; BUFFER_SUBDATA 1 0 512 8 false;
       BUFFER_SUBDATA 1 512 512 9 true].
Proof.
  eapply (RunInitSteps_frees_step_data Examples.desktop _ MoreExamples.world1).
  vm_compute. reflexivity.
Defined.

(** *** Members the init steps leave alone *)

Lemma same_members_refl w : same_members w w.
Proof. unfold same_members. repeat split; lia. Qed.
Lemma same_members_trans w1 w2 w3 :
  same_members w1 w2 -> same_members w2 w3 -> same_members w1 w3.
Proof.
  unfold same_members.
  intros (A1 & A2 & A3 & A4 & A5 & A6 & A7 & A8 & A9 & A10)
         (B1 & B2 & B3 & B4 & B5 & B6 & B7 & B8 & B9 & B10).
  repeat split; try congruence. lia.
Qed.

Lemma keeps_fresh_names_members n : keeps same_members (fresh_names n).
Proof. intros w. cbn. unfold same_members. cbn. repeat split. lia. Qed.

Lemma same_runner_refl w : same_runner w w.
Proof. reflexivity. Qed.
Lemma same_runner_trans w1 w2 w3 : same_runner w1 w2 -> same_runner w2 w3 -> same_runner w1 w3.
Proof. unfold same_runner. congruence. Qed.
Lemma keeps_fresh_names_runner n : keeps same_runner (fresh_names n).
Proof. intros w. reflexivity. Qed.

Ltac keeps_members :=
  keeps_with same_members_refl same_members_trans
    ltac:(unfold same_members; cbn; repeat split; lia)
    ltac:(first [apply keeps_fresh_names_members | progress unfold _assert_msg_]).

Ltac keeps_runner :=
  keeps_with same_runner_refl same_runner_trans
    ltac:(reflexivity)
    ltac:(first [apply keeps_fresh_names_runner | progress unfold _assert_msg_]).

Lemma RunInitStep_keeps_members E step b : keeps same_members (RunInitStep E step b).
Proof. destruct step; unfold_init; keeps_members. Qed.

Lemma RunInitStep_keeps_runner E step b :
  is_create_framebuffer step = false -> keeps same_runner (RunInitStep E step b).
Proof. destruct step; try discriminate; intros _; unfold_init; keeps_runner. Qed.

Lemma RunInitSteps_loop_keeps_members E steps :
  forall b, keeps same_members (RunInitSteps_loop E steps b).
Proof.
  induction steps as [|s steps IH]; intros b; cbn [RunInitSteps_loop].
  - apply (keeps_ret _ same_members_refl).
  - apply (keeps_bind _ same_members_trans); [apply RunInitStep_keeps_members|intros ?; apply IH].
Qed.

Lemma RunInitSteps_loop_keeps_runner E steps :
  forallb (fun s => negb (is_create_framebuffer s)) steps = true ->
  forall b, keeps same_runner (RunInitSteps_loop E steps b).
Proof.
  induction steps as [|s steps IH]; intros Hs b; cbn [RunInitSteps_loop].
  - apply (keeps_ret _ same_runner_refl).
  - cbn [forallb] in Hs. apply andb_prop in Hs as [H1 H2]. apply negb_true_iff in H1.
    apply (keeps_bind _ same_runner_trans);
      [apply RunInitStep_keeps_runner, H1|intros ?; apply IH, H2].
Qed.

(** X16: A run of [RunInitSteps] that returns assigns no member of the runner
    other than the two cached framebuffer handles, and these only in a
    CREATE_FRAMEBUFFER step: without such a step the runner is left exactly
    as it was.  The driver's names are only ever taken, never given back. *)
Theorem RunInitSteps_keeps_members E steps w tr w' :
  RunInitSteps E steps w = (tr, Ok tt w') ->
  same_members w w' /\
  (forallb (fun s => negb (is_create_framebuffer s)) steps = true -> this w' = this w).
Proof.
  unfold RunInitSteps. intros H.
  apply bind_ok_inv in H as (t1 & [] & w1 & t2 & H1 & H2 & ->).
  injection H1 as _ <-. split.
  - pose proof (RunInitSteps_loop_keeps_members E steps (to_u32 (-1)) w) as K.
    rewrite H2 in K. exact K.
  - intros Hs. pose proof (RunInitSteps_loop_keeps_runner E steps Hs (to_u32 (-1)) w) as K.
    rewrite H2 in K. exact K.
Qed.

Lemma RunInitSteps_keeps_members_witness :
  exists tr w',
    RunInitSteps Examples.desktop
      [CREATE_TEXTURE 1; CREATE_FRAMEBUFFER 1; CREATE_BUFFER 1 1024 35044]
      MoreExamples.world1 = (tr, Ok tt w') /\
    same_members MoreExamples.world1 w' /\
    (forallb (fun s => negb (is_create_framebuffer s))
       [CREATE_TEXTURE 1; CREATE_FRAMEBUFFER 1; CREATE_BUFFER 1 1024 35044] = true ->
     this w' = this MoreExamples.world1).
Proof.
  eexists _, _.
  refine ((fun H => conj H
            (RunInitSteps_keeps_members Examples.desktop _ MoreExamples.world1 _ _ H)) _).
  vm_compute. reflexivity.
Defined.

(** *** A program that does not link *)

Lemma filter_none Q q (tr : list Event) :
  (forall e, Q e = true -> q e = false) ->
  forallb Q tr = true -> List.filter q tr = [].
Proof.
  intros HQ H. induction tr as [|e tr IH]; [reflexivity|].
  cbn [forallb] in H. apply andb_prop in H as [He H].
  cbn [List.filter]. rewrite (HQ e He). apply IH, H.
Qed.

Lemma emits_run {A} Q (m : M A) w t o :
  emits_only Q m -> m w = (t, o) -> forallb Q t = true.
Proof. intros He H. specialize (He w). rewrite H in He. exact He. Qed.

Lemma glCreate_inv fn args w t x w1 :
  glCreate fn args w = (t, Ok x w1) ->
  x = Z.pos (next_name w) /\ t = [GL fn (args ++ [I (Z.pos (next_name w))])] /\
  heap w1 = heap w.
Proof. intros H. cbn in H. injection H as <- <- <-. repeat split. Qed.

(** X17: When the driver refuses to link the program of a CREATE_PROGRAM step,
    a step that returns has logged the failure as an error, has not made
    the program current, has looked up no uniform and set none, and has
    left [boundTexture] alone: the failure is survived, and nothing marks
    the program object as unusable. *)
Theorem CREATE_PROGRAM_link_failure E p shs n dual b w tr b' w' :
  link_status (driver E) (Z.pos (next_name w)) = false ->
  RunInitStep E (CREATE_PROGRAM p shs n dual) b w = (tr, Ok b' w') ->
  List.filter program_setup_call tr = [] /\
  List.length (List.filter is_error_log tr) = 1%nat /\
  b' = b /\
  exists prog, programs (heap w') !! p = Some prog /\ program prog = Z.pos (next_name w).
Proof.
  intros Hl. unfold RunInitStep. intros H.
  assert (Hq : forall e, not_program_setup e = true -> program_setup_call e = false)
    by (intros e; apply negb_true_iff).
  assert (Hq' : forall e, (not_program_setup e && negb (is_error_log e)) = true ->
                          program_setup_call e = false /\ is_error_log e = false).
  { intros e He. apply andb_prop in He as [H1 H2]. apply negb_true_iff in H1, H2. auto. }
  set (Q := fun e => not_program_setup e && negb (is_error_log e)).
  apply bind_ok_inv in H as (t1 & prog & w1 & t2 & H1 & H & ->).
  apply glCreate_inv in H1 as (-> & -> & K1).
  set (prog := Z.pos (next_name w)) in *.
  apply bind_ok_inv in H as (t2' & [] & w2 & t3 & H2 & H & ->).
  assert (Hprog : exists pr, programs (heap w2) !! p = Some pr /\ program pr = prog).
  { unfold assign in H2. apply bind_ok_inv in H2 as (? & x & ? & ? & D & M & _).
    apply deref_inv in D as (_ & _ & ->). cbn in M. injection M as _ <-.
    eexists. split; [apply lookup_insert_eq|reflexivity]. }
  assert (E2 : forallb Q t2' = true).
  { eapply emits_run; [|exact H2]. unfold assign. emits_init. }
  apply bind_ok_inv in H as (t3' & [] & w3 & t4 & H3 & H & ->).
  assert (E3 : forallb Q t3' = true).
  { eapply emits_run; [|exact H3]. emits_init. }
  assert (K3 : heap w3 = heap w2).
  { unfold _assert_msg_ in H3. destruct (0 <? n); [|discriminate].
    injection H3 as _ <-. reflexivity. }
  apply bind_ok_inv in H as (t4' & [] & w4 & t5 & H4 & H & ->).
  assert (E4 : forallb Q t4' = true).
  { eapply emits_run; [|exact H4]. unfold_init. emits_init. }
  assert (K4 : heap w4 = heap w3).
  { assert (K : keeps same_heap (for_range 0 (Z.to_nat n) (fun i =>
        sp <- index shs i ;;
        sh <- deref shaders sp ;;
        _dbg_assert_msg_ E (negb (shader sh =? 0)) "Can't create a program with a null shader" ;;
        gl "glAttachShader" [I prog; I (shader sh)])))
      by (unfold_init; keeps_heap; unfold _assert_msg_; keeps_heap).
    specialize (K w3). rewrite H4 in K. exact K. }
  apply bind_ok_inv in H as (t5' & program & w5 & t6 & H5 & H & ->).
  apply deref_inv in H5 as (_ & -> & ->).
  apply bind_ok_inv in H as (t6' & [] & w6 & t7 & H6 & H & ->).
  assert (E6 : forallb Q t6' = true).
  { eapply emits_run; [|exact H6]. emits_init. }
  assert (K6 : heap w6 = heap w4).
  { assert (K : keeps same_heap (for_each (semantics_ program) (fun iter =>
        gl "glBindAttribLocation" [I prog; I (sem_location iter); S (attrib iter)])))
      by keeps_heap.
    specialize (K w4). rewrite H6 in K. exact K. }
  apply bind_ok_inv in H as (t7' & [] & w7 & t8 & H7 & H & ->).
  assert (E7 : forallb Q t7' = true).
  { eapply emits_run; [|exact H7]. unfold_init. emits_init. }
  assert (K7 : heap w7 = heap w6).
  { assert (K : keeps same_heap (bind_frag_data E prog dual))
      by (unfold_init; keeps_heap).
    specialize (K w6). rewrite H7 in K. exact K. }
  apply bind_ok_inv in H as (t8' & [] & w8 & t9 & H8 & H & ->).
  injection H8 as <- <-.
  apply bind_ok_inv in H as (t9' & st & w9 & t10 & H9 & H & ->).
  unfold glGetProgramiv_LINK_STATUS in H9. fold prog in Hl. rewrite Hl in H9.
  cbn in H9. injection H9 as <- <- <-.
  apply bind_ok_inv in H as (t10' & [] & w10 & t11 & H10 & H & ->).
  injection H as <- <- <-.
  change (negb (GL_FALSE =? GL_TRUE)) with true in H10. cbv iota in H10.
  assert (B : List.filter program_setup_call t10' = [] /\
              List.length (List.filter is_error_log t10') = 1%nat /\ heap w10 = heap w7).
  { unfold glGetProgramiv_INFO_LOG_LENGTH in H10.
    apply bind_ok_inv in H10 as (ta & len & wa & tb & Ha & Hb & ->).
    cbn in Ha. injection Ha as <- <- <-.
    destruct (negb (_ =? 0)).
    - destruct (WIN32 (build E)); cbn in Hb; injection Hb as <- <-; auto.
    - cbn in Hb. injection Hb as <- <-. auto. }
  destruct B as (B1 & B2 & B3).
  assert (F : forall t, forallb Q t = true ->
                        List.filter program_setup_call t = [] /\
                        List.filter is_error_log t = []).
  { intros t Ht. split; apply (filter_none Q); try exact Ht; intros e He;
      apply Hq' in He; tauto. }
  destruct (F _ E2) as [F2 G2]. destruct (F _ E3) as [F3 G3]. destruct (F _ E4) as [F4 G4].
  destruct (F _ E6) as [F6 G6]. destruct (F _ E7) as [F7 G7].
  rewrite !List.filter_app, F2, F3, F4, F6, F7, G2, G3, G4, G6, G7, B1.
  rewrite !List.length_app, B2.
  split; [reflexivity|]. split; [reflexivity|]. split; [reflexivity|].
  destruct Hprog as (pr & Hp & Hn). exists pr. split; [|exact Hn].
  rewrite B3, K7, K6, K4, K3. exact Hp.
Qed.

Lemma CREATE_PROGRAM_link_failure_witness :
  exists tr b' w',
    RunInitStep Configurations.unlinking (CREATE_PROGRAM 1 [1%positive] 1 false) 7
      Examples.world0 = (tr, Ok b' w') /\
    List.filter program_setup_call tr = [] /\
    List.length (List.filter is_error_log tr) = 1%nat /\
    b' = 7 /\
    exists prog, programs (heap w') !! 1%positive = Some prog /\ program prog = 100.
Proof.
  eexists _, _, _.
  refine ((fun H => conj H
            (CREATE_PROGRAM_link_failure Configurations.unlinking 1 [1%positive] 1 false 7
               Examples.world0 _ _ _ eq_refl H)) _).
  vm_compute. reflexivity.
Defined.

(** *** The texture an upload goes to *)

Lemma bound_after_other o e : not_bind_texture e = true -> bound_after o e = o.
Proof.
  destruct e as [fn args| |]; try reflexivity.
  unfold not_bind_texture, is_call. intros H. apply negb_true_iff in H.
  rewrite String.eqb_sym in H.
  destruct args as [|[a| | |] [|[c| | |] [|? ?]]]; try reflexivity.
  cbn. rewrite H. reflexivity.
Qed.

Lemma fold_bound_other o tr :
  forallb not_bind_texture tr = true -> List.fold_left bound_after tr o = o.
Proof.
  revert o. induction tr as [|e tr IH]; intros o H; [reflexivity|].
  cbn [forallb] in H. apply andb_prop in H as [He H].
  cbn [List.fold_left]. rewrite (bound_after_other _ _ He). apply IH, H.
Qed.

Ltac yield_same :=
  repeat first
    [ apply yields_ret; reflexivity
    | apply yields_bind; intros ? ].

Lemma RunInitStep_bound E step b w t b' w' o :
  RunInitStep E step b w = (t, Ok b' w') ->
  (b <> to_u32 (-1) -> o = Some b) ->
  b' <> to_u32 (-1) -> List.fold_left bound_after t o = Some b'.
Proof.
  intros H Hinv.
  assert (Hother : emits_only not_bind_texture (RunInitStep E step b) ->
                   yields (fun x => x = b) (RunInitStep E step b) ->
                   b' <> to_u32 (-1) -> List.fold_left bound_after t o = Some b').
  { intros He Hy. specialize (He w). specialize (Hy w). rewrite H in He, Hy.
    cbn in He, Hy. subst b'. intros Hb. rewrite (fold_bound_other _ _ He). auto. }
  destruct step; try solve [apply Hother; [unfold_init; emits_init|unfold RunInitStep; yield_same]].
  - (* CREATE_TEXTURE *)
    clear Hother. revert H. unfold RunInitStep. intros H.
    apply bind_ok_inv in H as (t1 & n & w1 & t2 & H1 & H & ->).
    cbn in H1. injection H1 as <- _ _.
    apply bind_ok_inv in H as (t2' & [] & w2 & t3 & H2 & H & ->).
    assert (T2 : t2' = []).
    { unfold assign in H2. apply bind_ok_inv in H2 as (? & x & ? & ? & D & M & ->).
      apply deref_inv in D as (_ & -> & _). injection M as <- _. reflexivity. }
    subst t2'.
    apply bind_ok_inv in H as (t3' & tex & w3 & t4 & H3 & H & ->).
    apply deref_inv in H3 as (_ & -> & ->).
    cbn in H. injection H as <- <- _. intros _. reflexivity.
  - (* CREATE_FRAMEBUFFER *)
    clear Hother. revert H. unfold RunInitStep. intros H.
    apply bind_ok_inv in H as (t1 & [] & w1 & t2 & _ & H & ->).
    injection H as _ <- _. intros Hb. exfalso. apply Hb. reflexivity.
  - (* TEXTURE_IMAGE *)
    clear Hother. revert H. unfold RunInitStep. intros H.
    apply bind_ok_inv in H as (t1 & tex & w1 & t2 & H1 & H & ->).
    apply deref_inv in H1 as (_ & -> & ->).
    destruct (b =? _) eqn:Hb; cbn in H; injection H as <- <- _; intros Hn.
    + cbn. apply Hinv, Hn.
    + reflexivity.
Qed.

Lemma RunInitSteps_loop_upload E steps p level ifmt wd ht fmt ty lin data :
  forall b w t0 tr w',
    (b <> to_u32 (-1) -> last_bound t0 = Some b) ->
    RunInitSteps_loop E (steps ++ [TEXTURE_IMAGE p level ifmt wd ht fmt ty lin data]) b w
    = (tr, Ok tt w') ->
    exists ta tex tb,
      tr = ta ++ GL "glTexImage2D"
                    [I (target tex); I level; I ifmt; I wd; I ht; I 0; I fmt; I ty; P data]
                 :: tb /\
      textures (heap w') !! p = Some tex /\
      (texture tex <> to_u32 (-1) -> last_bound (t0 ++ ta) = Some (texture tex)).
Proof.
  induction steps as [|s steps IH]; intros b w t0 tr w' Hinv H.
  - cbn [app RunInitSteps_loop] in H.
    apply bind_ok_inv in H as (t1 & b1 & w1 & t2 & H1 & H2 & ->).
    injection H2 as <- <-. rewrite app_nil_r.
    unfold RunInitStep in H1.
    apply bind_ok_inv in H1 as (t1' & tex & w1' & t2' & D & H1 & ->).
    apply deref_inv in D as (Hp & -> & ->).
    destruct (b =? texture tex) eqn:Hb; cbn in H1; injection H1 as <- _ <-.
    + exists [], tex, ([Delete (P data)] ++
        [GL "glTexParameteri" [I GL_TEXTURE_2D; I GL_TEXTURE_WRAP_S; I GL_CLAMP_TO_EDGE];
         GL "glTexParameteri" [I GL_TEXTURE_2D; I GL_TEXTURE_WRAP_T; I GL_CLAMP_TO_EDGE];
         GL "glTexParameteri" [I GL_TEXTURE_2D; I GL_TEXTURE_MAG_FILTER;
                               I (if lin then GL_LINEAR else GL_NEAREST)];
         GL "glTexParameteri" [I GL_TEXTURE_2D; I GL_TEXTURE_MIN_FILTER;
                               I (if lin then GL_LINEAR else GL_NEAREST)]]).
      split; [reflexivity|]. split; [exact Hp|].
      intros Hn. rewrite app_nil_r. apply Z.eqb_eq in Hb. rewrite <- Hb in *.
      apply Hinv, Hn.
    + exists [GL "glBindTexture" [I (target tex); I (texture tex)]], tex,
        ([Delete (P data)] ++
        [GL "glTexParameteri" [I GL_TEXTURE_2D; I GL_TEXTURE_WRAP_S; I GL_CLAMP_TO_EDGE];
         GL "glTexParameteri" [I GL_TEXTURE_2D; I GL_TEXTURE_WRAP_T; I GL_CLAMP_TO_EDGE];
         GL "glTexParameteri" [I GL_TEXTURE_2D; I GL_TEXTURE_MAG_FILTER;
                               I (if lin then GL_LINEAR else GL_NEAREST)];
         GL "glTexParameteri" [I GL_TEXTURE_2D; I GL_TEXTURE_MIN_FILTER;
                               I (if lin then GL_LINEAR else GL_NEAREST)]]).
      split; [reflexivity|]. split; [exact Hp|].
      intros _. unfold last_bound. rewrite List.fold_left_app. reflexivity.
  - cbn [app RunInitSteps_loop] in H.
    apply bind_ok_inv in H as (t1 & b1 & w1 & t2 & H1 & H2 & ->).
    destruct (IH b1 w1 (t0 ++ t1) t2 w') as (ta & tex & tb & -> & Hp & Hl).
    + intros Hb1. unfold last_bound. rewrite List.fold_left_app.
      eapply RunInitStep_bound; [exact H1| |exact Hb1]. exact Hinv.
    + exact H2.
    + exists (t1 ++ ta), tex, tb. split; [rewrite <- app_assoc; reflexivity|].
      split; [exact Hp|]. rewrite app_assoc. exact Hl.
Qed.

(** X18: The filter on [boundTexture] is sound.  After any init steps, the
    [glTexImage2D] call of a TEXTURE_IMAGE step is made while the texture
    of the step is the one of the latest [glBindTexture] call, whether the
    step made that call itself or dropped it as redundant, provided the
    texture's name is not [(GLuint)-1], the value the local starts from and
    is reset to by CREATE_FRAMEBUFFER. *)
Theorem TEXTURE_IMAGE_uploads_to_bound_texture E steps p level ifmt wd ht fmt ty lin data
    w tr w' :
  RunInitSteps E (steps ++ [TEXTURE_IMAGE p level ifmt wd ht fmt ty lin data]) w
  = (tr, Ok tt w') ->
  exists ta tex tb,
    tr = ta ++ GL "glTexImage2D"
                  [I (target tex); I level; I ifmt; I wd; I ht; I 0; I fmt; I ty; P data]
               :: tb /\
    textures (heap w') !! p = Some tex /\
    (texture tex <> to_u32 (-1) -> last_bound ta = Some (texture tex)).
Proof.
  unfold RunInitSteps. intros H.
  apply bind_ok_inv in H as (t1 & [] & w1 & t2 & H1 & H2 & ->).
  injection H1 as <- <-.
  eapply (RunInitSteps_loop_upload _ _ _ _ _ _ _ _ _ _ _ _ _
            [GL "glActiveTexture" [I GL_TEXTURE0]]) in H2 as (ta & tex & tb & -> & Hp & Hl).
  - exists ([GL "glActiveTexture" [I GL_TEXTURE0]] ++ ta), tex, tb.
    split; [rewrite <- app_assoc; reflexivity|]. split; assumption.
  - intros Hb. exfalso. apply Hb. reflexivity.
Qed.

Lemma TEXTURE_IMAGE_uploads_to_bound_texture_witness :
  exists tr w',
    RunInitSteps Examples.desktop
      ([CREATE_TEXTURE 1; TEXTURE_IMAGE 1 0 6408 64 64 6408 5121 true 7;
        CREATE_FRAMEBUFFER 1] ++
       [TEXTURE_IMAGE 1 1 6408 32 32 6408 5121 true 8]) MoreExamples.world1
    = (tr, Ok tt w') /\
    exists ta tex tb,
      tr = ta ++ GL "glTexImage2D"
                    [I (target tex); I 1; I 6408; I 32; I 32; I 0; I 6408; I 5121; P 8]
                 :: tb /\
      textures (heap w') !! 1%positive = Some tex /\
      (texture tex <> to_u32 (-1) -> last_bound ta = Some (texture tex)).
Proof.
  eexists _, _.
  refine ((fun H => conj H
            (TEXTURE_IMAGE_uploads_to_bound_texture Examples.desktop
               [CREATE_TEXTURE 1; TEXTURE_IMAGE 1 0 6408 64 64 6408 5121 true 7;
                CREATE_FRAMEBUFFER 1]
               1 1 6408 32 32 6408 5121 true 8 MoreExamples.world1 _ _ H)) _).
  vm_compute. reflexivity.
Defined.

(** ** Uniforms by name *)

Lemma select_slot_curProgram slot st :
  yields (fun s => curProgram s = curProgram st) (select_slot slot st).
Proof. intros w. rewrite select_slot_run. destruct (slot =? activeTexture st); reflexivity. Qed.

Ltac yield_program :=
  repeat first
    [ apply yields_ret; first [reflexivity | assumption]
    | eapply yields_bind_with; [apply select_slot_curProgram | intros ? ?]
    | apply yields_ret; congruence
    | apply yields_bind; intros ?
    | match goal with
      | |- yields _ (if ?b then _ else _) => destruct b
      | |- yields _ (match ?x with _ => _ end) => destruct x
      end ].

Lemma command_keeps_no_program E c st :
  is_bind_program c = false ->
  curProgram st = None ->
  yields (fun s => curProgram s = None) (PerformRenderPass_command E c st).
Proof.
  intros Hc Hst. destruct c; try discriminate Hc; clear Hc;
    unfold PerformRenderPass_command, resolve_uniform, GetUniformLoc, glGetUniformLocation,
      for_range; yield_program.
Qed.

Lemma named_uniform_fatal E u st w :
  named_uniform u = true -> curProgram st = None ->
  is_fatal (PerformRenderPass_command E u st w).
Proof.
  intros Hu Hst.
  destruct u as [| | | | | |loc [nm|] ? ?|loc [nm|] ? ?|loc [nm|] ?| | | | | | | | | | | | |];
    try discriminate Hu.
  all: unfold PerformRenderPass_command, resolve_uniform; rewrite Hst.
  all: apply bind_is_fatal_l.
  all: destruct loc as [p|]; unfold bind, deref;
    [destruct (ints (heap w) !! p)|]; do 2 eexists; reflexivity.
Qed.

Lemma commands_named_uniform_fatal E cs u cs' :
  forallb (fun c => negb (is_bind_program c)) cs = true ->
  named_uniform u = true ->
  forall st w, curProgram st = None ->
    is_fatal (PerformRenderPass_commands E (cs ++ u :: cs') st w).
Proof.
  intros Hcs Hu. induction cs as [|c cs IH]; intros st w Hst.
  - cbn [app PerformRenderPass_commands]. apply bind_is_fatal_l.
    apply named_uniform_fatal; assumption.
  - cbn [forallb] in Hcs. apply andb_prop in Hcs as [Hc Hcs]. apply negb_true_iff in Hc.
    cbn [app PerformRenderPass_commands].
    pose proof (command_keeps_no_program E c st Hc Hst w) as Hy.
    destruct (PerformRenderPass_command E c st w) as [t1 [st1 w1|f]] eqn:H1.
    + eapply bind_is_fatal_r; [exact H1|]. apply IH; assumption.
    + apply bind_is_fatal_l. rewrite H1. do 2 eexists. reflexivity.
Qed.

(** X19: A uniform command that names its uniform looks the name up in the
    program bound by an earlier BINDPROGRAM of the same pass; the local
    [curProgram] starts null in every pass, so a pass in which such a
    command comes before any BINDPROGRAM dereferences null and never
    returns, whatever program an earlier pass has left current in the
    driver. *)
Theorem named_uniform_needs_BINDPROGRAM E fb cs u cs' w :
  forallb (fun c => negb (is_bind_program c)) cs = true ->
  named_uniform u = true ->
  is_fatal (PerformRenderPass E fb (cs ++ u :: cs') w).
Proof.
  intros Hcs Hu. unfold PerformRenderPass.
  destruct (cs ++ u :: cs') as [|c0 cs0] eqn:Hl; [destruct cs; discriminate Hl|].
  rewrite <- Hl. clear Hl.
  destruct (PerformBindFramebufferAsRenderTarget E fb w) as [t0 [[] w0|f]] eqn:H0;
    [|apply bind_is_fatal_l; rewrite H0; do 2 eexists; reflexivity].
  eapply bind_is_fatal_r; [exact H0|].
  eapply bind_is_fatal_r; [reflexivity|].
  eapply bind_is_fatal_r; [reflexivity|].
  eapply bind_is_fatal_r; [reflexivity|].
  eapply bind_is_fatal_r; [reflexivity|].
  apply bind_is_fatal_l. apply commands_named_uniform_fatal; try assumption. reflexivity.
Qed.

Lemma named_uniform_needs_BINDPROGRAM_witness :
  is_fatal (PerformRenderPass Examples.desktop None
              ([DRAW 4 0 3; BIND_BUFFER GL_ARRAY_BUFFER None]
               ++ UNIFORM4F None (Some "u_color") 4 [] :: [BINDPROGRAM 1])
              Examples.world0).
Proof.
  apply (named_uniform_needs_BINDPROGRAM Examples.desktop None
           [DRAW 4 0 3; BIND_BUFFER GL_ARRAY_BUFFER None]
           (UNIFORM4F None (Some "u_color") 4 []) [BINDPROGRAM 1] Examples.world0);
    reflexivity.
Defined.

(** *** A program that links *)

Lemma assign_inv {T} (sel : Heap -> gmap ptr T) upd p (f : T -> T) w t w' :
  assign sel upd p f w = (t, Ok tt w') ->
  exists x, sel (heap w) !! p = Some x /\ t = [] /\
            w' = set_heap (upd (<[p := f x]> (sel (heap w))) (heap w)) w.
Proof.
  unfold assign. intros H. apply bind_ok_inv in H as (? & x & ? & ? & D & M & ->).
  apply deref_inv in D as (Hp & -> & ->). injection M as <- <-.
  exists x. auto.
Qed.

Lemma queries_run E prog qs :
  NoDup (List.map dest qs) ->
  forall w t w',
    for_each qs (fun x =>
      match name x with
      | Some nm =>
          l <- glGetUniformLocation E prog nm ;;
          modify_heap (fun h => with_ints (<[dest x := l]> (ints h)) h)
      | None => fail (AssertFailed "x.name")
      end) w = (t, Ok tt w') ->
    (forall x, In x qs ->
       exists nm, name x = Some nm /\
                  ints (heap w') !! dest x = Some (uniform_location (driver E) prog nm)) /\
    (forall d, ~ In d (List.map dest qs) -> ints (heap w') !! d = ints (heap w) !! d) /\
    forallb not_use_program t = true.
Proof.
  induction qs as [|q qs IH]; intros Hnd w t w' H.
  - injection H as <- <-. split; [intros x []|split; reflexivity].
  - cbn [for_each] in H. apply bind_ok_inv in H as (t1 & [] & w1 & t2 & H1 & H2 & ->).
    cbn [List.map] in Hnd. apply NoDup_cons in Hnd as [Hq Hnd].
    rewrite list_elem_of_In in Hq.
    destruct (name q) as [nm|] eqn:Hn; [|discriminate].
    cbn in H1. injection H1 as <- <-.
    destruct (IH Hnd _ _ _ H2) as (I1 & I2 & I3).
    split; [|split].
    + intros x [Hxq|Hx]; [subst x|apply I1, Hx].
      exists nm. split; [exact Hn|]. rewrite (I2 _ Hq). cbn. apply lookup_insert_eq.
    + intros d Hd. cbn [List.map In] in Hd. rewrite I2 by tauto.
      cbn. apply lookup_insert_ne. intros Heq. subst d. tauto.
    + cbn. exact I3.
Qed.

(** X20: When the program of a CREATE_PROGRAM step links, the step makes it
    current once and resolves every uniform query of the program object
    against it: each destination cell ends up holding the location the
    driver gives for the query's name in the new program, and no other cell
    changes.  (The destinations are taken to be distinct.) *)
Theorem CREATE_PROGRAM_resolves_uniforms E p shs n dual b w tr b' w' pr0 :
  programs (heap w) !! p = Some pr0 ->
  link_status (driver E) (Z.pos (next_name w)) = true ->
  NoDup (List.map dest (queries_ pr0)) ->
  RunInitStep E (CREATE_PROGRAM p shs n dual) b w = (tr, Ok b' w') ->
  (forall x, In x (queries_ pr0) ->
     exists nm, name x = Some nm /\
                ints (heap w') !! dest x
                = Some (uniform_location (driver E) (Z.pos (next_name w)) nm)) /\
  (forall d, ~ In d (List.map dest (queries_ pr0)) ->
             ints (heap w') !! d = ints (heap w) !! d) /\
  List.filter (is_call "glUseProgram") tr = [GL "glUseProgram" [I (Z.pos (next_name w))]].
Proof.
  intros Hp0 Hl Hnd. unfold RunInitStep. intros H.
  assert (Hq : forall e, not_use_program e = true -> is_call "glUseProgram" e = false)
    by (intros e; apply negb_true_iff).
  apply bind_ok_inv in H as (t1 & prog & w1 & t2 & H1 & H & ->).
  apply glCreate_inv in H1 as (-> & -> & K1).
  set (prog := Z.pos (next_name w)) in *.
  apply bind_ok_inv in H as (t2' & [] & w2 & t3 & H2 & H & ->).
  apply assign_inv in H2 as (x & Hx & -> & ->).
  rewrite K1, Hp0 in Hx. injection Hx as <-.
  apply bind_ok_inv in H as (t3' & [] & w3 & t4 & H3 & H & ->).
  assert (E3 : t3' = [] /\ w3 = set_heap
             (with_programs (<[p:=set_program prog pr0]> (programs (heap w1))) (heap w1)) w1).
  { unfold _assert_msg_ in H3. destruct (0 <? n); [|discriminate].
    injection H3 as <- <-. auto. }
  destruct E3 as [-> ->].
  apply bind_ok_inv in H as (t4' & [] & w4 & t5 & H4 & H & ->).
  assert (E4 : forallb not_use_program t4' = true).
  { eapply emits_run; [|exact H4]. unfold_init. emits_init. }
  assert (K4 : heap w4 = heap (set_heap
             (with_programs (<[p:=set_program prog pr0]> (programs (heap w1))) (heap w1)) w1)).
  { assert (K : keeps same_heap (for_range 0 (Z.to_nat n) (fun i =>
        sp <- index shs i ;;
        sh <- deref shaders sp ;;
        _dbg_assert_msg_ E (negb (shader sh =? 0)) "Can't create a program with a null shader" ;;
        gl "glAttachShader" [I prog; I (shader sh)])))
      by (unfold_init; keeps_heap; unfold _assert_msg_; keeps_heap).
    match type of H4 with _ ?w0 = _ => specialize (K w0) end. rewrite H4 in K. exact K. }
  apply bind_ok_inv in H as (t5' & program & w5 & t6 & H5 & H & ->).
  apply deref_inv in H5 as (Hpr & -> & ->).
  rewrite K4 in Hpr. cbn in Hpr. rewrite lookup_insert_eq in Hpr. injection Hpr as <-.
  apply bind_ok_inv in H as (t6' & [] & w6 & t7 & H6 & H & ->).
  assert (E6 : forallb not_use_program t6' = true).
  { eapply emits_run; [|exact H6]. emits_init. }
  assert (K6 : heap w6 = heap w4).
  { assert (K : keeps same_heap (for_each (semantics_ (set_program prog pr0)) (fun iter =>
        gl "glBindAttribLocation" [I prog; I (sem_location iter); S (attrib iter)])))
      by keeps_heap.
    specialize (K w4). rewrite H6 in K. exact K. }
  apply bind_ok_inv in H as (t7' & [] & w7 & t8 & H7 & H & ->).
  assert (E7 : forallb not_use_program t7' = true).
  { eapply emits_run; [|exact H7]. unfold_init. emits_init. }
  assert (K7 : heap w7 = heap w6).
  { assert (K : keeps same_heap (bind_frag_data E prog dual))
      by (unfold_init; keeps_heap).
    specialize (K w6). rewrite H7 in K. exact K. }
  apply bind_ok_inv in H as (t8' & [] & w8 & t9 & H8 & H & ->).
  injection H8 as <- <-.
  apply bind_ok_inv in H as (t9' & st & w9 & t10 & H9 & H & ->).
  unfold glGetProgramiv_LINK_STATUS in H9. fold prog in Hl. rewrite Hl in H9.
  cbn in H9. injection H9 as <- <- <-.
  apply bind_ok_inv in H as (t10' & [] & w10 & t11 & H10 & H & ->).
  injection H as <- _ <-.
  change (negb (GL_TRUE =? GL_TRUE)) with false in H10. cbv iota in H10.
  apply bind_ok_inv in H10 as (ta & [] & wa & tb & Ha & H10 & ->).
  injection Ha as <- <-.
  apply bind_ok_inv in H10 as (tq & [] & wq & ti & Hqs & Hi & ->).
  cbn [queries_ set_program] in Hqs.
  destruct (queries_run E prog _ Hnd _ _ _ Hqs) as (Q1 & Q2 & Q3).
  assert (Ei : forallb not_use_program ti = true).
  { eapply emits_run; [|exact Hi]. emits_init. }
  assert (Ki : heap w10 = heap wq).
  { assert (K : keeps same_heap (for_each (initialize_ (set_program prog pr0)) (fun init =>
        u <- deref ints (uniform init) ;;
        if negb (u =? -1) then
          if init_type init =? 0 then gl "glUniform1i" [I u; I (value init)] else ret tt
        else ret tt))) by keeps_heap.
    specialize (K wq). rewrite Hi in K. exact K. }
  assert (Kw7 : ints (heap w7) = ints (heap w)).
  { rewrite K7, K6, K4. cbn. rewrite K1. reflexivity. }
  split; [|split].
  - intros y Hy. destruct (Q1 y Hy) as (nm & Hn & Hv). exists nm. rewrite Ki. auto.
  - intros d Hd. rewrite Ki, (Q2 d Hd), Kw7. reflexivity.
  - rewrite !List.filter_app.
    rewrite (filter_none not_use_program _ t4' Hq E4).
    rewrite (filter_none not_use_program _ t6' Hq E6).
    rewrite (filter_none not_use_program _ t7' Hq E7).
    rewrite (filter_none not_use_program _ tq Hq Q3).
    rewrite (filter_none not_use_program _ ti Hq Ei).
    reflexivity.
Qed.

Lemma CREATE_PROGRAM_resolves_uniforms_witness :
  exists tr b' w',
    RunInitStep Configurations.linking (CREATE_PROGRAM 1 [1%positive] 1 false) 7
      Configurations.world3 = (tr, Ok b' w') /\
    (forall x, In x (queries_ Configurations.program3) ->
       exists nm, name x = Some nm /\
                  ints (heap w') !! dest x
                  = Some (uniform_location (driver Configurations.linking) 100 nm)) /\
    (forall d, ~ In d (List.map dest (queries_ Configurations.program3)) ->
               ints (heap w') !! d = ints (heap Configurations.world3) !! d) /\
    List.filter (is_call "glUseProgram") tr = [GL "glUseProgram" [I 100]].
Proof.
  assert (K : NoDup (List.map dest (queries_ Configurations.program3))).
  { repeat constructor; cbn; rewrite ?list_elem_of_In; cbn; intuition discriminate. }
  eexists _, _, _.
  refine ((fun H =>
             conj H (CREATE_PROGRAM_resolves_uniforms Configurations.linking 1 [1%positive]
                       1 false 7 Configurations.world3 _ _ _ Configurations.program3
                       eq_refl eq_refl K H)) _).
  vm_compute. reflexivity.
Defined.
